(** * NDFileNetCDF: writing NDArrays to netCDF files

    A shallow embedding of [ADApp/pluginSrc/NDFileNetCDF.cpp]
    ([openFile], [writeFile], [readFile], [closeFile] and the
    constructor) and the properties of the file layout it produces.

    The netCDF library is an external collaborator.  Every call the
    plugin makes is recorded, together with the library's reply, in a
    trace; the reply itself comes from a parameter of the development, so
    every theorem holds for any behaviour of the library (any call may
    fail, any identifier may be handed back). *)

From stdpp Require Import base list strings pretty relations.
From Stdlib Require Import ZArith Lia.

Open Scope Z_scope.

(** ** Data model *)

(** [asynStatus] (asynDriver.h): the two values the plugin returns. *)
Inductive asynStatus : Type := asynSuccess | asynError.

(** [NDDataType_t]: element type of the frame's data buffer. *)
Inductive NDDataType_t : Type :=
| NDInt8 | NDUInt8 | NDInt16 | NDUInt16 | NDInt32 | NDUInt32
| NDFloat32 | NDFloat64.

(** [NDAttrDataType_t]: type of an attribute value. *)
Inductive NDAttrDataType_t : Type :=
| NDAttrInt8 | NDAttrUInt8 | NDAttrInt16 | NDAttrUInt16
| NDAttrInt32 | NDAttrUInt32 | NDAttrFloat32 | NDAttrFloat64
| NDAttrString | NDAttrUndefined.

(** [nc_type] (netcdf.h): external storage types. *)
Inductive nc_type : Type :=
| NC_NAT | NC_BYTE | NC_CHAR | NC_SHORT | NC_INT | NC_FLOAT | NC_DOUBLE.

Global Instance NDAttrDataType_eq_dec : EqDecision NDAttrDataType_t.
Proof. solve_decision. Defined.
Global Instance nc_type_eq_dec : EqDecision nc_type.
Proof. solve_decision. Defined.
Global Instance asynStatus_eq_dec : EqDecision asynStatus.
Proof. solve_decision. Defined.

(** Floating-point values are only ever handed to the library through a
    pointer; they are carried as their IEEE-754 bit pattern. *)
Definition epicsFloat32 : Type := Z.
Definition epicsFloat64 : Type := Z.

(** Modelled from the spec: NDArray.h is not part of the sources.  A
    dimension descriptor is [{size, offset, binning, reverse}]. *)
Record NDDimension_t : Type := mkDim {
  dim_size : Z;
  dim_offset : Z;
  dim_binning : Z;
  dim_reverse : Z
}.

(** The value of an attribute: the [NDAttrValue] union together with the
    string payload, tagged by the attribute's data type. *)
Inductive NDAttrValue : Type :=
| AttrInt8 (i8 : Z) | AttrUInt8 (ui8 : Z)
| AttrInt16 (i16 : Z) | AttrUInt16 (ui16 : Z)
| AttrInt32 (i32 : Z) | AttrUInt32 (ui32 : Z)
| AttrFloat32 (f32 : epicsFloat32) | AttrFloat64 (f64 : epicsFloat64)
| AttrString (pString : string)
| AttrUndefined.

(** Modelled from the spec: the NDAttribute class is not part of the
    sources.  An attribute is a named, described, typed scalar value. *)
Record NDAttribute : Type := mkAttr {
  pName : string;
  pDescription : string;
  pValue : NDAttrValue
}.

(** Modelled from the spec: the NDArray class is not part of the sources.
    A frame has an element type, an ordered list of dimension
    descriptors, a unique identifier, a timestamp, a raw data buffer and
    an ordered list of attributes.  [ndims] is the number of dimension
    descriptors, [numAttributes] the number of attributes, and
    [nextAttribute] walks the attribute list front to back. *)
Record NDArray : Type := mkArray {
  dataType : NDDataType_t;
  dims : list NDDimension_t;
  uniqueId : Z;
  timeStamp : epicsFloat64;
  pData : list Byte.byte;
  attributes : list NDAttribute
}.

Definition ndims (pArray : NDArray) : nat := length (dims pArray).
Definition numAttributes (pArray : NDArray) : nat := length (attributes pArray).

(** [NDAttribute::getValueInfo]: the data type of the attribute. *)
Definition getValueInfo (pAttribute : NDAttribute) : NDAttrDataType_t :=
  match pValue pAttribute with
  | AttrInt8 _ => NDAttrInt8 | AttrUInt8 _ => NDAttrUInt8
  | AttrInt16 _ => NDAttrInt16 | AttrUInt16 _ => NDAttrUInt16
  | AttrInt32 _ => NDAttrInt32 | AttrUInt32 _ => NDAttrUInt32
  | AttrFloat32 _ => NDAttrFloat32 | AttrFloat64 _ => NDAttrFloat64
  | AttrString _ => NDAttrString
  | AttrUndefined => NDAttrUndefined
  end.

(** Modelled from the spec: [NDAttribute::getValue] is not part of the
    sources.  A string attribute carries a payload of bounded length; a
    payload that fits the caller's buffer of [dataSize] bytes with its
    terminator arrives whole.  For a longer one the buffer holds no
    terminated string for [strlen] to measure, and the model gives no
    result. *)
Definition getValue_string (pString : string) (dataSize : nat) : option string :=
  if decide (String.length pString < dataSize)%nat then Some pString else None.

(** Modelled from the spec: [NDAttribute::getName] and
    [NDAttribute::getDescription] are not part of the sources.  They
    copy the attribute's name and description into the caller's buffer
    of [nameSize] or [descSize] bytes the way [getValue] copies a
    string: a text that fits the buffer with its terminator arrives
    whole.  For a longer one the buffer holds no terminated string for
    the [%s] of [epicsSnprintf], for [strlen] or for the library to
    read, and the model gives no result. *)
Definition getName (pAttribute : NDAttribute) (nameSize : nat) : option string :=
  getValue_string (pName pAttribute) nameSize.
Definition getDescription (pAttribute : NDAttribute) (descSize : nat)
    : option string :=
  getValue_string (pDescription pAttribute) descSize.
Global Arguments getName : simpl never.
Global Arguments getDescription : simpl never.

(** NDArray string attributes can be of any length, but netCDF requires a
    fixed maximum length. *)
Definition MAX_ATTRIBUTE_STRING_SIZE : nat := 256.

(** [epicsSnprintf(tempString, sizeof(tempString), ...)]: the formatted
    text, cut to what fits the buffer with its terminator. *)
Definition epicsSnprintf (size : nat) (text : string) : string :=
  String.substring 0 (size - 1) text.

(** Reading a [w]-bit object through a pointer to the signed type. *)
Definition to_signed (w : Z) (v : Z) : Z :=
  (v + 2 ^ (w - 1)) mod 2 ^ w - 2 ^ (w - 1).

(** ** The netCDF interface *)

(** Constants of netcdf.h. *)
Definition NC_NOERR : Z := 0.
Definition NC_CLOBBER : Z := 0.
Definition NC_GLOBAL : Z := -1.
Definition NC_UNLIMITED : Z := 0.

(** What a data pointer handed to [nc_put_vara_*] points to. *)
Inductive nc_buffer : Type :=
| buf_value (v : Z)                  (* one integer or floating-point object *)
| buf_data (bytes : list Byte.byte). (* the frame's raw buffer *)

(** The library calls the plugin makes, with their arguments.  Array
    arguments ([dimids], [start], [count]) list the entries the caller
    has initialised; the library reads as many as the variable has
    axes. *)
Inductive nc_call : Type :=
| nc_create (path : string) (cmode : Z)
| nc_put_att_int (ncid varid : Z) (name : string) (xtype : nc_type)
                 (len : nat) (op : list Z)
| nc_put_att_double (ncid varid : Z) (name : string) (xtype : nc_type)
                    (len : nat) (op : list epicsFloat64)
| nc_put_att_text (ncid varid : Z) (name : string) (len : nat) (op : string)
| nc_def_dim (ncid : Z) (name : string) (len : Z)
| nc_def_var (ncid : Z) (name : string) (xtype : nc_type)
             (nd : nat) (dimids : list Z)
| nc_enddef (ncid : Z)
| nc_put_vara_schar (ncid varid : Z) (start count : list Z) (op : nc_buffer)
| nc_put_vara_short (ncid varid : Z) (start count : list Z) (op : nc_buffer)
| nc_put_vara_int (ncid varid : Z) (start count : list Z) (op : nc_buffer)
| nc_put_vara_float (ncid varid : Z) (start count : list Z) (op : nc_buffer)
| nc_put_vara_double (ncid varid : Z) (start count : list Z) (op : nc_buffer)
| nc_put_vara_text (ncid varid : Z) (start count : list Z) (op : string)
| nc_close (ncid : Z).

(** The library's answer: the status it returns and, for the calls that
    take an output pointer ([nc_create], [nc_def_dim], [nc_def_var]), the
    identifier stored through it. *)
Record nc_reply : Type := mkReply { retval : Z; out_id : Z }.

Definition has_out (c : nc_call) : bool :=
  match c with
  | nc_create _ _ | nc_def_dim _ _ _ | nc_def_var _ _ _ _ _ => true
  | _ => false
  end.

(** One entry of the trace: the call, the status the library returned
    and the identifier it handed back, if the call has one. *)
Record nc_event : Type := mkEvent {
  ev_call : nc_call;
  ev_retval : Z;
  ev_id : option Z
}.

Definition event_of (c : nc_call) (r : nc_reply) : nc_event :=
  mkEvent c (retval r) (if has_out c then Some (out_id r) else None).

(** ** The session object and the world around it *)

(** Modelled from the spec: NDFileNetCDF.h is not part of the sources.
    The members of [NDFileNetCDF] the four methods use: the file and
    variable identifiers, the write cursor [nextRecord] (a single
    integer), and [pAttributeId], which is [NULL] ([None]) or points to a
    block owned by the session alone, given by its contents.
    [free(pAttributeId)] followed by [calloc] replaces the block;
    allocation is taken to succeed. *)
Record NDFileNetCDF : Type := mkSession {
  ncId : Z;
  nextRecord : Z;
  uniqueIdId : Z;
  timeStampId : Z;
  arrayDataId : Z;
  pAttributeId : option (list Z)
}.

Record world : Type := mkWorld {
  this : NDFileNetCDF;
  trace : list nc_event
}.

(** ** A monad for method bodies

    A statement either falls through to the next one, leaves the method
    with [return(status)], or has no behaviour the source determines (a
    read outside the block [pAttributeId] points to, [strlen] of an
    unterminated buffer). *)
Inductive outcome (A : Type) : Type :=
| Next (a : A) (w : world)
| Return (s : asynStatus) (w : world)
| Undefined.
Arguments Next {A} a w.
Arguments Return {A} s w.
Arguments Undefined {A}.

Definition M (A : Type) : Type := world → outcome A.

Global Instance M_ret : MRet M := λ A a w, Next a w.
Global Instance M_bind : MBind M := λ A B f m w,
  match m w with
  | Next a w' => f a w'
  | Return s w' => Return s w'
  | Undefined => Undefined
  end.

Definition return_ {A} (s : asynStatus) : M A := λ w, Return s w.
Definition undefined {A} : M A := λ _, Undefined.
(** The string in a character buffer, when the buffer holds a
    terminated one. *)
Definition read_buffer (buf : option string) : M string :=
  match buf with
  | Some text => mret text
  | None => undefined
  end.
Global Arguments read_buffer : simpl never.
Definition get_this : M NDFileNetCDF := λ w, Next (this w) w.
Definition set_this (f : NDFileNetCDF → NDFileNetCDF) : M unit :=
  λ w, Next tt (mkWorld (f (this w)) (trace w)).

(** What a method call yields. *)
Inductive result : Type :=
| Returns (s : asynStatus) (w : world)
| Undef.

Definition method (body : M asynStatus) (w : world) : result :=
  match body w with
  | Next s w' | Return s w' => Returns s w'
  | Undefined => Undef
  end.

(** Field updates of the session object. *)
Definition set_ncId (v : Z) (t : NDFileNetCDF) : NDFileNetCDF :=
  mkSession v (nextRecord t) (uniqueIdId t) (timeStampId t) (arrayDataId t) (pAttributeId t).
Definition set_nextRecord (v : Z) (t : NDFileNetCDF) : NDFileNetCDF :=
  mkSession (ncId t) v (uniqueIdId t) (timeStampId t) (arrayDataId t) (pAttributeId t).
Definition set_uniqueIdId (v : Z) (t : NDFileNetCDF) : NDFileNetCDF :=
  mkSession (ncId t) (nextRecord t) v (timeStampId t) (arrayDataId t) (pAttributeId t).
Definition set_timeStampId (v : Z) (t : NDFileNetCDF) : NDFileNetCDF :=
  mkSession (ncId t) (nextRecord t) (uniqueIdId t) v (arrayDataId t) (pAttributeId t).
Definition set_arrayDataId (v : Z) (t : NDFileNetCDF) : NDFileNetCDF :=
  mkSession (ncId t) (nextRecord t) (uniqueIdId t) (timeStampId t) v (pAttributeId t).
Definition set_pAttributeId (v : option (list Z)) (t : NDFileNetCDF) : NDFileNetCDF :=
  mkSession (ncId t) (nextRecord t) (uniqueIdId t) (timeStampId t) (arrayDataId t) v.

(** The initialised part of the local arrays of [openFile]: [dimIds]
    has room for [ND_ARRAY_MAX_DIMS+1] entries and the others for
    [ND_ARRAY_MAX_DIMS], the most dimensions a frame has. *)
Record dim_arrays : Type := mkDimArrays {
  l_dimIds : list Z;
  l_size : list Z;
  l_offset : list Z;
  l_binning : list Z;
  l_reverse : list Z
}.

(** ** The methods *)

Section NDFileNetCDF.

(** The behaviour of the netCDF library: its reply to a call, given
    everything that happened before. *)
Variable netcdf : list nc_event → nc_call → nc_reply.

(** Constants and enumeration codes of headers that are not part of
    the sources (NDPluginFile.h, NDFileNetCDF.h, NDArray.h). *)
Variables NDFileModeRead NDFileModeAppend NDFileModeMultiple : Z.
Variable NDNetCDFFileVersion : epicsFloat64.
Variable NDDataType_code : NDDataType_t → Z.
Variable NDAttrDataType_code : NDAttrDataType_t → Z.

(** A library call: the reply is recorded in the trace. *)
Definition nc (c : nc_call) : M nc_reply := λ w,
  let r := netcdf (trace w) c in
  Next r (mkWorld (this w) (trace w ++ [event_of c r])).

(** [if ((retval = call)) ERR(retval);] : on a non-zero status the
    [ERR] macro prints the library's message and returns [asynError];
    otherwise the identifier handed back is available. *)
Definition try_nc (c : nc_call) : M Z :=
  r ← nc c;
  if decide (retval r = NC_NOERR) then mret (out_id r) else return_ asynError.

(** [pArray->dims[j]] *)
Definition read_dim (pArray : NDArray) (j : nat) : M NDDimension_t :=
  match dims pArray !! j with
  | Some d => mret d
  | None => undefined
  end.

(** [this->pAttributeId[k] = id] *)
Definition store_attrId (k : nat) (id : Z) : M unit := λ w,
  match pAttributeId (this w) with
  | Some ids =>
      if decide (k < length ids)%nat
      then Next tt (mkWorld (set_pAttributeId (Some (<[k:=id]> ids)) (this w)) (trace w))
      else Undefined
  | None => Undefined
  end.

(** [this->pAttributeId[k]] *)
Definition load_attrId (k : nat) : M Z := λ w,
  match pAttributeId (this w) with
  | Some ids =>
      match ids !! k with
      | Some id => Next id w
      | None => Undefined
      end
  | None => Undefined
  end.

(** Convert from NDArray data types to netCDF data types. *)
Definition ncType_of_dataType (dt : NDDataType_t) : nc_type :=
  match dt with
  | NDInt8 | NDUInt8 => NC_BYTE
  | NDInt16 | NDUInt16 => NC_SHORT
  | NDInt32 | NDUInt32 => NC_INT
  | NDFloat32 => NC_FLOAT
  | NDFloat64 => NC_DOUBLE
  end.

(** The [switch (attrDataType)] of [openFile]: the storage type the
    case assigns to [ncType], or none for the case that returns. *)
Definition attr_ncType (adt : NDAttrDataType_t) : option nc_type :=
  match adt with
  | NDAttrInt8 | NDAttrUInt8 => Some NC_BYTE
  | NDAttrInt16 | NDAttrUInt16 => Some NC_SHORT
  | NDAttrInt32 | NDAttrUInt32 => Some NC_INT
  | NDAttrFloat32 => Some NC_FLOAT
  | NDAttrFloat64 => Some NC_DOUBLE
  | NDAttrString => Some NC_CHAR
  | NDAttrUndefined => None
  end.

Definition ncType_of_attrDataType (adt : NDAttrDataType_t) : M nc_type :=
  match attr_ncType adt with
  | Some ncType => mret ncType
  | None => return_ asynError
  end.

(** The next dimensions are the dimensions of the data in reversed
    order: the body of [for (i=0; i<pArray->ndims; i++)], run for the
    indices [idxs].  Iteration [i] writes [dimIds[i+1]], [size[i]],
    [offset[i]], [binning[i]] and [reverse[i]]. *)
Fixpoint define_dims (ncid : Z) (pArray : NDArray) (idxs : list nat)
    (a : dim_arrays) : M dim_arrays :=
  match idxs with
  | [] => mret a
  | i :: idxs' =>
      let j := (ndims pArray - i - 1)%nat in
      dj ← read_dim pArray j;
      id ← try_nc (nc_def_dim ncid ("dim" +:+ pretty i) (dim_size dj));
      di ← read_dim pArray i;
      define_dims ncid pArray idxs'
        (mkDimArrays (l_dimIds a ++ [id])
                     (l_size a ++ [dim_size di])
                     (l_offset a ++ [dim_offset di])
                     (l_binning a ++ [dim_binning di])
                     (l_reverse a ++ [dim_reverse di]))
  end.

(** Create a variable for each attribute in the array: the body of
    [while (pAttribute)], run for the attributes still to visit. *)
Fixpoint define_attributes (ncid : Z) (dimIds stringDimIds : list Z)
    (rest : list NDAttribute) (attrCount : nat) : M unit :=
  match rest with
  | [] => mret tt
  | pAttribute :: rest' =>
      let attrDataType := getValueInfo pAttribute in
      name ← read_buffer (getName pAttribute MAX_ATTRIBUTE_STRING_SIZE);
      let tempString :=
        epicsSnprintf MAX_ATTRIBUTE_STRING_SIZE (name +:+ "_DataType") in
      try_nc (nc_put_att_int ncid NC_GLOBAL tempString NC_INT 1
                [NDAttrDataType_code attrDataType]);;
      description ← read_buffer
                      (getDescription pAttribute MAX_ATTRIBUTE_STRING_SIZE);
      let tempString :=
        epicsSnprintf MAX_ATTRIBUTE_STRING_SIZE (name +:+ "_Description") in
      try_nc (nc_put_att_text ncid NC_GLOBAL tempString
                (String.length description) description);;
      ncType ← ncType_of_attrDataType attrDataType;
      id ← (if decide (attrDataType = NDAttrString)
            then try_nc (nc_def_var ncid name ncType 2 stringDimIds)
            else try_nc (nc_def_var ncid name ncType 1 (take 1 dimIds)));
      store_attrId attrCount id;;
      define_attributes ncid dimIds stringDimIds rest' (S attrCount)
  end.

Definition openFile (fileName : string) (openMode : Z) (pArray : NDArray)
    : M asynStatus :=
  (* We don't support reading yet *)
  if decide (Z.land openMode NDFileModeRead ≠ 0) then return_ asynError else
  (* We don't support opening an existing file for appending yet *)
  if decide (Z.land openMode NDFileModeAppend ≠ 0) then return_ asynError else
  (* Set the next record in the file to 0 *)
  set_this (set_nextRecord 0);;
  (* Create the file *)
  ncid ← try_nc (nc_create fileName NC_CLOBBER);
  set_this (set_ncId ncid);;
  try_nc (nc_put_att_int ncid NC_GLOBAL "dataType" NC_INT 1
            [NDDataType_code (dataType pArray)]);;
  let fileVersion := NDNetCDFFileVersion in
  try_nc (nc_put_att_double ncid NC_GLOBAL "NDNetCDFFileVersion" NC_DOUBLE 1
            [fileVersion]);;
  try_nc (nc_put_att_int ncid NC_GLOBAL "numArrayDims" NC_INT 1
            [Z.of_nat (ndims pArray)]);;
  (* We make the first dimension the number of arrays in the file. *)
  let dim0 := if decide (Z.land openMode NDFileModeMultiple ≠ 0)
              then NC_UNLIMITED else 1 in
  id0 ← try_nc (nc_def_dim ncid "numArrays" dim0);
  a ← define_dims ncid pArray (seq 0 (ndims pArray))
        (mkDimArrays [id0] [] [] [] []);
  let dimIds := l_dimIds a in
  (* String attributes are special. *)
  idS ← try_nc (nc_def_dim ncid "attrStringSize" (Z.of_nat MAX_ATTRIBUTE_STRING_SIZE));
  let stringDimIds := take 1 dimIds ++ [idS] in
  (* Create global attribute for information about the dimensions *)
  try_nc (nc_put_att_int ncid NC_GLOBAL "dimSize" NC_INT (ndims pArray) (l_size a));;
  try_nc (nc_put_att_int ncid NC_GLOBAL "dimOffset" NC_INT (ndims pArray) (l_offset a));;
  try_nc (nc_put_att_int ncid NC_GLOBAL "dimBinning" NC_INT (ndims pArray) (l_binning a));;
  try_nc (nc_put_att_int ncid NC_GLOBAL "dimReverse" NC_INT (ndims pArray) (l_reverse a));;
  let ncType := ncType_of_dataType (dataType pArray) in
  uid ← try_nc (nc_def_var ncid "uniqueId" NC_INT 1 (take 1 dimIds));
  set_this (set_uniqueIdId uid);;
  tid ← try_nc (nc_def_var ncid "timeStamp" NC_DOUBLE 1 (take 1 dimIds));
  set_this (set_timeStampId tid);;
  did ← try_nc (nc_def_var ncid "array_data" ncType (ndims pArray + 1)
                  (take (ndims pArray + 1) dimIds));
  set_this (set_arrayDataId did);;
  (* Create a variable for each attribute in the array *)
  set_this (set_pAttributeId (Some (replicate (numAttributes pArray) 0)));;
  define_attributes ncid dimIds stringDimIds (attributes pArray) 0%nat;;
  (* End define mode. *)
  try_nc (nc_enddef ncid);;
  mret asynSuccess.

(** [count[i+1] = pArray->dims[j].size; start[i+1] = 0;] for the
    indices [idxs]. *)
Fixpoint slab_dims (pArray : NDArray) (idxs : list nat)
    (start count : list Z) : M (list Z * list Z) :=
  match idxs with
  | [] => mret (start, count)
  | i :: idxs' =>
      let j := (ndims pArray - i - 1)%nat in
      dj ← read_dim pArray j;
      slab_dims pArray idxs' (start ++ [0]) (count ++ [dim_size dj])
  end.

(** The [switch (attrDataType)] of [writeFile]: fetch the value and
    write it to the variable [attrId]. *)
Definition put_attribute (ncid : Z) (start count : list Z)
    (pAttribute : NDAttribute) (attrId : Z) : M Z :=
  match pValue pAttribute with
  | AttrInt8 v | AttrUInt8 v =>
      try_nc (nc_put_vara_schar ncid attrId start count (buf_value (to_signed 8 v)))
  | AttrInt16 v | AttrUInt16 v =>
      try_nc (nc_put_vara_short ncid attrId start count (buf_value (to_signed 16 v)))
  | AttrInt32 v | AttrUInt32 v =>
      try_nc (nc_put_vara_int ncid attrId start count (buf_value (to_signed 32 v)))
  | AttrFloat32 v =>
      try_nc (nc_put_vara_float ncid attrId start count (buf_value v))
  | AttrFloat64 v =>
      try_nc (nc_put_vara_double ncid attrId start count (buf_value v))
  | AttrString s =>
      match getValue_string s MAX_ATTRIBUTE_STRING_SIZE with
      | Some attrString =>
          let stringCount := [1; Z.of_nat (String.length attrString)] in
          try_nc (nc_put_vara_text ncid attrId start stringCount attrString)
      | None => undefined
      end
  | AttrUndefined => return_ asynError
  end.

(** Write the attributes: the body of [while (pAttribute)] in
    [writeFile], run for the attributes still to visit. *)
Fixpoint write_attributes (ncid : Z) (start count : list Z)
    (rest : list NDAttribute) (attrCount : nat) : M unit :=
  match rest with
  | [] => mret tt
  | pAttribute :: rest' =>
      attrId ← load_attrId attrCount;
      put_attribute ncid start count pAttribute attrId;;
      write_attributes ncid start count rest' (S attrCount)
  end.

Definition writeFile (pArray : NDArray) : M asynStatus :=
  self ← get_this;
  '(start, count) ← slab_dims pArray (seq 0 (ndims pArray)) [nextRecord self] [1];
  (* Write the data to the file. *)
  try_nc (nc_put_vara_int (ncId self) (uniqueIdId self) start count
            (buf_value (uniqueId pArray)));;
  try_nc (nc_put_vara_double (ncId self) (timeStampId self) start count
            (buf_value (timeStamp pArray)));;
  match dataType pArray with
  | NDInt8 | NDUInt8 =>
      try_nc (nc_put_vara_schar (ncId self) (arrayDataId self) start count
                (buf_data (pData pArray)))
  | NDInt16 | NDUInt16 =>
      try_nc (nc_put_vara_short (ncId self) (arrayDataId self) start count
                (buf_data (pData pArray)))
  | NDInt32 | NDUInt32 =>
      try_nc (nc_put_vara_int (ncId self) (arrayDataId self) start count
                (buf_data (pData pArray)))
  | NDFloat32 =>
      try_nc (nc_put_vara_float (ncId self) (arrayDataId self) start count
                (buf_data (pData pArray)))
  | NDFloat64 =>
      try_nc (nc_put_vara_double (ncId self) (arrayDataId self) start count
                (buf_data (pData pArray)))
  end;;
  (* Write the attributes. *)
  write_attributes (ncId self) start count (attributes pArray) 0%nat;;
  set_this (λ t, set_nextRecord (nextRecord t + 1) t);;
  mret asynSuccess.

(** Read NDArray data from a netCDF file; not implemented yet. *)
Definition readFile : M asynStatus := return_ asynError.

(** Closes the netCDF file opened with [openFile]. *)
Definition closeFile : M asynStatus :=
  self ← get_this;
  try_nc (nc_close (ncId self));;
  mret asynSuccess.

(** The constructor leaves its own members unset except
    [pAttributeId = NULL]. *)
Definition NDFileNetCDF_new (unset : NDFileNetCDF) : NDFileNetCDF :=
  set_pAttributeId None unset.

(** ** Reading the trace *)

(** The events a call adds: what is in the trace after it and was not
    before. *)
Definition new_events (w w' : world) : list nc_event :=
  drop (length (trace w)) (trace w').

(** An axis the library accepted: name, length and identifier. *)
Record dim_def : Type := mkDimDef { dd_name : string; dd_len : Z; dd_id : Z }.

Definition dim_def_of (e : nc_event) : option dim_def :=
  match ev_call e, ev_id e with
  | nc_def_dim _ name len, Some id =>
      if decide (ev_retval e = NC_NOERR) then Some (mkDimDef name len id) else None
  | _, _ => None
  end.

(** A variable the library accepted: name, storage type, the identifiers
    of its axes, and its own identifier. *)
Record var_def : Type := mkVarDef {
  vd_name : string;
  vd_type : nc_type;
  vd_dimids : list Z;
  vd_id : Z
}.

Definition var_def_of (e : nc_event) : option var_def :=
  match ev_call e, ev_id e with
  | nc_def_var _ name xtype nd dimids, Some id =>
      if decide (ev_retval e = NC_NOERR)
      then Some (mkVarDef name xtype (take nd dimids) id) else None
  | _, _ => None
  end.

(** A global integer attribute the library accepted: name and values. *)
Definition global_int_of (e : nc_event) : option (string * list Z) :=
  match ev_call e with
  | nc_put_att_int _ varid name _ len op =>
      if decide (ev_retval e = NC_NOERR ∧ varid = NC_GLOBAL)
      then Some (name, take len op) else None
  | _ => None
  end.

(** A slab write: variable, start, count. *)
Definition slab_of (c : nc_call) : option (Z * list Z * list Z) :=
  match c with
  | nc_put_vara_schar _ varid start count _
  | nc_put_vara_short _ varid start count _
  | nc_put_vara_int _ varid start count _
  | nc_put_vara_float _ varid start count _
  | nc_put_vara_double _ varid start count _
  | nc_put_vara_text _ varid start count _ => Some (varid, start, count)
  | _ => None
  end.

Definition dim_defs (evs : list nc_event) : list dim_def :=
  omap dim_def_of evs.
Definition var_defs (evs : list nc_event) : list var_def :=
  omap var_def_of evs.
Definition global_ints (evs : list nc_event) : list (string * list Z) :=
  omap global_int_of evs.

(** A library that accepts every call and numbers files, axes and
    variables as netCDF does: in order of definition, from 0. *)
Definition netcdf_ok (hist : list nc_event) (c : nc_call) : nc_reply :=
  mkReply NC_NOERR
    match c with
    | nc_create _ _ => 65536
    | nc_def_dim _ _ _ => Z.of_nat (length (dim_defs hist))
    | nc_def_var _ _ _ _ _ => Z.of_nat (length (var_defs hist))
    | _ => 0
    end.

(** A library that accepts [budget] calls and rejects every later one. *)
Definition netcdf_failing (budget : nat) (hist : list nc_event) (c : nc_call)
    : nc_reply :=
  if decide (length hist < budget)%nat then netcdf_ok hist c
  else mkReply (-1) 0.

(** ** Events of a successful call *)

Definition ok (c : nc_call) : nc_event := mkEvent c NC_NOERR None.
Definition gives (c : nc_call) (id : Z) : nc_event := mkEvent c NC_NOERR (Some id).

Global Instance NDDimension_inhabited : Inhabited NDDimension_t :=
  populate (mkDim 0 0 0 0).

(** The axis definitions of the dimension loop for the indices [idxs],
    given the identifiers handed back. *)
Definition dim_events (ncid : Z) (pArray : NDArray) (idxs : list nat)
    (ids : list Z) : list nc_event :=
  zip_with (λ i id,
    gives (nc_def_dim ncid ("dim" +:+ pretty i)
             (dim_size (dims pArray !!! (ndims pArray - i - 1)%nat))) id)
    idxs ids.

(** The three calls of the attribute loop of [openFile] for one
    attribute. *)
Definition attr_events (ncid : Z) (dimIds stringDimIds : list Z)
    (pAttribute : NDAttribute) (id : Z) : list nc_event :=
  let name := pName pAttribute in
  [ ok (nc_put_att_int ncid NC_GLOBAL
          (epicsSnprintf MAX_ATTRIBUTE_STRING_SIZE (name +:+ "_DataType"))
          NC_INT 1 [NDAttrDataType_code (getValueInfo pAttribute)]);
    ok (nc_put_att_text ncid NC_GLOBAL
          (epicsSnprintf MAX_ATTRIBUTE_STRING_SIZE (name +:+ "_Description"))
          (String.length (pDescription pAttribute)) (pDescription pAttribute));
    gives (let ncType := default NC_NAT (attr_ncType (getValueInfo pAttribute)) in
           if decide (getValueInfo pAttribute = NDAttrString)
           then nc_def_var ncid name ncType 2 stringDimIds
           else nc_def_var ncid name ncType 1 (take 1 dimIds)) id ].

Fixpoint attrs_events (ncid : Z) (dimIds stringDimIds : list Z)
    (attrs : list NDAttribute) (ids : list Z) : list nc_event :=
  match attrs, ids with
  | pAttribute :: attrs', id :: ids' =>
      attr_events ncid dimIds stringDimIds pAttribute id
      ++ attrs_events ncid dimIds stringDimIds attrs' ids'
  | _, _ => []
  end.

(** The call the attribute loop of [writeFile] makes for one attribute,
    if it makes one. *)
Definition attr_write_call (ncid : Z) (start count : list Z)
    (pAttribute : NDAttribute) (attrId : Z) : option nc_call :=
  match pValue pAttribute with
  | AttrInt8 v | AttrUInt8 v =>
      Some (nc_put_vara_schar ncid attrId start count (buf_value (to_signed 8 v)))
  | AttrInt16 v | AttrUInt16 v =>
      Some (nc_put_vara_short ncid attrId start count (buf_value (to_signed 16 v)))
  | AttrInt32 v | AttrUInt32 v =>
      Some (nc_put_vara_int ncid attrId start count (buf_value (to_signed 32 v)))
  | AttrFloat32 v => Some (nc_put_vara_float ncid attrId start count (buf_value v))
  | AttrFloat64 v => Some (nc_put_vara_double ncid attrId start count (buf_value v))
  | AttrString s =>
      if decide (String.length s < MAX_ATTRIBUTE_STRING_SIZE)%nat
      then Some (nc_put_vara_text ncid attrId start
                   [1; Z.of_nat (String.length s)] s)
      else None
  | AttrUndefined => None
  end.

(** The calls of the attribute loop of [writeFile] up to the first
    attribute it has no call for. *)
Fixpoint attr_write_calls (ncid : Z) (start count : list Z)
    (attrs : list NDAttribute) (ids : list Z) : list nc_call :=
  match attrs, ids with
  | pAttribute :: attrs', id :: ids' =>
      match attr_write_call ncid start count pAttribute id with
      | Some c => c :: attr_write_calls ncid start count attrs' ids'
      | None => []
      end
  | _, _ => []
  end.

(** The write of the frame's data buffer. *)
Definition data_write_call (ncid varid : Z) (start count : list Z)
    (pArray : NDArray) : nc_call :=
  match dataType pArray with
  | NDInt8 | NDUInt8 => nc_put_vara_schar ncid varid start count (buf_data (pData pArray))
  | NDInt16 | NDUInt16 => nc_put_vara_short ncid varid start count (buf_data (pData pArray))
  | NDInt32 | NDUInt32 => nc_put_vara_int ncid varid start count (buf_data (pData pArray))
  | NDFloat32 => nc_put_vara_float ncid varid start count (buf_data (pData pArray))
  | NDFloat64 => nc_put_vara_double ncid varid start count (buf_data (pData pArray))
  end.

(** The slab of a frame at record [cursor]: the record axis first, then
    the frame's dimensions, last to first. *)
Definition slab_start (cursor : Z) (pArray : NDArray) : list Z :=
  cursor :: replicate (ndims pArray) 0.
Definition slab_count (pArray : NDArray) : list Z :=
  1 :: (dim_size <$> reverse (dims pArray)).

(** All the calls of a [writeFile] that runs to its end. *)
Definition write_calls (self : NDFileNetCDF) (pArray : NDArray) : list nc_call :=
  let start := slab_start (nextRecord self) pArray in
  let count := slab_count pArray in
  [ nc_put_vara_int (ncId self) (uniqueIdId self) start count
      (buf_value (uniqueId pArray));
    nc_put_vara_double (ncId self) (timeStampId self) start count
      (buf_value (timeStamp pArray));
    data_write_call (ncId self) (arrayDataId self) start count pArray ]
  ++ attr_write_calls (ncId self) start count (attributes pArray)
       (default [] (pAttributeId self)).

(** The world after a library call. *)
Definition push (w : world) (c : nc_call) : world :=
  mkWorld (this w) (trace w ++ [event_of c (netcdf (trace w) c)]).

(** The length of the record axis: either 1 or [NC_UNLIMITED]. *)
Definition record_axis_length (openMode : Z) : Z :=
  if decide (Z.land openMode NDFileModeMultiple ≠ 0) then NC_UNLIMITED else 1.

(** All the events of an [openFile] that runs to its end, given the
    identifiers the library handed back: the file, the record axis, the
    data axes, the text axis, the three fixed variables and the
    attribute variables. *)
Definition open_events (fileName : string) (openMode : Z) (pArray : NDArray)
    (ncid id0 : Z) (ids : list Z) (idS uid tid did : Z) (aids : list Z)
    : list nc_event :=
  [ gives (nc_create fileName NC_CLOBBER) ncid;
    ok (nc_put_att_int ncid NC_GLOBAL "dataType" NC_INT 1
          [NDDataType_code (dataType pArray)]);
    ok (nc_put_att_double ncid NC_GLOBAL "NDNetCDFFileVersion" NC_DOUBLE 1
          [NDNetCDFFileVersion]);
    ok (nc_put_att_int ncid NC_GLOBAL "numArrayDims" NC_INT 1
          [Z.of_nat (ndims pArray)]);
    gives (nc_def_dim ncid "numArrays" (record_axis_length openMode)) id0 ]
  ++ dim_events ncid pArray (seq 0 (ndims pArray)) ids
  ++ [ gives (nc_def_dim ncid "attrStringSize"
                (Z.of_nat MAX_ATTRIBUTE_STRING_SIZE)) idS;
       ok (nc_put_att_int ncid NC_GLOBAL "dimSize" NC_INT (ndims pArray)
             (dim_size <$> dims pArray));
       ok (nc_put_att_int ncid NC_GLOBAL "dimOffset" NC_INT (ndims pArray)
             (dim_offset <$> dims pArray));
       ok (nc_put_att_int ncid NC_GLOBAL "dimBinning" NC_INT (ndims pArray)
             (dim_binning <$> dims pArray));
       ok (nc_put_att_int ncid NC_GLOBAL "dimReverse" NC_INT (ndims pArray)
             (dim_reverse <$> dims pArray));
       gives (nc_def_var ncid "uniqueId" NC_INT 1 [id0]) uid;
       gives (nc_def_var ncid "timeStamp" NC_DOUBLE 1 [id0]) tid;
       gives (nc_def_var ncid "array_data" (ncType_of_dataType (dataType pArray))
                (ndims pArray + 1) (id0 :: ids)) did ]
  ++ attrs_events ncid (id0 :: ids) [id0; idS] (attributes pArray) aids
  ++ [ ok (nc_enddef ncid) ].

(** What a statement may do to the session object and to the trace: the
    trace only grows, every [return] inside it is [return(asynError)],
    and the session object changes along [P]. *)
Definition frame (P : relation NDFileNetCDF) {A} (m : M A) : Prop :=
  ∀ w, match m w with
       | Next _ w' => P (this w) (this w') ∧ trace w `prefix_of` trace w'
       | Return s w' =>
           s = asynError ∧ P (this w) (this w') ∧ trace w `prefix_of` trace w'
       | Undefined => True
       end.

Definition any_change : relation NDFileNetCDF := λ _ _, True.

(** The variable [openFile] defines for one attribute. *)
Definition attr_var (dimIds stringDimIds : list Z) (pAttribute : NDAttribute)
    (id : Z) : var_def :=
  mkVarDef (pName pAttribute)
    (default NC_NAT (attr_ncType (getValueInfo pAttribute)))
    (if decide (getValueInfo pAttribute = NDAttrString)
     then take 2 stringDimIds else take 1 dimIds)
    id.

(** The global attribute that records the type of one attribute. *)
Definition attr_global (pAttribute : NDAttribute) : string * list Z :=
  (epicsSnprintf MAX_ATTRIBUTE_STRING_SIZE (pName pAttribute +:+ "_DataType"),
   [NDAttrDataType_code (getValueInfo pAttribute)]).

(** One more [writeFile] on the session, whatever frame and however it
    ends. *)
Definition write_step (w w' : world) : Prop :=
  ∃ pArray s, method (writeFile pArray) w = Returns s w'.


(** One more [writeFile] that returned [asynSuccess]. *)
Definition write_ok_step (w w' : world) : Prop :=
  ∃ pArray, method (writeFile pArray) w = Returns asynSuccess w'.

(** Between [w] and [w'] the file got no axis. *)
Definition no_axis_yet (w w' : world) : Prop :=
  ∃ evs, trace w' = trace w ++ evs ∧ dim_defs evs = [].

(** ** More ways to read the trace *)

(** The library accepted the call. *)
Definition accepted (e : nc_event) : Prop := ev_retval e = NC_NOERR.

(** A call that creates the file or defines its structure: what
    [openFile] is made of. *)
Definition is_define_call (c : nc_call) : Prop :=
  match c with
  | nc_create _ _ | nc_put_att_int _ _ _ _ _ _ | nc_put_att_double _ _ _ _ _ _
  | nc_put_att_text _ _ _ _ _ | nc_def_dim _ _ _ | nc_def_var _ _ _ _ _
  | nc_enddef _ => True
  | _ => False
  end.

(** A slab write: what [writeFile] is made of. *)
Definition is_slab_write (c : nc_call) : Prop := is_Some (slab_of c).

(** The netCDF type a slab-write function converts from. *)
Definition vara_type (c : nc_call) : option nc_type :=
  match c with
  | nc_put_vara_schar _ _ _ _ _ => Some NC_BYTE
  | nc_put_vara_short _ _ _ _ _ => Some NC_SHORT
  | nc_put_vara_int _ _ _ _ _ => Some NC_INT
  | nc_put_vara_float _ _ _ _ _ => Some NC_FLOAT
  | nc_put_vara_double _ _ _ _ _ => Some NC_DOUBLE
  | nc_put_vara_text _ _ _ _ _ => Some NC_CHAR
  | _ => None
  end.

(** The numeric data a slab write hands over. *)
Definition buffer_of (c : nc_call) : option nc_buffer :=
  match c with
  | nc_put_vara_schar _ _ _ _ op | nc_put_vara_short _ _ _ _ op
  | nc_put_vara_int _ _ _ _ op | nc_put_vara_float _ _ _ _ op
  | nc_put_vara_double _ _ _ _ op => Some op
  | _ => None
  end.

(** A global text attribute the library accepted: name and text. *)
Definition global_text_of (e : nc_event) : option (string * string) :=
  match ev_call e with
  | nc_put_att_text _ varid name len op =>
      if decide (ev_retval e = NC_NOERR ∧ varid = NC_GLOBAL)
      then Some (name, String.substring 0 len op) else None
  | _ => None
  end.

Definition global_texts (evs : list nc_event) : list (string * string) :=
  omap global_text_of evs.

(** The width in bits and the value of an integer attribute. *)
Definition int_attr (v : NDAttrValue) : option (Z * Z) :=
  match v with
  | AttrInt8 v | AttrUInt8 v => Some (8, v)
  | AttrInt16 v | AttrUInt16 v => Some (16, v)
  | AttrInt32 v | AttrUInt32 v => Some (32, v)
  | _ => None
  end.

(** [openFile] can read the attribute: its name and its description fit
    the buffers [name] and [description]. *)
Definition short_name (pAttribute : NDAttribute) : Prop :=
  (String.length (pName pAttribute) < MAX_ATTRIBUTE_STRING_SIZE)%nat.
Definition readable (pAttribute : NDAttribute) : Prop :=
  short_name pAttribute ∧
  (String.length (pDescription pAttribute) < MAX_ATTRIBUTE_STRING_SIZE)%nat.

(** [writeFile] has a call for the attribute: its type is defined and,
    if it is a string, it fits the buffer. *)
Definition writable (pAttribute : NDAttribute) : Prop :=
  getValueInfo pAttribute ≠ NDAttrUndefined ∧
  ∀ str, pValue pAttribute = AttrString str →
    (String.length str < MAX_ATTRIBUTE_STRING_SIZE)%nat.

(** What a statement adds to the trace: [N] when it falls through, [R]
    when it returns. *)
Definition traced (N R : list nc_event → Prop) {A} (m : M A) : Prop :=
  ∀ w, match m w with
       | Next _ w' => ∃ evs, trace w' = trace w ++ evs ∧ N evs
       | Return _ w' => ∃ evs, trace w' = trace w ++ evs ∧ R evs
       | Undefined => True
       end.

(** Every call was accepted. *)
Definition all_accepted (evs : list nc_event) : Prop := Forall accepted evs.

(** Every call but the last was accepted, and the last was rejected. *)
Definition rejected_last (evs : list nc_event) : Prop :=
  ∃ evs0 e, evs = evs0 ++ [e] ∧ Forall accepted evs0 ∧ ¬ accepted e.

(** Every call is one of [Q]. *)
Definition calls_in (Q : nc_call → Prop) (evs : list nc_event) : Prop :=
  Forall (λ e, Q (ev_call e)) evs.

(** What the closure of [traced] under sequencing needs: [N] holds of
    no events and of concatenations, [R] of a part that fell through
    followed by a part that returned, and a single call of [Q] is in [N]
    when accepted and in [R] when rejected. *)
Class TraceSpec (N R : list nc_event → Prop) (Q : nc_call → Prop) : Prop := {
  N_nil : N [];
  N_app : ∀ evs1 evs2, N evs1 → N evs2 → N (evs1 ++ evs2);
  R_app : ∀ evs1 evs2, N evs1 → R evs2 → R (evs1 ++ evs2);
  N_call : ∀ e, Q (ev_call e) → accepted e → N [e];
  R_call : ∀ e, Q (ev_call e) → ¬ accepted e → R [e]
}.

(** The cursor and the file are what they were. *)
Definition same_file : relation NDFileNetCDF :=
  λ t t', nextRecord t' = nextRecord t ∧ ncId t' = ncId t.

(** The identifiers of the session are what they were. *)
Definition same_handles : relation NDFileNetCDF :=
  λ t t', ncId t' = ncId t ∧ uniqueIdId t' = uniqueIdId t ∧
          timeStampId t' = timeStampId t ∧ arrayDataId t' = arrayDataId t ∧
          pAttributeId t' = pAttributeId t.

(** Two runs of a statement on the same trace, from sessions related by
    [P]: they end alike, with the same value and the same trace, and
    where they fall through the sessions are related by [Q]. *)
Definition in_step (P Q : relation NDFileNetCDF) {A} (m : M A) : Prop :=
  ∀ w v, trace w = trace v → P (this w) (this v) →
    match m w, m v with
    | Next a w', Next b v' => a = b ∧ trace w' = trace v' ∧ Q (this w') (this v')
    | Return s w', Return s' v' => s = s' ∧ trace w' = trace v'
    | Undefined, Undefined => True
    | _, _ => False
    end.

(** Sessions related by [P], after the same assignment to both. *)
Definition after (f : NDFileNetCDF → NDFileNetCDF) (P : relation NDFileNetCDF)
    : relation NDFileNetCDF :=
  λ t' u', ∃ t u, P t u ∧ t' = f t ∧ u' = f u.

(** ** Running method bodies *)

Lemma run_bind {A B} (m : M A) (f : A → M B) (w : world) :
  (m ≫= f) w = match m w with
               | Next a w' => f a w'
               | Return s w' => Return s w'
               | Undefined => Undefined
               end.
Proof. reflexivity. Qed.

Lemma run_try_nc (c : nc_call) (w : world) :
  try_nc c w =
    if decide (retval (netcdf (trace w) c) = NC_NOERR)
    then Next (out_id (netcdf (trace w) c)) (push w c)
    else Return asynError (push w c).
Proof.
  unfold try_nc, nc. rewrite run_bind. simpl.
  destruct (decide _); reflexivity.
Qed.

Lemma event_of_ok (c : nc_call) (r : nc_reply) :
  retval r = NC_NOERR →
  event_of c r = if has_out c then gives c (out_id r) else ok c.
Proof. intros H. unfold event_of, gives, ok. rewrite H. by destruct (has_out c). Qed.

Lemma try_nc_Next (c : nc_call) (w : world) (id : Z) (w' : world) :
  try_nc c w = Next id w' →
  this w' = this w ∧
  trace w' = trace w ++ [if has_out c then gives c id else ok c].
Proof.
  rewrite run_try_nc. destruct (decide _) as [Hr|Hr]; [|done].
  intros [= <- <-]. simpl. by rewrite event_of_ok.
Qed.

Lemma try_nc_Return (c : nc_call) (w : world) (s : asynStatus) (w' : world) :
  try_nc c w = Return s w' →
  s = asynError ∧ this w' = this w ∧ ∃ e, ev_call e = c ∧ ev_retval e ≠ NC_NOERR ∧ trace w' = trace w ++ [e].
Proof.
  rewrite run_try_nc. destruct (decide _) as [Hr|Hr]; [done|].
  intros [= <- <-]. split; [done|]. split; [done|].
  by exists (event_of c (netcdf (trace w) c)).
Qed.

Lemma try_nc_defined (c : nc_call) (w : world) : try_nc c w ≠ Undefined.
Proof. rewrite run_try_nc. by destruct (decide _). Qed.

Lemma read_dim_Next (pArray : NDArray) (j : nat) (w : world) (d : NDDimension_t) (w' : world) :
  read_dim pArray j w = Next d w' → dims pArray !! j = Some d ∧ w' = w.
Proof. unfold read_dim. destruct (dims pArray !! j); [|done]. by intros [= -> ->]. Qed.

Lemma read_dim_in_range (pArray : NDArray) (j : nat) (w : world) :
  (j < ndims pArray)%nat → ∃ d, dims pArray !! j = Some d ∧ read_dim pArray j w = Next d w.
Proof.
  intros Hj. destruct (lookup_lt_is_Some_2 (dims pArray) j Hj) as [d Hd].
  exists d. split; [done|]. unfold read_dim. by rewrite Hd.
Qed.

(** Inverting a sequence whose first statement fell through. *)
Tactic Notation "bind_inv" hyp(H) "as" ident(E) ident(x) ident(w1) :=
  rewrite run_bind in H;
  match type of H with
  | match ?m ?w with _ => _ end = _ =>
      destruct (m w) as [x w1|? ?|] eqn:E; [ | try discriminate H .. ]
  end.

(** A library call that fell through. *)
Tactic Notation "nc_inv" hyp(E) "as" ident(Ht) ident(Htr) :=
  apply try_nc_Next in E as [Ht Htr]; simpl in Htr.

(** *** The dimension loop *)

Lemma define_dims_Next (ncid : Z) (pArray : NDArray) (idxs : list nat)
    (a : dim_arrays) (w : world) (a' : dim_arrays) (w' : world) :
  define_dims ncid pArray idxs a w = Next a' w' →
  ∃ ids, length ids = length idxs ∧ this w' = this w ∧
    trace w' = trace w ++ dim_events ncid pArray idxs ids ∧
    a' = mkDimArrays
           (l_dimIds a ++ ids)
           (l_size a ++ ((λ i, dim_size (dims pArray !!! i)) <$> idxs))
           (l_offset a ++ ((λ i, dim_offset (dims pArray !!! i)) <$> idxs))
           (l_binning a ++ ((λ i, dim_binning (dims pArray !!! i)) <$> idxs))
           (l_reverse a ++ ((λ i, dim_reverse (dims pArray !!! i)) <$> idxs)).
Proof.
  revert a w. induction idxs as [|i idxs IH]; intros a w H.
  - injection H as <- <-. exists []. rewrite !app_nil_r. by destruct a.
  - simpl in H.
    bind_inv H as E1 dj w1. apply read_dim_Next in E1 as [Hj ->].
    bind_inv H as E2 id w2. nc_inv E2 as Ht Htr.
    bind_inv H as E3 di w3. apply read_dim_Next in E3 as [Hi ->].
    apply IH in H as (ids & Hlen & Ht' & Htr' & ->). simpl in *.
    exists (id :: ids). split; [simpl; lia|]. split; [congruence|].
    split.
    + rewrite Htr', Htr. rewrite <- app_assoc. simpl.
      by rewrite (list_lookup_total_correct _ _ _ Hj).
    + rewrite (list_lookup_total_correct _ _ _ Hi).
      by rewrite <- !app_assoc.
Qed.

(** *** The attribute loop of [openFile] *)

Lemma ncType_of_attrDataType_Next (adt : NDAttrDataType_t) (w : world)
    (t : nc_type) (w' : world) :
  ncType_of_attrDataType adt w = Next t w' →
  attr_ncType adt = Some t ∧ adt ≠ NDAttrUndefined ∧ w' = w.
Proof.
  unfold ncType_of_attrDataType.
  destruct adt; simpl; intros [= <- <-]; done.
Qed.

Lemma store_attrId_Next (k : nat) (id : Z) (w : world) (u : unit) (w' : world) :
  store_attrId k id w = Next u w' →
  ∃ l, pAttributeId (this w) = Some l ∧ (k < length l)%nat ∧
    this w' = set_pAttributeId (Some (<[k:=id]> l)) (this w) ∧
    trace w' = trace w.
Proof.
  unfold store_attrId. destruct (pAttributeId (this w)) as [l|]; [|done].
  destruct (decide _); [|done]. intros [= <- <-]. by exists l.
Qed.

Lemma set_pAttributeId_same (t : NDFileNetCDF) :
  set_pAttributeId (pAttributeId t) t = t.
Proof. by destruct t. Qed.

Lemma set_pAttributeId_twice (x y : option (list Z)) (t : NDFileNetCDF) :
  set_pAttributeId x (set_pAttributeId y t) = set_pAttributeId x t.
Proof. done. Qed.

(** A name or a description that was read is the attribute's own, and
    it fits the buffer. *)
Lemma read_name_Next (a : NDAttribute) (w : world) (name : string) (w' : world) :
  read_buffer (getName a MAX_ATTRIBUTE_STRING_SIZE) w = Next name w' →
  name = pName a ∧ short_name a ∧ w' = w.
Proof.
  unfold read_buffer, getName, getValue_string, short_name.
  destruct (decide _); [|done]. by intros [= <- <-].
Qed.

Lemma read_description_Next (a : NDAttribute) (w : world) (text : string)
    (w' : world) :
  read_buffer (getDescription a MAX_ATTRIBUTE_STRING_SIZE) w = Next text w' →
  text = pDescription a ∧
  (String.length (pDescription a) < MAX_ATTRIBUTE_STRING_SIZE)%nat ∧ w' = w.
Proof.
  unfold read_buffer, getDescription, getValue_string.
  destruct (decide _); [|done]. by intros [= <- <-].
Qed.

Lemma read_name_short (a : NDAttribute) (w : world) :
  short_name a →
  read_buffer (getName a MAX_ATTRIBUTE_STRING_SIZE) w = Next (pName a) w.
Proof.
  unfold read_buffer, getName, getValue_string, short_name.
  by destruct (decide _).
Qed.

Lemma read_description_short (a : NDAttribute) (w : world) :
  (String.length (pDescription a) < MAX_ATTRIBUTE_STRING_SIZE)%nat →
  read_buffer (getDescription a MAX_ATTRIBUTE_STRING_SIZE) w
  = Next (pDescription a) w.
Proof.
  unfold read_buffer, getDescription, getValue_string.
  by destruct (decide _).
Qed.

Lemma define_attributes_Next (ncid : Z) (dimIds stringDimIds : list Z)
    (rest : list NDAttribute) (k : nat) (w : world) (u : unit) (w' : world)
    (l : list Z) :
  pAttributeId (this w) = Some l →
  define_attributes ncid dimIds stringDimIds rest k w = Next u w' →
  ∃ aids, length aids = length rest ∧
    trace w' = trace w ++ attrs_events ncid dimIds stringDimIds rest aids ∧
    this w' = set_pAttributeId
                (Some (take k l ++ aids ++ drop (k + length rest) l)) (this w) ∧
    Forall (λ a, getValueInfo a ≠ NDAttrUndefined) rest.
Proof.
  revert k w l. induction rest as [|a rest IH]; intros k w l Hl H.
  - injection H as <- <-. exists []. simpl. rewrite Nat.add_0_r, take_drop.
    rewrite <- Hl, set_pAttributeId_same, app_nil_r. by repeat split.
  - simpl in H.
    bind_inv H as E0 name w0. apply read_name_Next in E0 as (-> & _ & ->).
    bind_inv H as E1 x1 w1. nc_inv E1 as Ht1 Htr1.
    bind_inv H as Ed text wd. apply read_description_Next in Ed as (-> & _ & ->).
    bind_inv H as E2 x2 w2. nc_inv E2 as Ht2 Htr2.
    bind_inv H as E3 ncType w3.
    apply ncType_of_attrDataType_Next in E3 as (Hty & Hdef & ->).
    bind_inv H as E4 id w4.
    assert (this w4 = this w2 ∧
            trace w4 = trace w2 ++
              [gives (let ncType := default NC_NAT (attr_ncType (getValueInfo a)) in
                      if decide (getValueInfo a = NDAttrString)
                      then nc_def_var ncid (pName a) ncType 2 stringDimIds
                      else nc_def_var ncid (pName a) ncType 1 (take 1 dimIds)) id])
      as [Ht4 Htr4].
    { rewrite Hty. simpl. destruct (decide _); by nc_inv E4 as Ht4 Htr4. }
    clear E4.
    bind_inv H as E5 x5 w5.
    apply store_attrId_Next in E5 as (l' & Hl' & Hk & Ht5 & Htr5).
    assert (l' = l) as -> by congruence.
    apply (IH _ _ (<[k:=id]> l)) in H as (aids & Hlen & Htr & Ht & Hall);
      [|by rewrite Ht5].
    exists (id :: aids). split; [simpl; lia|]. split; [|split].
    + rewrite Htr, Htr5, Htr4, Htr2, Htr1. simpl. by rewrite <- !app_assoc.
    + rewrite Ht, Ht5, set_pAttributeId_twice, Ht4, Ht2, Ht1. do 2 f_equal.
      rewrite (take_S_r _ _ id) by (by apply list_lookup_insert_eq).
      rewrite take_insert_ge by lia.
      rewrite drop_insert_lt by lia.
      rewrite <- app_assoc. simpl. by rewrite Nat.add_succ_r.
    + by constructor.
Qed.

(** *** Indices of the dimension loop *)

Lemma dims_in_order (pArray : NDArray) (f : NDDimension_t → Z) :
  (λ i, f (dims pArray !!! i)) <$> seq 0 (ndims pArray) = f <$> dims pArray.
Proof.
  apply list_eq; intros i. rewrite !list_lookup_fmap.
  destruct (decide (i < ndims pArray)%nat) as [Hi|Hi].
  - rewrite lookup_seq_lt by done. simpl.
    destruct (lookup_lt_is_Some_2 (dims pArray) i Hi) as [d Hd].
    by rewrite Hd, (list_lookup_total_correct _ _ _ Hd).
  - rewrite lookup_seq_ge by lia.
    by rewrite lookup_ge_None_2 by (unfold ndims in Hi; lia).
Qed.

Lemma dims_reversed (pArray : NDArray) (f : NDDimension_t → Z) :
  (λ i, f (dims pArray !!! (ndims pArray - i - 1)%nat)) <$> seq 0 (ndims pArray)
  = f <$> reverse (dims pArray).
Proof.
  apply list_eq; intros i. rewrite !list_lookup_fmap.
  destruct (decide (i < ndims pArray)%nat) as [Hi|Hi].
  - rewrite lookup_seq_lt by done. simpl.
    rewrite reverse_lookup by done.
    assert (ndims pArray - i - 1 = length (dims pArray) - S i)%nat as ->
      by (unfold ndims; lia).
    destruct (lookup_lt_is_Some_2 (dims pArray) (length (dims pArray) - S i))
      as [d Hd]; [unfold ndims in Hi; lia|].
    by rewrite Hd, (list_lookup_total_correct _ _ _ Hd).
  - rewrite lookup_seq_ge by lia.
    by rewrite lookup_ge_None_2 by (rewrite length_reverse; unfold ndims in Hi; lia).
Qed.

(** *** [openFile] run to its end *)

Lemma openFile_Next (fileName : string) (openMode : Z) (pArray : NDArray)
    (w : world) (s : asynStatus) (w' : world) :
  openFile fileName openMode pArray w = Next s w' →
  s = asynSuccess ∧
  Z.land openMode NDFileModeRead = 0 ∧ Z.land openMode NDFileModeAppend = 0 ∧
  ∃ ncid id0 ids idS uid tid did aids,
    length ids = ndims pArray ∧ length aids = numAttributes pArray ∧
    trace w' = trace w ++
      open_events fileName openMode pArray ncid id0 ids idS uid tid did aids ∧
    this w' = mkSession ncid 0 uid tid did (Some aids) ∧
    Forall (λ a, getValueInfo a ≠ NDAttrUndefined) (attributes pArray).
Proof.
  unfold openFile. intros H.
  destruct (decide (Z.land openMode NDFileModeRead ≠ 0)) as [|Hr]; [done|].
  destruct (decide (Z.land openMode NDFileModeAppend ≠ 0)) as [|Ha]; [done|].
  apply dec_stable in Hr, Ha.
  bind_inv H as E0 x0 w0. injection E0 as <- <-.
  bind_inv H as E1 ncid w1. nc_inv E1 as Ht1 Htr1.
  bind_inv H as E1' x1 w1'. injection E1' as <- <-.
  bind_inv H as E2 x2 w2. nc_inv E2 as Ht2 Htr2.
  bind_inv H as E3 x3 w3. nc_inv E3 as Ht3 Htr3.
  bind_inv H as E4 x4 w4. nc_inv E4 as Ht4 Htr4.
  bind_inv H as E5 id0 w5. nc_inv E5 as Ht5 Htr5.
  bind_inv H as E6 a w6.
  apply define_dims_Next in E6 as (ids & Hids & Ht6 & Htr6 & ->).
  rewrite length_seq in Hids. simpl in H.
  rewrite !dims_in_order in H.
  bind_inv H as E7 idS w7. nc_inv E7 as Ht7 Htr7.
  bind_inv H as E8 x8 w8. nc_inv E8 as Ht8 Htr8.
  bind_inv H as E9 x9 w9. nc_inv E9 as Ht9 Htr9.
  bind_inv H as E10 x10 w10. nc_inv E10 as Ht10 Htr10.
  bind_inv H as E11 x11 w11. nc_inv E11 as Ht11 Htr11.
  bind_inv H as E12 uid w12. nc_inv E12 as Ht12 Htr12.
  bind_inv H as E12' x12 w12'. injection E12' as <- <-.
  bind_inv H as E13 tid w13. nc_inv E13 as Ht13 Htr13.
  bind_inv H as E13' x13 w13'. injection E13' as <- <-.
  bind_inv H as E14 did w14. nc_inv E14 as Ht14 Htr14.
  bind_inv H as E14' x14 w14'. injection E14' as <- <-.
  bind_inv H as E15 x15 w15. injection E15 as <- <-.
  bind_inv H as E16 x16 w16.
  eapply define_attributes_Next in E16 as (aids & Haids & Htr16 & Ht16 & Hall);
    [|reflexivity].
  bind_inv H as E17 x17 w17. nc_inv E17 as Ht17 Htr17.
  injection H as <- <-.
  split; [done|]. split; [done|]. split; [done|].
  exists ncid, id0, ids, idS, uid, tid, did, aids.
  split; [done|]. split; [done|]. split; [|split; [|done]].
  - rewrite Htr17, Htr16. simpl. rewrite Htr14. simpl. rewrite Htr13. simpl.
    rewrite Htr12, Htr11, Htr10, Htr9, Htr8, Htr7, Htr6, Htr5, Htr4, Htr3, Htr2.
    simpl. rewrite Htr1. unfold open_events, record_axis_length.
    rewrite take_0, Nat.add_1_r. simpl. rewrite take_ge by lia.
    rewrite <- !app_assoc. simpl. reflexivity.
  - rewrite Ht17, Ht16. simpl. rewrite Ht14. simpl. rewrite Ht13. simpl.
    rewrite Ht12, Ht11, Ht10, Ht9, Ht8, Ht7, Ht6, Ht5, Ht4, Ht3, Ht2. simpl.
    rewrite Ht1. simpl.
    unfold numAttributes. rewrite drop_replicate, Nat.sub_diag. simpl.
    by rewrite app_nil_r.
Qed.

(** *** What every statement preserves *)

Global Instance any_change_preorder : PreOrder any_change.
Proof. by split. Qed.

Section Frame.
Context (P : relation NDFileNetCDF) `{!PreOrder P}.

Lemma frame_ret {A} (a : A) : frame P (mret a).
Proof. intros w. simpl. done. Qed.

Lemma frame_return {A} : frame P (@return_ A asynError).
Proof. intros w. simpl. done. Qed.

Lemma frame_undefined {A} : frame P (@undefined A).
Proof. by intros w. Qed.

Lemma frame_bind {A B} (m : M A) (f : A → M B) :
  frame P m → (∀ a, frame P (f a)) → frame P (m ≫= f).
Proof.
  intros Hm Hf w. rewrite run_bind. specialize (Hm w).
  destruct (m w) as [a w1|s w1|]; [|done..].
  destruct Hm as [HP Htr]. specialize (Hf a w1).
  destruct (f a w1) as [b w2|s w2|]; [| |done].
  - destruct Hf. split; by etrans.
  - destruct Hf as (? & ? & ?). split; [done|]. split; by etrans.
Qed.

Lemma frame_try_nc (c : nc_call) : frame P (try_nc c).
Proof.
  intros w. rewrite run_try_nc.
  destruct (decide _); simpl; repeat split; try done; by apply prefix_app_r.
Qed.

Lemma frame_read_buffer (buf : option string) : frame P (read_buffer buf).
Proof. intros w. unfold read_buffer. by destruct buf. Qed.

Lemma frame_get_this : frame P get_this.
Proof. by intros w. Qed.

Lemma frame_read_dim (pArray : NDArray) (j : nat) : frame P (read_dim pArray j).
Proof. intros w. unfold read_dim. by destruct (dims pArray !! j). Qed.

Lemma frame_load_attrId (k : nat) : frame P (load_attrId k).
Proof.
  intros w. unfold load_attrId.
  destruct (pAttributeId (this w)) as [l|]; [|done]. by destruct (l !! k).
Qed.

Lemma frame_ncType_of_attrDataType (adt : NDAttrDataType_t) :
  frame P (ncType_of_attrDataType adt).
Proof.
  unfold ncType_of_attrDataType.
  destruct (attr_ncType adt); [apply frame_ret|apply frame_return].
Qed.

Lemma frame_define_dims (ncid : Z) (pArray : NDArray) (idxs : list nat)
    (a : dim_arrays) :
  frame P (define_dims ncid pArray idxs a).
Proof.
  revert a. induction idxs as [|i idxs IH]; intros a; simpl.
  - apply frame_ret.
  - apply frame_bind; [apply frame_read_dim|intros dj].
    apply frame_bind; [apply frame_try_nc|intros id'].
    apply frame_bind; [apply frame_read_dim|intros di]. apply IH.
Qed.

Lemma frame_slab_dims (pArray : NDArray) (idxs : list nat) (start count : list Z) :
  frame P (slab_dims pArray idxs start count).
Proof.
  revert start count. induction idxs as [|i idxs IH]; intros start count; simpl.
  - apply frame_ret.
  - apply frame_bind; [apply frame_read_dim|intros dj]. apply IH.
Qed.

Lemma frame_put_attribute (ncid : Z) (start count : list Z)
    (a : NDAttribute) (attrId : Z) :
  frame P (put_attribute ncid start count a attrId).
Proof.
  unfold put_attribute.
  destruct (pValue a); try apply frame_try_nc; [|apply frame_return].
  destruct (getValue_string _ _); [apply frame_try_nc|apply frame_undefined].
Qed.

Lemma frame_write_attributes (ncid : Z) (start count : list Z)
    (rest : list NDAttribute) (k : nat) :
  frame P (write_attributes ncid start count rest k).
Proof.
  revert k. induction rest as [|a rest IH]; intros k; simpl.
  - apply frame_ret.
  - apply frame_bind; [apply frame_load_attrId|intros attrId].
    apply frame_bind; [apply frame_put_attribute|intros; apply IH].
Qed.

End Frame.

Lemma frame_set_this (f : NDFileNetCDF → NDFileNetCDF) :
  frame any_change (set_this f).
Proof. by intros w. Qed.

Lemma frame_store_attrId (k : nat) (id : Z) : frame any_change (store_attrId k id).
Proof.
  intros w. unfold store_attrId.
  destruct (pAttributeId (this w)) as [l|]; [|done]. by destruct (decide _).
Qed.

Lemma frame_define_attributes (ncid : Z) (dimIds stringDimIds : list Z)
    (rest : list NDAttribute) (k : nat) :
  frame any_change (define_attributes ncid dimIds stringDimIds rest k).
Proof.
  revert k. induction rest as [|a rest IH]; intros k; simpl.
  - by apply frame_ret.
  - apply frame_bind; [apply _|by apply frame_read_buffer|intros ?].
    apply frame_bind; [apply _|by apply frame_try_nc|intros ?].
    apply frame_bind; [apply _|by apply frame_read_buffer|intros ?].
    apply frame_bind; [apply _|by apply frame_try_nc|intros ?].
    apply frame_bind; [apply _|by apply frame_ncType_of_attrDataType|intros ?].
    apply frame_bind; [apply _| |intros ?].
    { destruct (decide _); by apply frame_try_nc. }
    apply frame_bind; [apply _|apply frame_store_attrId|intros ?]. apply IH.
Qed.

(** The statements of [openFile] after the two mode tests. *)
Ltac frame_steps :=
  repeat first
    [ apply frame_try_nc; apply _
    | apply frame_set_this
    | apply frame_ret; apply _
    | apply frame_define_dims; apply _
    | apply frame_define_attributes
    | apply frame_bind; [apply _| |intros ?] ].

Lemma frame_openFile (fileName : string) (openMode : Z) (pArray : NDArray) :
  frame any_change (openFile fileName openMode pArray).
Proof.
  unfold openFile.
  destruct (decide _); [by apply frame_return|].
  destruct (decide _); [by apply frame_return|].
  frame_steps.
Qed.

Lemma frame_writeFile_body (pArray : NDArray) (self : NDFileNetCDF) :
  frame eq
    ('(start, count) ← slab_dims pArray (seq 0 (ndims pArray)) [nextRecord self] [1];
     try_nc (nc_put_vara_int (ncId self) (uniqueIdId self) start count
               (buf_value (uniqueId pArray)));;
     try_nc (nc_put_vara_double (ncId self) (timeStampId self) start count
               (buf_value (timeStamp pArray)));;
     try_nc (data_write_call (ncId self) (arrayDataId self) start count pArray);;
     write_attributes (ncId self) start count (attributes pArray) 0%nat).
Proof.
  apply frame_bind; [apply _|apply frame_slab_dims; apply _|intros [start count]].
  repeat (apply frame_bind; [apply _|apply frame_try_nc; apply _|intros ?]).
  apply frame_write_attributes; apply _.
Qed.

(** *** [writeFile] *)

Lemma slab_dims_run (pArray : NDArray) (idxs : list nat) (start count : list Z)
    (w : world) :
  Forall (λ i, i < ndims pArray)%nat idxs →
  slab_dims pArray idxs start count w =
    Next (start ++ replicate (length idxs) 0,
          count ++ ((λ i, dim_size (dims pArray !!! (ndims pArray - i - 1)%nat))
                      <$> idxs)) w.
Proof.
  revert start count. induction idxs as [|i idxs IH]; intros start count Hall.
  - simpl. by rewrite !app_nil_r.
  - apply Forall_cons in Hall as [Hi Hall]. simpl.
    destruct (read_dim_in_range pArray (ndims pArray - i - 1) w) as (d & Hd & Hrun);
      [lia|].
    rewrite run_bind, Hrun, IH by done.
    rewrite (list_lookup_total_correct _ _ _ Hd).
    by rewrite <- !app_assoc.
Qed.

Lemma seq_in_range (n : nat) : Forall (λ i, i < n)%nat (seq 0 n).
Proof. apply Forall_seq. intros j Hj. lia. Qed.

Lemma slab_dims_frame (pArray : NDArray) (cursor : Z) (w : world) :
  slab_dims pArray (seq 0 (ndims pArray)) [cursor] [1] w =
    Next (slab_start cursor pArray, slab_count pArray) w.
Proof.
  rewrite slab_dims_run by apply seq_in_range.
  by rewrite length_seq, dims_reversed.
Qed.

Lemma put_attribute_call (ncid : Z) (start count : list Z) (a : NDAttribute)
    (attrId : Z) :
  put_attribute ncid start count a attrId =
    match attr_write_call ncid start count a attrId with
    | Some c => try_nc c
    | None => if decide (getValueInfo a = NDAttrUndefined)
              then return_ asynError else undefined
    end.
Proof.
  unfold put_attribute, attr_write_call, getValueInfo, getValue_string.
  destruct (pValue a); try done. by destruct (decide _).
Qed.

Lemma data_write (pArray : NDArray) (ncid varid : Z) (start count : list Z) :
  match dataType pArray with
  | NDInt8 | NDUInt8 =>
      try_nc (nc_put_vara_schar ncid varid start count (buf_data (pData pArray)))
  | NDInt16 | NDUInt16 =>
      try_nc (nc_put_vara_short ncid varid start count (buf_data (pData pArray)))
  | NDInt32 | NDUInt32 =>
      try_nc (nc_put_vara_int ncid varid start count (buf_data (pData pArray)))
  | NDFloat32 =>
      try_nc (nc_put_vara_float ncid varid start count (buf_data (pData pArray)))
  | NDFloat64 =>
      try_nc (nc_put_vara_double ncid varid start count (buf_data (pData pArray)))
  end = try_nc (data_write_call ncid varid start count pArray).
Proof. unfold data_write_call. by destruct (dataType pArray). Qed.

(** The events of the attribute loop, however it ends. *)
Lemma write_attributes_trace (ncid : Z) (start count : list Z)
    (rest : list NDAttribute) (k : nat) (w : world) (ids : list Z) :
  default [] (pAttributeId (this w)) = ids →
  match write_attributes ncid start count rest k w with
  | Next _ w' =>
      ∃ evs, trace w' = trace w ++ evs ∧
        ev_call <$> evs = attr_write_calls ncid start count rest (drop k ids) ∧
        length evs = length rest ∧
        Forall (λ e, ev_retval e = NC_NOERR) evs
  | Return _ w' =>
      ∃ evs, trace w' = trace w ++ evs ∧
        (ev_call <$> evs) `prefix_of`
          attr_write_calls ncid start count rest (drop k ids)
  | Undefined => True
  end.
Proof.
  revert k w. induction rest as [|a rest IH]; intros k w Hids.
  - simpl. exists []. by rewrite app_nil_r.
  - simpl. rewrite run_bind. unfold load_attrId at 1.
    destruct (pAttributeId (this w)) as [ids'|] eqn:Hp; [|done].
    simpl in Hids. subst ids'.
    destruct (ids !! k) as [id|] eqn:Hk; [|done].
    rewrite (drop_S _ _ _ Hk). simpl.
    rewrite run_bind, put_attribute_call.
    destruct (attr_write_call ncid start count a id) as [c|].
    + rewrite run_try_nc. destruct (decide _) as [Hr|Hr].
      * specialize (IH (S k) (push w c)). simpl in IH. rewrite Hp in IH.
        specialize (IH eq_refl).
        destruct (write_attributes _ _ _ _ _ _) as [u w'|s w'|]; [| |done].
        -- destruct IH as (evs & Htr & Hcalls & Hlen & Hok).
           exists (event_of c (netcdf (trace w) c) :: evs).
           split; [by rewrite Htr; simpl; rewrite <- app_assoc|].
           split; [by rewrite fmap_cons, Hcalls|]. split; [simpl; lia|].
           by constructor.
        -- destruct IH as (evs & Htr & Hcalls).
           exists (event_of c (netcdf (trace w) c) :: evs).
           split; [by rewrite Htr; simpl; rewrite <- app_assoc|].
           rewrite fmap_cons. by apply prefix_cons.
      * exists [event_of c (netcdf (trace w) c)]. split; [done|].
        simpl. apply prefix_cons, prefix_nil.
    + destruct (decide _); [|done]. exists []. split; [by rewrite app_nil_r|].
      apply prefix_nil.
Qed.

(** What a [writeFile] does, however it ends. *)
Lemma writeFile_outcome (pArray : NDArray) (w : world) :
  match writeFile pArray w with
  | Next s w' =>
      s = asynSuccess ∧
      this w' = set_nextRecord (nextRecord (this w) + 1) (this w) ∧
      ∃ evs, trace w' = trace w ++ evs ∧
        ev_call <$> evs = write_calls (this w) pArray ∧
        length evs = (3 + numAttributes pArray)%nat ∧
        Forall (λ e, ev_retval e = NC_NOERR) evs
  | Return s w' =>
      s = asynError ∧ this w' = this w ∧
      ∃ evs, trace w' = trace w ++ evs ∧
        (ev_call <$> evs) `prefix_of` write_calls (this w) pArray
  | Undefined => True
  end.
Proof.
  unfold writeFile, write_calls. rewrite run_bind. simpl.
  rewrite run_bind, slab_dims_frame.
  rewrite data_write.
  set (start := slab_start _ _). set (count := slab_count _).
  set (c1 := nc_put_vara_int _ (uniqueIdId _) _ _ _).
  set (c2 := nc_put_vara_double _ (timeStampId _) _ _ _).
  set (c3 := data_write_call _ _ _ _ _).
  rewrite run_bind, run_try_nc. destruct (decide _) as [H1|H1].
  2:{ split; [done|]. split; [done|]. exists [event_of c1 (netcdf (trace w) c1)].
      split; [done|]. apply prefix_cons, prefix_nil. }
  set (w1 := push w c1).
  rewrite run_bind, run_try_nc. destruct (decide _) as [H2|H2].
  2:{ split; [done|]. split; [done|].
      exists [event_of c1 (netcdf (trace w) c1); event_of c2 (netcdf (trace w1) c2)].
      split; [by simpl; rewrite <- app_assoc|].
      apply prefix_cons, prefix_cons, prefix_nil. }
  set (w2 := push w1 c2).
  rewrite run_bind, run_try_nc. destruct (decide _) as [H3|H3].
  2:{ split; [done|]. split; [done|].
      exists [event_of c1 (netcdf (trace w) c1); event_of c2 (netcdf (trace w1) c2);
              event_of c3 (netcdf (trace w2) c3)].
      split; [by simpl; rewrite <- !app_assoc|].
      apply prefix_cons, prefix_cons, prefix_cons, prefix_nil. }
  set (w3 := push w2 c3).
  rewrite run_bind.
  pose proof (write_attributes_trace (ncId (this w)) start count (attributes pArray)
                0 w3 _ eq_refl) as Htr.
  pose proof (frame_write_attributes eq (ncId (this w)) start count
                (attributes pArray) 0 w3) as Hfr.
  rewrite drop_0 in Htr.
  destruct (write_attributes _ _ _ _ _ w3) as [u w4|s w4|]; [| |done].
  - destruct Htr as (evs & Htr & Hcalls & Hlen & Hok). destruct Hfr as [Ht _].
    simpl. split; [done|]. rewrite <- Ht. split; [done|].
    exists (event_of c1 (netcdf (trace w) c1) :: event_of c2 (netcdf (trace w1) c2)
            :: event_of c3 (netcdf (trace w2) c3) :: evs).
    split; [by rewrite Htr; simpl; rewrite <- !app_assoc|].
    split; [by rewrite !fmap_cons, Hcalls|].
    split; [by simpl; rewrite Hlen|]. by repeat constructor.
  - destruct Htr as (evs & Htr & Hcalls). destruct Hfr as (-> & Ht & _).
    split; [done|]. split; [by rewrite <- Ht|].
    exists (event_of c1 (netcdf (trace w) c1) :: event_of c2 (netcdf (trace w1) c2)
            :: event_of c3 (netcdf (trace w2) c3) :: evs).
    split; [by rewrite Htr; simpl; rewrite <- !app_assoc|].
    rewrite !fmap_cons. by do 3 apply prefix_cons.
Qed.

(** *** The methods always return under their preconditions *)

Lemma define_dims_defined (ncid : Z) (pArray : NDArray) (idxs : list nat)
    (a : dim_arrays) (w : world) :
  Forall (λ i, i < ndims pArray)%nat idxs →
  define_dims ncid pArray idxs a w ≠ Undefined.
Proof.
  revert a w. induction idxs as [|i idxs IH]; intros a w Hall; [done|].
  apply Forall_cons in Hall as [Hi Hall]. simpl.
  destruct (read_dim_in_range pArray (ndims pArray - i - 1) w) as (dj & _ & Hj);
    [lia|].
  rewrite run_bind, Hj, run_bind, run_try_nc.
  destruct (decide _); [|done].
  destruct (read_dim_in_range pArray i (push w (nc_def_dim ncid ("dim" +:+ pretty i)
              (dim_size dj)))) as (di & _ & Hdi); [done|].
  rewrite run_bind, Hdi. by apply IH.
Qed.

Lemma define_attributes_defined (ncid : Z) (dimIds stringDimIds : list Z)
    (rest : list NDAttribute) (k : nat) (w : world) (l : list Z) :
  pAttributeId (this w) = Some l →
  (k + length rest ≤ length l)%nat →
  Forall readable rest →
  define_attributes ncid dimIds stringDimIds rest k w ≠ Undefined.
Proof.
  revert k w l. induction rest as [|a rest IH]; intros k w l Hl Hk Hr; [done|].
  apply Forall_cons in Hr as [[Hn Hd] Hr].
  simpl in *. rewrite run_bind, (read_name_short a w Hn).
  rewrite run_bind, run_try_nc. destruct (decide _); [|done].
  rewrite run_bind, (read_description_short a _ Hd).
  rewrite run_bind, run_try_nc. destruct (decide _); [|done].
  rewrite run_bind. unfold ncType_of_attrDataType at 1.
  destruct (attr_ncType (getValueInfo a)) as [ncType|]; [|done]. simpl.
  rewrite run_bind.
  assert (∀ c w0, this w0 = this w →
    match try_nc c w0 with
    | Next id w1 =>
        (store_attrId k id
         ≫= λ _, define_attributes ncid dimIds stringDimIds rest (S k)) w1
    | Return s w1 => Return s w1
    | Undefined => Undefined
    end ≠ Undefined) as Hstep.
  { intros c w0 Hw0. rewrite run_try_nc. destruct (decide _); [|done].
    rewrite run_bind. unfold store_attrId at 1. simpl. rewrite Hw0, Hl.
    destruct (decide _); [|lia].
    apply (IH _ _ (<[k:=out_id (netcdf (trace w0) c)]> l)); [done| |done].
    rewrite length_insert. lia. }
  destruct (decide _); by apply Hstep.
Qed.

Lemma run_set_this (f : NDFileNetCDF → NDFileNetCDF) (w : world) :
  set_this f w = Next tt (mkWorld (f (this w)) (trace w)).
Proof. reflexivity. Qed.

Tactic Notation "step_nc" :=
  rewrite run_bind, run_try_nc;
  destruct (decide (retval _ = NC_NOERR)); [|done]; cbv beta iota.
Tactic Notation "step_set" :=
  rewrite run_bind, run_set_this; cbv beta iota.

Lemma openFile_defined (fileName : string) (openMode : Z) (pArray : NDArray)
    (w : world) :
  Forall readable (attributes pArray) →
  openFile fileName openMode pArray w ≠ Undefined.
Proof.
  intros Hreadable. unfold openFile.
  destruct (decide _); [done|]. destruct (decide _); [done|].
  step_set. step_nc. step_set. do 4 step_nc.
  rewrite run_bind.
  match goal with
  | |- context [define_dims ?n ?p ?i ?a ?w0] =>
      pose proof (define_dims_defined n p i a w0 (seq_in_range _)) as Hd;
      destruct (define_dims n p i a w0) as [a' w'| |]; [|done..]
  end.
  clear Hd. cbv beta iota. do 5 step_nc.
  step_nc. step_set. step_nc. step_set. step_nc. step_set. step_set.
  rewrite run_bind.
  match goal with
  | |- context [define_attributes ?n ?d ?s ?r ?k ?w0] =>
      pose proof (define_attributes_defined n d s r k w0 _ eq_refl) as Hd;
      destruct (define_attributes n d s r k w0) as [u w''| |]; [|done|]
  end.
  - by step_nc.
  - exfalso. apply Hd; [|done..]. rewrite length_replicate. unfold numAttributes. lia.
Qed.

(** *** Methods and their bodies *)

Lemma new_events_app (w w' : world) (evs : list nc_event) :
  trace w' = trace w ++ evs → new_events w w' = evs.
Proof. intros H. unfold new_events. by rewrite H, drop_app_length. Qed.

Lemma method_openFile_success (fileName : string) (openMode : Z)
    (pArray : NDArray) (w w' : world) :
  method (openFile fileName openMode pArray) w = Returns asynSuccess w' →
  openFile fileName openMode pArray w = Next asynSuccess w'.
Proof.
  unfold method. pose proof (frame_openFile fileName openMode pArray w) as Hf.
  destruct (openFile fileName openMode pArray w) as [s w1|s w1|]; [| |done].
  - by intros [= -> ->].
  - destruct Hf as [-> _]. by intros [= ? ?].
Qed.

Lemma method_openFile_returns (fileName : string) (openMode : Z)
    (pArray : NDArray) (w : world) :
  Forall readable (attributes pArray) →
  ∃ s w', method (openFile fileName openMode pArray) w = Returns s w'.
Proof.
  intros Hreadable. unfold method.
  pose proof (openFile_defined fileName openMode pArray w Hreadable) as Hd.
  destruct (openFile fileName openMode pArray w) as [s w1|s w1|]; [eauto..|done].
Qed.

Lemma method_writeFile (pArray : NDArray) (w : world) (s : asynStatus) (w' : world) :
  method (writeFile pArray) w = Returns s w' →
  (s = asynSuccess ∧ writeFile pArray w = Next asynSuccess w') ∨
  (s = asynError ∧ writeFile pArray w = Return asynError w').
Proof.
  unfold method. pose proof (writeFile_outcome pArray w) as Ho.
  destruct (writeFile pArray w) as [s1 w1|s1 w1|]; [| |done].
  - destruct Ho as [-> _]. intros [= <- <-]. by left.
  - destruct Ho as [-> _]. intros [= <- <-]. by right.
Qed.

(** *** The definitions in the trace of a successful [openFile] *)

Lemma dim_defs_dim_events (ncid : Z) (pArray : NDArray) (idxs : list nat)
    (ids : list Z) :
  dim_defs (dim_events ncid pArray idxs ids) =
    zip_with (λ i id, mkDimDef ("dim" +:+ pretty i)
                (dim_size (dims pArray !!! (ndims pArray - i - 1)%nat)) id)
      idxs ids.
Proof.
  revert ids. induction idxs as [|i idxs IH]; intros [|id ids]; try done.
  unfold dim_defs, dim_events in *. simpl. by rewrite IH.
Qed.

Lemma var_defs_dim_events (ncid : Z) (pArray : NDArray) (idxs : list nat)
    (ids : list Z) :
  var_defs (dim_events ncid pArray idxs ids) = [].
Proof.
  revert ids. induction idxs as [|i idxs IH]; intros [|id ids]; try done.
  unfold var_defs, dim_events in *. simpl. by rewrite IH.
Qed.

Lemma global_ints_dim_events (ncid : Z) (pArray : NDArray) (idxs : list nat)
    (ids : list Z) :
  global_ints (dim_events ncid pArray idxs ids) = [].
Proof.
  revert ids. induction idxs as [|i idxs IH]; intros [|id ids]; try done.
  unfold global_ints, dim_events in *. simpl. by rewrite IH.
Qed.

Lemma dim_defs_attrs_events (ncid : Z) (dimIds stringDimIds : list Z)
    (attrs : list NDAttribute) (ids : list Z) :
  dim_defs (attrs_events ncid dimIds stringDimIds attrs ids) = [].
Proof.
  revert ids. induction attrs as [|a attrs IH]; intros [|id ids]; try done.
  unfold dim_defs in *. simpl. rewrite IH.
  by destruct (decide (getValueInfo a = NDAttrString)).
Qed.

Lemma var_defs_attrs_events (ncid : Z) (dimIds stringDimIds : list Z)
    (attrs : list NDAttribute) (ids : list Z) :
  var_defs (attrs_events ncid dimIds stringDimIds attrs ids) =
    zip_with (attr_var dimIds stringDimIds) attrs ids.
Proof.
  revert ids. induction attrs as [|a attrs IH]; intros [|id ids]; try done.
  unfold var_defs in *. simpl. rewrite IH. unfold attr_var.
  destruct (decide (getValueInfo a = NDAttrString)); simpl;
    by rewrite ?take_take.
Qed.

Lemma global_ints_attrs_events (ncid : Z) (dimIds stringDimIds : list Z)
    (attrs : list NDAttribute) (ids : list Z) :
  length ids = length attrs →
  global_ints (attrs_events ncid dimIds stringDimIds attrs ids) =
    attr_global <$> attrs.
Proof.
  revert ids. induction attrs as [|a attrs IH]; intros [|id ids] Hlen; try done.
  unfold global_ints in *. simpl. rewrite IH by (simpl in Hlen; lia).
  by destruct (decide (getValueInfo a = NDAttrString)).
Qed.

(** The axes of a successful [openFile]: the record axis, the data
    axes, the text axis. *)
Lemma dim_defs_open_events (fileName : string) (openMode : Z) (pArray : NDArray)
    (ncid id0 : Z) (ids : list Z) (idS uid tid did : Z) (aids : list Z) :
  dim_defs (open_events fileName openMode pArray ncid id0 ids idS uid tid did aids)
  = mkDimDef "numArrays" (record_axis_length openMode) id0
    :: zip_with (λ i id, mkDimDef ("dim" +:+ pretty i)
                   (dim_size (dims pArray !!! (ndims pArray - i - 1)%nat)) id)
         (seq 0 (ndims pArray)) ids
    ++ [mkDimDef "attrStringSize" (Z.of_nat MAX_ATTRIBUTE_STRING_SIZE) idS].
Proof.
  unfold open_events, dim_defs. rewrite !omap_app.
  fold (dim_defs (dim_events ncid pArray (seq 0 (ndims pArray)) ids)).
  fold (dim_defs (attrs_events ncid (id0 :: ids) [id0; idS] (attributes pArray) aids)).
  rewrite dim_defs_dim_events, dim_defs_attrs_events. simpl.
  by rewrite ?app_nil_r.
Qed.

Lemma var_defs_open_events (fileName : string) (openMode : Z) (pArray : NDArray)
    (ncid id0 : Z) (ids : list Z) (idS uid tid did : Z) (aids : list Z) :
  length ids = ndims pArray →
  var_defs (open_events fileName openMode pArray ncid id0 ids idS uid tid did aids)
  = [ mkVarDef "uniqueId" NC_INT [id0] uid;
      mkVarDef "timeStamp" NC_DOUBLE [id0] tid;
      mkVarDef "array_data" (ncType_of_dataType (dataType pArray)) (id0 :: ids) did ]
    ++ zip_with (attr_var (id0 :: ids) [id0; idS]) (attributes pArray) aids.
Proof.
  intros Hids. unfold open_events, var_defs. rewrite !omap_app.
  fold (var_defs (dim_events ncid pArray (seq 0 (ndims pArray)) ids)).
  fold (var_defs (attrs_events ncid (id0 :: ids) [id0; idS] (attributes pArray) aids)).
  rewrite var_defs_dim_events, var_defs_attrs_events. simpl.
  rewrite ?take_0, Nat.add_1_r. simpl. rewrite take_ge by lia.
  by rewrite ?app_nil_r.
Qed.

Lemma global_ints_open_events (fileName : string) (openMode : Z) (pArray : NDArray)
    (ncid id0 : Z) (ids : list Z) (idS uid tid did : Z) (aids : list Z) :
  length aids = numAttributes pArray →
  global_ints (open_events fileName openMode pArray ncid id0 ids idS uid tid did aids)
  = [ ("dataType", [NDDataType_code (dataType pArray)]);
      ("numArrayDims", [Z.of_nat (ndims pArray)]);
      ("dimSize", dim_size <$> dims pArray);
      ("dimOffset", dim_offset <$> dims pArray);
      ("dimBinning", dim_binning <$> dims pArray);
      ("dimReverse", dim_reverse <$> dims pArray) ]
    ++ (attr_global <$> attributes pArray).
Proof.
  intros Haids. unfold open_events, global_ints. rewrite !omap_app.
  fold (global_ints (dim_events ncid pArray (seq 0 (ndims pArray)) ids)).
  fold (global_ints (attrs_events ncid (id0 :: ids) [id0; idS] (attributes pArray) aids)).
  rewrite global_ints_dim_events, global_ints_attrs_events by done. simpl.
  rewrite !take_ge by (rewrite length_fmap; done).
  by rewrite ?app_nil_r.
Qed.

(** A successful [openFile], read off the trace. *)
Lemma openFile_success (fileName : string) (openMode : Z) (pArray : NDArray)
    (w w' : world) :
  method (openFile fileName openMode pArray) w = Returns asynSuccess w' →
  Z.land openMode NDFileModeRead = 0 ∧ Z.land openMode NDFileModeAppend = 0 ∧
  ∃ ncid id0 ids idS uid tid did aids,
    length ids = ndims pArray ∧ length aids = numAttributes pArray ∧
    new_events w w' =
      open_events fileName openMode pArray ncid id0 ids idS uid tid did aids ∧
    this w' = mkSession ncid 0 uid tid did (Some aids) ∧
    Forall (λ a, getValueInfo a ≠ NDAttrUndefined) (attributes pArray).
Proof.
  intros H. apply method_openFile_success, openFile_Next in H
    as (_ & Hr & Ha & ncid & id0 & ids & idS & uid & tid & did & aids
        & Hids & Haids & Htr & Ht & Hall).
  split; [done|]. split; [done|].
  exists ncid, id0, ids, idS, uid, tid, did, aids.
  by rewrite (new_events_app _ _ _ Htr).
Qed.

(** A [writeFile] that returned, read off the trace. *)
Lemma writeFile_returned (pArray : NDArray) (w : world) (s : asynStatus) (w' : world) :
  method (writeFile pArray) w = Returns s w' →
  (ev_call <$> new_events w w') `prefix_of` write_calls (this w) pArray ∧
  (s = asynSuccess →
     this w' = set_nextRecord (nextRecord (this w) + 1) (this w) ∧
     ev_call <$> new_events w w' = write_calls (this w) pArray ∧
     length (new_events w w') = (3 + numAttributes pArray)%nat ∧
     Forall (λ e, ev_retval e = NC_NOERR) (new_events w w')) ∧
  (s = asynError → this w' = this w).
Proof.
  intros H. pose proof (writeFile_outcome pArray w) as Ho.
  apply method_writeFile in H as [[-> H]|[-> H]]; rewrite H in Ho.
  - destruct Ho as (_ & Ht & evs & Htr & Hcalls & Hlen & Hok).
    rewrite (new_events_app _ _ _ Htr). split; [by rewrite Hcalls|].
    split; [done|]. by intros [=].
  - destruct Ho as (_ & Ht & evs & Htr & Hcalls).
    rewrite (new_events_app _ _ _ Htr). split; [done|].
    split; [by intros [=]|done].
Qed.

(** The data axes: lengths and identifiers. *)
Lemma data_axes_len (pArray : NDArray) (idxs : list nat) (ids : list Z) :
  length ids = length idxs →
  dd_len <$> zip_with (λ i id, mkDimDef ("dim" +:+ pretty i)
               (dim_size (dims pArray !!! (ndims pArray - i - 1)%nat)) id) idxs ids
  = (λ i, dim_size (dims pArray !!! (ndims pArray - i - 1)%nat)) <$> idxs.
Proof.
  revert ids. induction idxs as [|i idxs IH]; intros [|id ids] Hlen; try done.
  simpl. rewrite IH; [done|]. simpl in Hlen. lia.
Qed.

Lemma data_axes_id (pArray : NDArray) (idxs : list nat) (ids : list Z) :
  length ids = length idxs →
  dd_id <$> zip_with (λ i id, mkDimDef ("dim" +:+ pretty i)
               (dim_size (dims pArray !!! (ndims pArray - i - 1)%nat)) id) idxs ids
  = ids.
Proof.
  revert ids. induction idxs as [|i idxs IH]; intros [|id ids] Hlen; try done.
  simpl. rewrite IH; [done|]. simpl in Hlen. lia.
Qed.

Lemma open_axes (fileName : string) (openMode : Z) (pArray : NDArray)
    (ncid id0 : Z) (ids : list Z) (idS uid tid did : Z) (aids : list Z) :
  length ids = ndims pArray →
  let axes := take (S (ndims pArray))
    (dim_defs (open_events fileName openMode pArray ncid id0 ids idS uid tid did aids)) in
  dd_len <$> axes = record_axis_length openMode :: (dim_size <$> reverse (dims pArray)) ∧
  dd_id <$> axes = id0 :: ids.
Proof.
  intros Hids axes. subst axes. rewrite dim_defs_open_events. simpl.
  rewrite take_app_length'
    by (rewrite length_zip_with, length_seq; lia).
  rewrite data_axes_len, data_axes_id, dims_reversed
    by (by rewrite length_seq).
  done.
Qed.

Lemma reverse_index (pArray : NDArray) (i : nat) (d : NDDimension_t) :
  (i < ndims pArray)%nat →
  dims pArray !! (ndims pArray - 1 - i)%nat = Some d →
  (dim_size <$> reverse (dims pArray)) !! i = Some (dim_size d).
Proof.
  intros Hi Hd. rewrite list_lookup_fmap, reverse_lookup by done.
  replace (length (dims pArray) - S i)%nat with (ndims pArray - 1 - i)%nat
    by (unfold ndims; lia).
  by rewrite Hd.
Qed.

(** ** The claims *)

(** C1 -- Dimension order.  A successful [openFile] defines the data
    variable over the first [N+1] axes of the file: the record axis,
    then the frame's dimensions last to first, so that the axis at
    position [i+1] has length [dims[N-1-i].size]; a frame of sizes
    [2,3,4] gets data axes [4,3,2].  Every [writeFile] addresses the
    data variable with start [{cursor, 0, ..., 0}] and count
    [{1, dims[N-1].size, ..., dims[0].size}]. *)
Theorem dimension_order_reversed (fileName : string) (openMode : Z)
    (pArray : NDArray) (w w1 : world)
    (frame2 : NDArray) (w2 : world) (s : asynStatus) (w3 : world) :
  method (openFile fileName openMode pArray) w = Returns asynSuccess w1 →
  method (writeFile frame2) w2 = Returns s w3 →
  (∃ did,
     var_defs (new_events w w1) !! 2%nat =
       Some (mkVarDef "array_data" (ncType_of_dataType (dataType pArray))
               (dd_id <$> take (S (ndims pArray)) (dim_defs (new_events w w1)))
               did)) ∧
  dd_len <$> take (S (ndims pArray)) (dim_defs (new_events w w1)) =
    record_axis_length openMode :: (dim_size <$> reverse (dims pArray)) ∧
  (∀ i d, (i < ndims pArray)%nat →
     dims pArray !! (ndims pArray - 1 - i)%nat = Some d →
     (dd_len <$> take (S (ndims pArray)) (dim_defs (new_events w w1))) !! S i
       = Some (dim_size d)) ∧
  (dim_size <$> dims pArray = [2; 3; 4] →
     dd_len <$> drop 1 (take (S (ndims pArray)) (dim_defs (new_events w w1)))
       = [4; 3; 2]) ∧
  (∀ c, (ev_call <$> new_events w2 w3) !! 2%nat = Some c →
     c = data_write_call (ncId (this w2)) (arrayDataId (this w2))
           (nextRecord (this w2) :: replicate (ndims frame2) 0)
           (1 :: (dim_size <$> reverse (dims frame2))) frame2) ∧
  (∀ i d, (i < ndims frame2)%nat →
     dims frame2 !! (ndims frame2 - 1 - i)%nat = Some d →
     (1 :: (dim_size <$> reverse (dims frame2))) !! S i = Some (dim_size d)) ∧
  (s = asynSuccess → is_Some ((ev_call <$> new_events w2 w3) !! 2%nat)).
Proof.
  intros Hopen Hwrite.
  apply openFile_success in Hopen
    as (_ & _ & ncid & id0 & ids & idS & uid & tid & did & aids
        & Hids & Haids & -> & Ht & _).
  destruct (open_axes fileName openMode pArray ncid id0 ids idS uid tid did aids Hids)
    as [Hlen Hid].
  rewrite Hlen, Hid.
  split; [|split; [done|split; [|split]]].
  - exists did. by rewrite var_defs_open_events.
  - intros i d Hi Hd. simpl. by apply reverse_index.
  - intros Hsz. rewrite fmap_drop, Hlen. simpl.
    by rewrite fmap_reverse, Hsz.
  - apply writeFile_returned in Hwrite as (Hpre & Hok & _).
    split; [|split].
    + intros c Hc.
      pose proof (prefix_lookup_Some _ _ _ _ Hc Hpre) as Hc'.
      unfold write_calls in Hc'. simpl in Hc'. by injection Hc' as <-.
    + intros i d Hi Hd. simpl. by apply reverse_index.
    + intros ->. destruct (Hok eq_refl) as (_ & -> & _). by eexists.
Qed.

Lemma no_axis_yet_start (w : world) (t : NDFileNetCDF) :
  no_axis_yet w (mkWorld t (trace w)).
Proof. exists []. by rewrite app_nil_r. Qed.

Lemma no_axis_yet_set (w w' : world) (t : NDFileNetCDF) :
  no_axis_yet w w' → no_axis_yet w (mkWorld t (trace w')).
Proof. done. Qed.

Lemma no_axis_yet_push (w w' : world) (c : nc_call) :
  no_axis_yet w w' →
  dim_def_of (event_of c (netcdf (trace w') c)) = None →
  no_axis_yet w (push w' c).
Proof.
  intros (evs & Htr & Hd) Hc. exists (evs ++ [event_of c (netcdf (trace w') c)]).
  split; [by simpl; rewrite Htr, app_assoc|].
  unfold dim_defs in *. rewrite omap_app, Hd. simpl. by rewrite Hc.
Qed.

Lemma no_axis_yet_failed (w w' : world) (c : nc_call) :
  no_axis_yet w w' →
  retval (netcdf (trace w') c) ≠ NC_NOERR →
  no_axis_yet w (push w' c).
Proof.
  intros Hw Hr. apply no_axis_yet_push; [done|].
  unfold dim_def_of, event_of. simpl.
  destruct c; simpl; try done. by destruct (decide _).
Qed.

Lemma no_axis_yet_then (w w' w1 : world) (ncid : Z) (name : string) (len : Z) :
  no_axis_yet w w' →
  retval (netcdf (trace w') (nc_def_dim ncid name len)) = NC_NOERR →
  trace (push w' (nc_def_dim ncid name len)) `prefix_of` trace w1 →
  ∃ id0 rest, dim_defs (new_events w w1) = mkDimDef name len id0 :: rest.
Proof.
  intros (evs & Htr & Hd) Hr [more Hmore]. simpl in Hmore.
  rewrite Htr in Hr. rewrite Htr, <- !app_assoc in Hmore.
  rewrite (new_events_app _ _ _ Hmore). unfold dim_defs in *.
  rewrite !omap_app, Hd. simpl. unfold dim_def_of at 1. simpl.
  destruct (decide _); [|done]. eauto.
Qed.

(** However [openFile] ends, the first axis the file got, if it got
    one, is the record axis. *)
Lemma openFile_first_axis (fileName : string) (openMode : Z) (pArray : NDArray)
    (w : world) (s : asynStatus) (w' : world) :
  method (openFile fileName openMode pArray) w = Returns s w' →
  dim_defs (new_events w w') = [] ∨
  ∃ id0 rest, dim_defs (new_events w w') =
    mkDimDef "numArrays" (record_axis_length openMode) id0 :: rest.
Proof.
  unfold method.
  destruct (openFile fileName openMode pArray w) as [s1 w1|s1 w1|] eqn:H;
    [| |done]; intros [= <- <-].
  - apply openFile_Next in H
      as (_ & _ & _ & ncid & id0 & ids & idS & uid & tid & did & aids
          & _ & _ & Htr & _).
    rewrite (new_events_app _ _ _ Htr), dim_defs_open_events. right. eauto.
  - assert (no_axis_yet w w1 →
            dim_defs (new_events w w1) = [] ∨
            ∃ id0 rest, dim_defs (new_events w w1) =
              mkDimDef "numArrays" (record_axis_length openMode) id0 :: rest)
      as Hnone.
    { intros (evs & Htr & Hd). left. by rewrite (new_events_app _ _ _ Htr). }
    unfold openFile in H.
    destruct (decide _).
    { injection H as <- <-. apply Hnone. destruct w. apply no_axis_yet_start. }
    destruct (decide _).
    { injection H as <- <-. apply Hnone. destruct w. apply no_axis_yet_start. }
    rewrite run_bind, run_set_this in H. cbv beta iota in H.
    pose proof (no_axis_yet_start w (set_nextRecord 0 (this w))) as Hw.
    rewrite run_bind, run_try_nc in H.
    destruct (decide (retval _ = NC_NOERR)); cbv beta iota in H;
      [|injection H as <- <-; by apply Hnone, no_axis_yet_failed].
    apply (no_axis_yet_push _ _ (nc_create fileName NC_CLOBBER)) in Hw; [|done].
    rewrite run_bind, run_set_this in H. cbv beta iota in H.
    eapply no_axis_yet_set in Hw.
    do 3 (match type of H with
          | (try_nc ?c ≫= _) ?wk = _ =>
              rewrite run_bind, run_try_nc in H;
              destruct (decide (retval _ = NC_NOERR)); cbv beta iota in H;
              [|injection H as <- <-; by apply Hnone, no_axis_yet_failed];
              apply (no_axis_yet_push _ wk c) in Hw; [|reflexivity]
          end).
    rewrite run_bind, run_try_nc in H.
    destruct (decide (retval _ = NC_NOERR)) as [Hok|Hko]; cbv beta iota in H;
      [|injection H as <- <-; by apply Hnone, no_axis_yet_failed].
    match type of H with
    | ?m ?w5 = _ =>
        assert (frame any_change m) as Hfr by frame_steps;
        specialize (Hfr w5); rewrite H in Hfr
    end.
    destruct Hfr as (_ & _ & Hpre). right.
    by eapply no_axis_yet_then.
Qed.

(** C3 -- Record axis.  For every frame and every supported open mode,
    the first axis [openFile] defines is the record axis "numArrays":
    of length 1 when multiple-records mode is not requested, unlimited
    when it is, whatever the frame's dimensions.  On success it is
    defined, and every variable of the file has it as its first
    axis. *)
Theorem record_axis_first (fileName : string) (openMode : Z) (pArray : NDArray)
    (w : world) (s : asynStatus) (w1 : world) :
  Z.land openMode NDFileModeRead = 0 →
  Z.land openMode NDFileModeAppend = 0 →
  method (openFile fileName openMode pArray) w = Returns s w1 →
  (∀ d, dim_defs (new_events w w1) !! 0%nat = Some d →
     dd_name d = "numArrays" ∧
     (Z.land openMode NDFileModeMultiple = 0 → dd_len d = 1) ∧
     (Z.land openMode NDFileModeMultiple ≠ 0 → dd_len d = NC_UNLIMITED)) ∧
  (s = asynSuccess →
     ∃ d, dim_defs (new_events w w1) !! 0%nat = Some d ∧
       Forall (λ v, vd_dimids v !! 0%nat = Some (dd_id d))
         (var_defs (new_events w w1))).
Proof.
  intros _ _ H. split.
  - intros d Hd. apply openFile_first_axis in H as [H|(id0 & rest & H)];
      rewrite H in Hd; [done|].
    injection Hd as <-. simpl. unfold record_axis_length.
    split; [done|]. split; intros Hm; by destruct (decide _).
  - intros ->. apply openFile_success in H
      as (_ & _ & ncid & id0 & ids & idS & uid & tid & did & aids
          & Hids & Haids & -> & _ & _).
    rewrite dim_defs_open_events, var_defs_open_events by done.
    eexists. split; [reflexivity|]. simpl.
    repeat (constructor; [done|]).
    clear Haids. generalize (attributes pArray). intros attrs.
    revert aids. induction attrs as [|a attrs IH]; intros [|aid aids];
      try by constructor.
    simpl. constructor; [|by apply IH].
    unfold attr_var. simpl. by destruct (decide _).
Qed.

(** *** The slabs of a [writeFile] *)

Lemma attr_write_call_slab (ncid : Z) (start count : list Z) (a : NDAttribute)
    (id : Z) (c : nc_call) :
  attr_write_call ncid start count a id = Some c →
  ∃ count', slab_of c = Some (id, start, count').
Proof.
  unfold attr_write_call.
  destruct (pValue a); try (intros [= <-]; by eexists).
  destruct (decide _); [|done]. intros [= <-]. by eexists.
Qed.

Lemma attr_write_calls_lookup (ncid : Z) (start count : list Z)
    (attrs : list NDAttribute) (ids : list Z) (k : nat) (c : nc_call) :
  attr_write_calls ncid start count attrs ids !! k = Some c →
  ∃ a id, attrs !! k = Some a ∧ ids !! k = Some id ∧
    attr_write_call ncid start count a id = Some c.
Proof.
  revert ids k. induction attrs as [|a attrs IH]; intros [|id ids] k; try done.
  simpl. destruct (attr_write_call ncid start count a id) as [c'|] eqn:Hc; [|done].
  destruct k as [|k]; simpl.
  - intros [= <-]. by exists a, id.
  - apply IH.
Qed.

Lemma write_calls_slab (self : NDFileNetCDF) (pArray : NDArray) (c : nc_call)
    (varid : Z) (start count : list Z) :
  c ∈ write_calls self pArray →
  slab_of c = Some (varid, start, count) →
  start = slab_start (nextRecord self) pArray.
Proof.
  unfold write_calls. rewrite elem_of_app, !elem_of_cons, elem_of_nil.
  intros [[->|[->|[->|[]]]]|Hc].
  - by intros [= _ <- _].
  - by intros [= _ <- _].
  - unfold data_write_call. destruct (dataType pArray); by intros [= _ <- _].
  - apply list_elem_of_lookup_1 in Hc as [k Hk].
    apply attr_write_calls_lookup in Hk as (a & id & _ & _ & Hk).
    apply attr_write_call_slab in Hk as [count' Hk]. rewrite Hk.
    by intros [= _ <- _].
Qed.

Lemma write_ok_steps (n : nat) (w w' : world) :
  nsteps write_ok_step n w w' →
  nextRecord (this w') = nextRecord (this w) + Z.of_nat n ∧
  pAttributeId (this w') = pAttributeId (this w).
Proof.
  induction 1 as [|n x y z [pArray Hxy] _ [IHn IHp]]; [split; [lia|done]|].
  apply writeFile_returned in Hxy as (_ & Hok & _).
  destruct (Hok eq_refl) as (Ht & _). rewrite IHn, IHp, Ht. simpl.
  split; [lia|done].
Qed.


(** C4 -- Write cursor.  [nextRecord] is 0 after a successful
    [openFile]; a [writeFile] that returns [asynSuccess] leaves it one
    higher and one that returns [asynError] leaves it as it was; every
    slab the call writes starts at the cursor's value on the record
    axis; so after [n] successful writes the cursor is [n]. *)
Theorem write_cursor (fileName : string) (openMode : Z) (pArray : NDArray)
    (w w1 : world) (frame2 : NDArray) (w2 : world) (s : asynStatus) (w3 : world) :
  method (openFile fileName openMode pArray) w = Returns asynSuccess w1 →
  method (writeFile frame2) w2 = Returns s w3 →
  nextRecord (this w1) = 0 ∧
  (s = asynSuccess → nextRecord (this w3) = nextRecord (this w2) + 1) ∧
  (s = asynError → nextRecord (this w3) = nextRecord (this w2)) ∧
  (∀ c varid start count,
     c ∈ ev_call <$> new_events w2 w3 →
     slab_of c = Some (varid, start, count) →
     start !! 0%nat = Some (nextRecord (this w2))) ∧
  (∀ n w', nsteps write_ok_step n w1 w' → nextRecord (this w') = Z.of_nat n).
Proof.
  intros Hopen Hwrite.
  apply openFile_success in Hopen
    as (_ & _ & ncid & id0 & ids & idS & uid & tid & did & aids
        & _ & _ & _ & Ht & _).
  apply writeFile_returned in Hwrite as (Hpre & Hok & Herr).
  split; [by rewrite Ht|]. split; [|split; [|split]].
  - intros Hs. destruct (Hok Hs) as (-> & _). done.
  - intros Hs. by rewrite (Herr Hs).
  - intros c varid start count Hc Hslab.
    destruct Hpre as [more Hmore].
    assert (c ∈ write_calls (this w2) frame2) as Hin
      by (rewrite Hmore, elem_of_app; by left).
    by rewrite (write_calls_slab _ _ _ _ _ _ Hin Hslab).
  - intros n w' Hn. apply write_ok_steps in Hn as [-> _]. rewrite Ht. simpl. lia.
Qed.

(** C6 -- Unsupported modes.  With the read flag or the append flag
    set, [openFile] returns [asynError] at once: the session object
    and the trace are as they were, so no library call was made and no
    file was created or touched. *)
Theorem unsupported_modes_rejected (fileName : string) (openMode : Z)
    (pArray : NDArray) (w : world) :
  Z.land openMode NDFileModeRead ≠ 0 ∨ Z.land openMode NDFileModeAppend ≠ 0 →
  method (openFile fileName openMode pArray) w = Returns asynError w ∧
  new_events w w = [].
Proof.
  intros Hmode. split.
  - unfold method, openFile.
    destruct (decide (Z.land openMode NDFileModeRead ≠ 0)); [done|].
    destruct (decide (Z.land openMode NDFileModeAppend ≠ 0)); [done|].
    by destruct Hmode.
  - unfold new_events. by rewrite drop_all.
Qed.

(** What [closeFile] does. *)
Lemma closeFile_outcome (w : world) :
  closeFile w =
    if decide (retval (netcdf (trace w) (nc_close (ncId (this w)))) = NC_NOERR)
    then Next asynSuccess (push w (nc_close (ncId (this w))))
    else Return asynError (push w (nc_close (ncId (this w)))).
Proof.
  unfold closeFile. rewrite run_bind. simpl. rewrite run_bind, run_try_nc.
  by destruct (decide _).
Qed.

(** C9, as the code has it -- [closeFile] calls [nc_close] and
    reports its status; the session object, and with it the list of
    attribute variable identifiers, is exactly as it was. *)
Theorem closeFile_keeps_attribute_ids (w : world) (s : asynStatus) (w' : world) :
  method closeFile w = Returns s w' →
  this w' = this w ∧
  pAttributeId (this w') = pAttributeId (this w) ∧
  ev_call <$> new_events w w' = [nc_close (ncId (this w))].
Proof.
  unfold method. rewrite closeFile_outcome.
  destruct (decide _); intros [= <- <-]; simpl;
    (split; [done|]; split; [done|]);
    by rewrite (new_events_app w (push w _) [_] eq_refl).
Qed.

Lemma attr_vars_ids (dimIds stringDimIds : list Z) (attrs : list NDAttribute)
    (aids : list Z) :
  length aids = length attrs →
  vd_id <$> zip_with (attr_var dimIds stringDimIds) attrs aids = aids ∧
  vd_name <$> zip_with (attr_var dimIds stringDimIds) attrs aids = pName <$> attrs ∧
  vd_type <$> zip_with (attr_var dimIds stringDimIds) attrs aids =
    (λ a, default NC_NAT (attr_ncType (getValueInfo a))) <$> attrs.
Proof.
  revert aids. induction attrs as [|a attrs IH]; intros [|id aids] Hlen; try done.
  simpl in Hlen. destruct (IH aids) as (Hi & Hn & Ht); [lia|].
  change (zip_with (attr_var dimIds stringDimIds) (a :: attrs) (id :: aids))
    with (attr_var dimIds stringDimIds a id
          :: zip_with (attr_var dimIds stringDimIds) attrs aids).
  by rewrite !fmap_cons, Hi, Hn, Ht.
Qed.



(** C7 -- String attributes.  When the [k]-th attribute of the frame
    is a string shorter than [MAX_ATTRIBUTE_STRING_SIZE], the call
    [writeFile] makes for it is an [nc_put_vara_text] into the
    variable whose identifier is the [k]-th entry of [pAttributeId],
    with count [{1, strlen}]: the extent along the text axis is the
    length of the string, which is below the cap.  A [writeFile] that
    returns [asynSuccess] has made that call, and the library accepted
    it. *)
Theorem string_attribute_actual_length (frame2 : NDArray) (w2 : world)
    (s : asynStatus) (w3 : world)
    (k : nat) (pAttribute : NDAttribute) (str : string) (ids : list Z) :
  method (writeFile frame2) w2 = Returns s w3 →
  attributes frame2 !! k = Some pAttribute →
  pValue pAttribute = AttrString str →
  (String.length str < MAX_ATTRIBUTE_STRING_SIZE)%nat →
  pAttributeId (this w2) = Some ids →
  (∀ e, new_events w2 w3 !! (3 + k)%nat = Some e →
     ∃ id, ids !! k = Some id ∧
       ev_call e =
         nc_put_vara_text (ncId (this w2)) id
           (slab_start (nextRecord (this w2)) frame2)
           [1; Z.of_nat (String.length str)] str ∧
       slab_of (ev_call e) =
         Some (id, slab_start (nextRecord (this w2)) frame2,
               [1; Z.of_nat (String.length str)])) ∧
  (s = asynSuccess →
     ∃ e, new_events w2 w3 !! (3 + k)%nat = Some e ∧ ev_retval e = NC_NOERR) ∧
  Z.of_nat (String.length str) < Z.of_nat MAX_ATTRIBUTE_STRING_SIZE.
Proof.
  intros Hwrite Ha Hv Hshort Hids.
  apply writeFile_returned in Hwrite as (Hpre & Hok & _).
  split; [|split; [|lia]].
  - intros e He.
    assert ((ev_call <$> new_events w2 w3) !! (3 + k)%nat = Some (ev_call e)) as Hc
      by (by rewrite list_lookup_fmap, He).
    pose proof (prefix_lookup_Some _ _ _ _ Hc Hpre) as Hc'.
    unfold write_calls in Hc'. rewrite Hids in Hc'. simpl in Hc'.
    apply attr_write_calls_lookup in Hc' as (a & id & Ha' & Hid & Hcall).
    assert (a = pAttribute) as -> by congruence.
    unfold attr_write_call in Hcall. rewrite Hv in Hcall.
    destruct (decide _); [|done]. injection Hcall as Hcall.
    exists id. split; [done|]. by rewrite <- Hcall.
  - intros Hs. destruct (Hok Hs) as (_ & _ & Hlen & Hall).
    apply lookup_lt_Some in Ha as Hk. fold (numAttributes frame2) in Hk.
    destruct (lookup_lt_is_Some_2 (new_events w2 w3) (3 + k)) as [e He]; [lia|].
    exists e. split; [done|]. by eapply Forall_lookup_1 in Hall.
Qed.

Lemma attr_ncType_defined (adt : NDAttrDataType_t) :
  adt ≠ NDAttrUndefined →
  attr_ncType adt = Some (default NC_NAT (attr_ncType adt)).
Proof. by destruct adt. Qed.

(** C5 -- Storage types.  The element type of the frame and the type
    of each attribute are mapped to netCDF types by the fixed table
    int8/uint8 to byte, int16/uint16 to short, int32/uint32 to int,
    float32 to float, float64 to double, string to char.  A successful
    [openFile] defines the data variable and every attribute variable
    with the type the table gives, each from its own type, the
    variable of an attribute under the attribute's name when the names
    fit the buffer they are read into; with an attribute of undefined
    type on a frame whose names and descriptions fit their buffers
    [openFile] returns [asynError]. *)
Theorem storage_type_table (fileName : string) (openMode : Z)
    (pArray : NDArray) (w : world) :
  (ncType_of_dataType NDInt8 = NC_BYTE ∧ ncType_of_dataType NDUInt8 = NC_BYTE ∧
   ncType_of_dataType NDInt16 = NC_SHORT ∧ ncType_of_dataType NDUInt16 = NC_SHORT ∧
   ncType_of_dataType NDInt32 = NC_INT ∧ ncType_of_dataType NDUInt32 = NC_INT ∧
   ncType_of_dataType NDFloat32 = NC_FLOAT ∧
   ncType_of_dataType NDFloat64 = NC_DOUBLE) ∧
  (attr_ncType NDAttrInt8 = Some NC_BYTE ∧ attr_ncType NDAttrUInt8 = Some NC_BYTE ∧
   attr_ncType NDAttrInt16 = Some NC_SHORT ∧
   attr_ncType NDAttrUInt16 = Some NC_SHORT ∧
   attr_ncType NDAttrInt32 = Some NC_INT ∧ attr_ncType NDAttrUInt32 = Some NC_INT ∧
   attr_ncType NDAttrFloat32 = Some NC_FLOAT ∧
   attr_ncType NDAttrFloat64 = Some NC_DOUBLE ∧
   attr_ncType NDAttrString = Some NC_CHAR ∧
   attr_ncType NDAttrUndefined = None) ∧
  (∀ w1, method (openFile fileName openMode pArray) w = Returns asynSuccess w1 →
     (λ v, (vd_name v, vd_type v)) <$> take 3 (var_defs (new_events w w1)) =
       [ ("uniqueId", NC_INT); ("timeStamp", NC_DOUBLE);
         ("array_data", ncType_of_dataType (dataType pArray)) ] ∧
     (Forall short_name (attributes pArray) →
        vd_name <$> drop 3 (var_defs (new_events w w1))
        = pName <$> attributes pArray) ∧
     Some <$> (vd_type <$> drop 3 (var_defs (new_events w w1))) =
       (λ a, attr_ncType (getValueInfo a)) <$> attributes pArray) ∧
  (Forall readable (attributes pArray) →
   Exists (λ a, getValueInfo a = NDAttrUndefined) (attributes pArray) →
     ∃ w1, method (openFile fileName openMode pArray) w = Returns asynError w1).
Proof.
  split; [done|]. split; [by repeat split|]. split.
  - intros w1 Hopen. apply openFile_success in Hopen
      as (_ & _ & ncid & id0 & ids & idS & uid & tid & did & aids
          & Hids & Haids & -> & _ & Hall).
    rewrite var_defs_open_events by done.
    rewrite (take_app_length' [_; _; _]), (drop_app_length' [_; _; _]) by done.
    destruct (attr_vars_ids (id0 :: ids) [id0; idS] (attributes pArray) aids Haids)
      as (_ & Hvname & Hvtype).
    split; [done|]. split; [done|]. rewrite Hvtype, <- list_fmap_compose.
    apply list_eq. intros i. rewrite !list_lookup_fmap.
    destruct (attributes pArray !! i) as [a|] eqn:Ha; [|done]. simpl.
    rewrite Forall_lookup in Hall. by rewrite <- attr_ncType_defined by eauto.
  - intros Hreadable Hex.
    destruct (method_openFile_returns fileName openMode pArray w Hreadable)
      as (s & w1 & H).
    exists w1. destruct s; [|done]. exfalso.
    apply openFile_success in H
      as (_ & _ & ncid & id0 & ids & idS & uid & tid & did & aids
          & _ & _ & _ & _ & Hall).
    apply Exists_exists in Hex as (a & Ha & Hundef).
    rewrite Forall_forall in Hall. by apply (Hall a).
Qed.

(** *** An attribute of undefined type at write time *)

Lemma attr_write_calls_stop (ncid : Z) (start count : list Z)
    (pre : list NDAttribute) (a : NDAttribute) (post : list NDAttribute)
    (ids : list Z) :
  getValueInfo a = NDAttrUndefined →
  attr_write_calls ncid start count (pre ++ a :: post) ids =
  attr_write_calls ncid start count pre ids.
Proof.
  intros Ha. revert ids. induction pre as [|x pre IH]; intros [|id ids]; try done.
  - simpl. unfold attr_write_call. unfold getValueInfo in Ha.
    by destruct (pValue a).
  - simpl. by rewrite IH.
Qed.

Lemma attr_write_calls_length (ncid : Z) (start count : list Z)
    (attrs : list NDAttribute) (ids : list Z) :
  (length (attr_write_calls ncid start count attrs ids) ≤ length attrs)%nat.
Proof.
  revert ids. induction attrs as [|x attrs IH]; intros [|id ids]; simpl; try lia.
  destruct (attr_write_call _ _ _ _ _); simpl; [|lia]. specialize (IH ids). lia.
Qed.

Lemma write_attributes_undefined_type (ncid : Z) (start count : list Z)
    (pre : list NDAttribute) (a : NDAttribute) (post : list NDAttribute)
    (k : nat) (w : world) (ids : list Z) :
  getValueInfo a = NDAttrUndefined →
  pAttributeId (this w) = Some ids →
  (k + length pre < length ids)%nat →
  Forall (λ x, ∀ str, pValue x = AttrString str →
                 (String.length str < MAX_ATTRIBUTE_STRING_SIZE)%nat) pre →
  ∃ w', write_attributes ncid start count (pre ++ a :: post) k w =
          Return asynError w'.
Proof.
  intros Ha. revert k w. induction pre as [|x pre IH]; intros k w Hids Hk Hshort.
  - simpl in *. rewrite run_bind. unfold load_attrId at 1. rewrite Hids.
    destruct (lookup_lt_is_Some_2 ids k) as [id ->]; [lia|].
    rewrite run_bind, put_attribute_call.
    unfold attr_write_call. unfold getValueInfo in Ha.
    destruct (pValue a) eqn:Hv; try done.
    unfold getValueInfo. rewrite Hv. simpl. eauto.
  - apply Forall_cons in Hshort as [Hx Hshort]. simpl in *.
    rewrite run_bind. unfold load_attrId at 1. rewrite Hids.
    destruct (lookup_lt_is_Some_2 ids k) as [id ->]; [lia|].
    rewrite run_bind, put_attribute_call.
    destruct (attr_write_call ncid start count x id) as [c|] eqn:Hc.
    + rewrite run_try_nc. destruct (decide _); [|eauto].
      apply IH; [done|lia|done].
    + destruct (decide _); [eauto|]. exfalso.
      unfold attr_write_call in Hc. unfold getValueInfo in *.
      destruct (pValue x) eqn:Hv; try done.
      specialize (Hx _ eq_refl). by destruct (decide _).
Qed.

(** C8 -- Undefined attribute type at write time.  When the frame
    carries an attribute of undefined type, [writeFile] returns
    [asynError] and leaves the cursor where it was; it has made no
    call for that attribute nor for any attribute after it: its calls
    are among the three writes of the record and the writes of the
    attributes before it. *)
Theorem undefined_attribute_aborts_write (frame2 : NDArray) (w2 : world)
    (pre : list NDAttribute) (a : NDAttribute) (post : list NDAttribute)
    (ids : list Z) :
  attributes frame2 = pre ++ a :: post →
  getValueInfo a = NDAttrUndefined →
  pAttributeId (this w2) = Some ids →
  (length pre < length ids)%nat →
  Forall (λ x, ∀ str, pValue x = AttrString str →
                 (String.length str < MAX_ATTRIBUTE_STRING_SIZE)%nat) pre →
  ∃ w3, method (writeFile frame2) w2 = Returns asynError w3 ∧
    this w3 = this w2 ∧
    (ev_call <$> new_events w2 w3) `prefix_of`
      (take 3 (write_calls (this w2) frame2) ++
       attr_write_calls (ncId (this w2))
         (slab_start (nextRecord (this w2)) frame2) (slab_count frame2) pre ids) ∧
    (length (new_events w2 w3) ≤ 3 + length pre)%nat.
Proof.
  intros Hattrs Ha Hids Hlen Hshort.
  assert (∃ w3, writeFile frame2 w2 = Return asynError w3) as [w3 Hrun].
  { unfold writeFile. rewrite run_bind. simpl.
    rewrite run_bind, slab_dims_frame, data_write.
    do 3 (rewrite run_bind, run_try_nc;
          destruct (decide (retval _ = NC_NOERR)); [|eauto]).
    rewrite run_bind, Hattrs.
    edestruct write_attributes_undefined_type as [w3 ->]; [done..| |done|eauto].
    simpl. lia. }
  assert (method (writeFile frame2) w2 = Returns asynError w3) as Hm
    by (unfold method; by rewrite Hrun).
  exists w3. split; [done|].
  apply writeFile_returned in Hm as (Hpre & _ & Herr).
  split; [by apply Herr|].
  unfold write_calls in Hpre. rewrite Hids, Hattrs, attr_write_calls_stop in Hpre
    by done.
  split; [done|].
  apply prefix_length in Hpre. rewrite length_fmap, length_app in Hpre.
  simpl in Hpre.
  pose proof (attr_write_calls_length (ncId (this w2))
                (slab_start (nextRecord (this w2)) frame2) (slab_count frame2)
                pre ids).
  lia.
Qed.

(** *** When reversing changes the order *)

Lemma reverse_differs_at_ends {A} (l : list A) (a b : A) :
  l !! 0%nat = Some a → l !! (length l - 1)%nat = Some b → a ≠ b →
  reverse l ≠ l.
Proof.
  intros Ha Hb Hab Hrev.
  assert (reverse l !! 0%nat = Some b) as H0.
  { by rewrite reverse_lookup by (apply lookup_lt_Some in Ha; lia). }
  rewrite Hrev in H0. congruence.
Qed.

Lemma reverse_differs_distinct {A} (l : list A) :
  (1 < length l)%nat → NoDup l → reverse l ≠ l.
Proof.
  intros Hlen Hnd.
  destruct (lookup_lt_is_Some_2 l 0) as [a Ha]; [lia|].
  destruct (lookup_lt_is_Some_2 l (length l - 1)) as [b Hb]; [lia|].
  apply (reverse_differs_at_ends l a b Ha Hb). intros <-.
  pose proof (NoDup_lookup l _ _ a Hnd Ha Hb). lia.
Qed.

(** C10, as the code has it -- The global attributes [dimSize],
    [dimOffset], [dimBinning] and [dimReverse] of a successful
    [openFile] list the frame's dimensions in their own order, entry
    [i] from [dims[i]], while the data axes are defined last to first.
    The order of [dimSize] differs from the order of the data axes
    exactly when the list of sizes is not its own reverse; it does
    whenever the first and the last size differ, so whenever there is
    more than one dimension and the sizes are pairwise different. *)
Theorem dimension_metadata_order (fileName : string) (openMode : Z)
    (pArray : NDArray) (w w1 : world) :
  method (openFile fileName openMode pArray) w = Returns asynSuccess w1 →
  (global_ints (new_events w w1) !! 2%nat = Some ("dimSize", dim_size <$> dims pArray) ∧
   global_ints (new_events w w1) !! 3%nat = Some ("dimOffset", dim_offset <$> dims pArray) ∧
   global_ints (new_events w w1) !! 4%nat = Some ("dimBinning", dim_binning <$> dims pArray) ∧
   global_ints (new_events w w1) !! 5%nat = Some ("dimReverse", dim_reverse <$> dims pArray)) ∧
  (∀ i d, dims pArray !! i = Some d →
     (dim_size <$> dims pArray) !! i = Some (dim_size d) ∧
     (dim_offset <$> dims pArray) !! i = Some (dim_offset d) ∧
     (dim_binning <$> dims pArray) !! i = Some (dim_binning d) ∧
     (dim_reverse <$> dims pArray) !! i = Some (dim_reverse d)) ∧
  dd_len <$> drop 1 (take (S (ndims pArray)) (dim_defs (new_events w w1))) =
    reverse (dim_size <$> dims pArray) ∧
  (dd_len <$> drop 1 (take (S (ndims pArray)) (dim_defs (new_events w w1)))
     ≠ dim_size <$> dims pArray
   ↔ reverse (dim_size <$> dims pArray) ≠ dim_size <$> dims pArray) ∧
  (∀ a b, dims pArray !! 0%nat = Some a →
     dims pArray !! (ndims pArray - 1)%nat = Some b →
     dim_size a ≠ dim_size b →
     dd_len <$> drop 1 (take (S (ndims pArray)) (dim_defs (new_events w w1)))
       ≠ dim_size <$> dims pArray) ∧
  ((1 < ndims pArray)%nat → NoDup (dim_size <$> dims pArray) →
     dd_len <$> drop 1 (take (S (ndims pArray)) (dim_defs (new_events w w1)))
       ≠ dim_size <$> dims pArray).
Proof.
  intros Hopen. apply openFile_success in Hopen
    as (_ & _ & ncid & id0 & ids & idS & uid & tid & did & aids
        & Hids & Haids & -> & _ & _).
  rewrite global_ints_open_events by done.
  destruct (open_axes fileName openMode pArray ncid id0 ids idS uid tid did aids Hids)
    as [Hlen _].
  assert (dd_len <$> drop 1 (take (S (ndims pArray))
            (dim_defs (open_events fileName openMode pArray ncid id0 ids idS
               uid tid did aids))) = reverse (dim_size <$> dims pArray)) as ->.
  { rewrite fmap_drop, Hlen. simpl. by rewrite fmap_reverse. }
  split; [done|]. split; [|split; [done|split; [done|split]]].
  - intros i d Hd. rewrite !list_lookup_fmap, Hd. done.
  - intros a b Ha Hb Hab.
    apply (reverse_differs_at_ends _ (dim_size a) (dim_size b)); [| |done].
    + by rewrite list_lookup_fmap, Ha.
    + rewrite length_fmap, list_lookup_fmap. fold (ndims pArray). by rewrite Hb.
  - intros HN Hnd. apply reverse_differs_distinct; [|done].
    by rewrite length_fmap.
Qed.

(** ** Further properties of the methods *)

(** *** What a statement adds to the trace *)

Section Traced.
Context (N R : list nc_event → Prop) (Q : nc_call → Prop).
Context `{!TraceSpec N R Q}.

Lemma traced_pure {A} (m : M A) :
  (∀ w, match m w with
        | Next _ w' => trace w' = trace w
        | Return _ _ => False
        | Undefined => True
        end) →
  traced N R m.
Proof.
  intros Hm w. specialize (Hm w). destruct (m w) as [a w'|s w'|]; [|done..].
  exists []. rewrite app_nil_r. split; [done|apply N_nil].
Qed.

Lemma traced_bind {A B} (m : M A) (f : A → M B) :
  traced N R m → (∀ a, traced N R (f a)) → traced N R (m ≫= f).
Proof.
  intros Hm Hf w. rewrite run_bind. specialize (Hm w).
  destruct (m w) as [a w1|s w1|]; [|done..].
  destruct Hm as (evs1 & Htr1 & HN1). specialize (Hf a w1).
  destruct (f a w1) as [b w2|s w2|]; [| |done];
    destruct Hf as (evs2 & Htr2 & H2); exists (evs1 ++ evs2);
    (split; [by rewrite Htr2, Htr1, app_assoc|]);
    [by apply N_app|by apply R_app].
Qed.

Lemma traced_try_nc (c : nc_call) : Q c → traced N R (try_nc c).
Proof.
  intros Hc w. rewrite run_try_nc.
  destruct (decide _) as [Hr|Hr]; exists [event_of c (netcdf (trace w) c)];
    (split; [done|]); [by apply N_call|by apply R_call].
Qed.

Lemma traced_ret {A} (a : A) : traced N R (mret a).
Proof. by apply traced_pure. Qed.

Lemma traced_get_this : traced N R get_this.
Proof. by apply traced_pure. Qed.

Lemma traced_set_this (f : NDFileNetCDF → NDFileNetCDF) : traced N R (set_this f).
Proof. by apply traced_pure. Qed.

Lemma traced_read_dim (pArray : NDArray) (j : nat) : traced N R (read_dim pArray j).
Proof.
  apply traced_pure. intros w. unfold read_dim. by destruct (dims pArray !! j).
Qed.

Lemma traced_load_attrId (k : nat) : traced N R (load_attrId k).
Proof.
  apply traced_pure. intros w. unfold load_attrId.
  destruct (pAttributeId (this w)) as [l|]; [|done]. by destruct (l !! k).
Qed.

Lemma traced_store_attrId (k : nat) (id : Z) : traced N R (store_attrId k id).
Proof.
  apply traced_pure. intros w. unfold store_attrId.
  destruct (pAttributeId (this w)) as [l|]; [|done]. by destruct (decide _).
Qed.

Lemma traced_define_dims (ncid : Z) (pArray : NDArray) (idxs : list nat)
    (a : dim_arrays) :
  (∀ name len, Q (nc_def_dim ncid name len)) →
  traced N R (define_dims ncid pArray idxs a).
Proof.
  intros HQ. revert a. induction idxs as [|i idxs IH]; intros a; simpl.
  - apply traced_ret.
  - apply traced_bind; [apply traced_read_dim|intros dj].
    apply traced_bind; [by apply traced_try_nc|intros id'].
    apply traced_bind; [apply traced_read_dim|intros di]. apply IH.
Qed.

Lemma traced_slab_dims (pArray : NDArray) (idxs : list nat) (start count : list Z) :
  traced N R (slab_dims pArray idxs start count).
Proof.
  revert start count. induction idxs as [|i idxs IH]; intros start count; simpl.
  - apply traced_ret.
  - apply traced_bind; [apply traced_read_dim|intros dj]. apply IH.
Qed.

Lemma traced_read_buffer (buf : option string) : traced N R (read_buffer buf).
Proof.
  unfold read_buffer. destruct buf; [apply traced_ret|by intros w].
Qed.

Lemma traced_define_attributes (ncid : Z) (dimIds stringDimIds : list Z)
    (rest : list NDAttribute) (k : nat) :
  (∀ name xtype len op, Q (nc_put_att_int ncid NC_GLOBAL name xtype len op)) →
  (∀ name len op, Q (nc_put_att_text ncid NC_GLOBAL name len op)) →
  (∀ name xtype nd dimids, Q (nc_def_var ncid name xtype nd dimids)) →
  Forall (λ a, getValueInfo a = NDAttrUndefined → R []) rest →
  traced N R (define_attributes ncid dimIds stringDimIds rest k).
Proof.
  intros Hint Htext Hvar Hrest. revert k.
  induction Hrest as [|a rest Ha _ IH]; intros k; simpl.
  - apply traced_ret.
  - apply traced_bind; [apply traced_read_buffer|intros ?].
    apply traced_bind; [by apply traced_try_nc|intros ?].
    apply traced_bind; [apply traced_read_buffer|intros ?].
    apply traced_bind; [by apply traced_try_nc|intros ?].
    apply traced_bind; [|intros ncType].
    { unfold ncType_of_attrDataType.
      destruct (getValueInfo a) eqn:Hty; simpl; try apply traced_ret.
      intros w. exists []. rewrite app_nil_r. auto. }
    apply traced_bind; [|intros id'].
    { destruct (decide _); by apply traced_try_nc. }
    apply traced_bind; [apply traced_store_attrId|intros ?]. apply IH.
Qed.

Lemma traced_write_attributes (ncid : Z) (start count : list Z)
    (rest : list NDAttribute) (k : nat) :
  (∀ c, is_slab_write c → Q c) →
  Forall (λ a, getValueInfo a = NDAttrUndefined → R []) rest →
  traced N R (write_attributes ncid start count rest k).
Proof.
  intros Hslab Hrest. revert k.
  induction Hrest as [|a rest Ha _ IH]; intros k; simpl.
  - apply traced_ret.
  - apply traced_bind; [apply traced_load_attrId|intros attrId].
    apply traced_bind; [|intros ?; apply IH].
    rewrite put_attribute_call.
    destruct (attr_write_call ncid start count a attrId) as [c|] eqn:Hc.
    + apply traced_try_nc, Hslab.
      apply attr_write_call_slab in Hc as [count' Hc].
      unfold is_slab_write. by rewrite Hc.
    + destruct (decide _) as [Hu|Hu]; [|by apply traced_pure].
      intros w. exists []. rewrite app_nil_r. auto.
Qed.

End Traced.

Global Instance rejection_spec : TraceSpec all_accepted rejected_last (λ _, True).
Proof.
  split.
  - constructor.
  - intros evs1 evs2 H1 H2. by apply Forall_app.
  - intros evs1 evs2 H1 (evs0 & e & -> & H0 & He).
    exists (evs1 ++ evs0), e. rewrite app_assoc. split; [done|].
    split; [by apply Forall_app|done].
  - intros e _ He. by constructor.
  - intros e _ He. exists [], e. split; [done|]. split; [constructor|done].
Qed.

Global Instance calls_spec (Q : nc_call → Prop) : TraceSpec (calls_in Q) (calls_in Q) Q.
Proof.
  split.
  - constructor.
  - intros evs1 evs2 H1 H2. by apply Forall_app.
  - intros evs1 evs2 H1 H2. by apply Forall_app.
  - intros e He _. by constructor.
  - intros e He _. by constructor.
Qed.

(** *** [openFile], however it ends *)

Lemma traced_openFile (N R : list nc_event → Prop) (Q : nc_call → Prop)
    `{!TraceSpec N R Q} (fileName : string) (openMode : Z) (pArray : NDArray) :
  (∀ c, is_define_call c → Q c) →
  R [] ∨ (Z.land openMode NDFileModeRead = 0 ∧
          Z.land openMode NDFileModeAppend = 0 ∧
          Forall (λ a, getValueInfo a ≠ NDAttrUndefined) (attributes pArray)) →
  traced N R (openFile fileName openMode pArray).
Proof.
  intros HQ Hret.
  assert (Forall (λ a, getValueInfo a = NDAttrUndefined → R []) (attributes pArray))
    as Hattrs.
  { destruct Hret as [H0|(_ & _ & Hdef)]; [by apply Forall_true|].
    eapply Forall_impl; [exact Hdef|]. by intros a Ha Hu. }
  assert (∀ w : world, ∃ evs, trace w = trace w ++ evs ∧
            (Z.land openMode NDFileModeRead ≠ 0 ∨
             Z.land openMode NDFileModeAppend ≠ 0 → R evs)) as Hmode.
  { intros w. exists []. rewrite app_nil_r. split; [done|].
    intros Hbad. destruct Hret as [H0|(Hr & Ha & _)]; [done|].
    by destruct Hbad. }
  unfold openFile.
  destruct (decide _) as [Hr|_].
  { intros w. destruct (Hmode w) as (evs & Htr & HR). exists evs. auto. }
  destruct (decide _) as [Ha|_].
  { intros w. destruct (Hmode w) as (evs & Htr & HR). exists evs. auto. }
  repeat first
    [ apply (traced_try_nc N R Q); by apply HQ
    | apply (traced_set_this N R Q)
    | apply (traced_ret N R Q)
    | apply (traced_define_dims N R Q); intros; by apply HQ
    | apply (traced_define_attributes N R Q); [intros; by apply HQ..|exact Hattrs]
    | apply (traced_bind N R Q); [| intros ?] ].
Qed.

Lemma method_openFile_traced (N R : list nc_event → Prop) (fileName : string)
    (openMode : Z) (pArray : NDArray) (w : world) (s : asynStatus) (w' : world) :
  traced N R (openFile fileName openMode pArray) →
  method (openFile fileName openMode pArray) w = Returns s w' →
  (s = asynSuccess ∧ N (new_events w w')) ∨ (s = asynError ∧ R (new_events w w')).
Proof.
  intros Htraced. unfold method. specialize (Htraced w).
  pose proof (frame_openFile fileName openMode pArray w) as Hframe.
  destruct (openFile fileName openMode pArray w) as [s1 w1|s1 w1|] eqn:Hrun;
    [| |done]; intros [= <- <-]; destruct Htraced as (evs & Htr & H);
    rewrite (new_events_app _ _ _ Htr).
  - apply openFile_Next in Hrun as [-> _]. by left.
  - destruct Hframe as [-> _]. by right.
Qed.

Lemma length_dim_events (ncid : Z) (pArray : NDArray) (idxs : list nat) (ids : list Z) :
  length ids = length idxs → length (dim_events ncid pArray idxs ids) = length idxs.
Proof. intros H. unfold dim_events. rewrite length_zip_with. lia. Qed.

Lemma length_attrs_events (ncid : Z) (dimIds stringDimIds : list Z)
    (attrs : list NDAttribute) (ids : list Z) :
  length ids = length attrs →
  length (attrs_events ncid dimIds stringDimIds attrs ids) = (3 * length attrs)%nat.
Proof.
  revert ids. induction attrs as [|a attrs IH]; intros [|id ids] Hlen; try done.
  simpl in *. rewrite IH; lia.
Qed.

(** X1 -- Under every mode without the read and the append bit, with
    the write bit or without it, the first thing [openFile] does to
    the outside is [nc_create(fileName, NC_CLOBBER)]: an existing file
    of that name is overwritten, however the call ends. *)
Theorem openFile_creates_first (fileName : string) (openMode : Z)
    (pArray : NDArray) (w : world) (s : asynStatus) (w' : world) :
  Z.land openMode NDFileModeRead = 0 →
  Z.land openMode NDFileModeAppend = 0 →
  method (openFile fileName openMode pArray) w = Returns s w' →
  ∃ e rest, new_events w w' = e :: rest ∧
    ev_call e = nc_create fileName NC_CLOBBER ∧
    (s = asynSuccess → accepted e ∧ ev_id e = Some (ncId (this w'))).
Proof.
  intros Hr Ha. unfold method.
  destruct (openFile fileName openMode pArray w) as [s1 w1|s1 w1|] eqn:H;
    [| |done]; intros [= <- <-].
  - apply openFile_Next in H
      as (-> & _ & _ & ncid & id0 & ids & idS & uid & tid & did & aids
          & _ & _ & Htr & Ht & _).
    rewrite (new_events_app _ _ _ Htr), Ht. unfold open_events. simpl.
    eexists. eexists. split; [reflexivity|]. by repeat split.
  - pose proof (frame_openFile fileName openMode pArray w) as Hs.
    rewrite H in Hs. destruct Hs as [-> _].
    unfold openFile in H.
    destruct (decide _); [done|]. destruct (decide _); [done|].
    rewrite run_bind, run_set_this in H. cbv beta iota in H.
    rewrite run_bind, run_try_nc in H.
    destruct (decide (retval _ = NC_NOERR)); cbv beta iota in H.
    + match type of H with
      | ?m ?w1' = _ =>
          assert (frame any_change m) as Hfr by frame_steps;
          specialize (Hfr w1'); rewrite H in Hfr
      end.
      destruct Hfr as (_ & _ & [more Hmore]). simpl in Hmore.
      rewrite <- app_assoc in Hmore.
      rewrite (new_events_app _ _ _ Hmore). simpl.
      eexists. eexists. split; [reflexivity|]. split; [done|]. by intros [=].
    + injection H as <-.
      rewrite (new_events_app w (push (mkWorld _ (trace w)) _) [_] eq_refl).
      eexists. eexists. split; [reflexivity|]. split; [done|]. by intros [=].
Qed.

(** X2 -- With a supported mode, no attribute of undefined type, and
    names and descriptions that fit the buffers they are read into,
    the only thing that makes [openFile] fail is the library: the call
    always returns; it returns [asynSuccess] after [14 + N + 3A]
    accepted calls ([N] dimensions, [A] attributes), and
    [asynError] exactly when the library rejected a call, which is
    then the last call made. *)
Theorem openFile_fails_only_with_library (fileName : string) (openMode : Z)
    (pArray : NDArray) (w : world) :
  Z.land openMode NDFileModeRead = 0 →
  Z.land openMode NDFileModeAppend = 0 →
  Forall (λ a, getValueInfo a ≠ NDAttrUndefined) (attributes pArray) →
  Forall readable (attributes pArray) →
  (∃ s w', method (openFile fileName openMode pArray) w = Returns s w') ∧
  ∀ s w', method (openFile fileName openMode pArray) w = Returns s w' →
    (s = asynSuccess ∧ all_accepted (new_events w w') ∧
     length (new_events w w') = (14 + ndims pArray + 3 * numAttributes pArray)%nat) ∨
    (s = asynError ∧ rejected_last (new_events w w')).
Proof.
  intros Hr Ha Hdef Hreadable. split; [by apply method_openFile_returns|].
  intros s w' Hrun.
  destruct (method_openFile_traced all_accepted rejected_last
              fileName openMode pArray w s w') as [[-> Hall]|[-> Hrej]];
    [apply (traced_openFile _ _ (λ _, True)); [done|by right]|done| |by right].
  left. split; [done|]. split; [done|].
  apply openFile_success in Hrun
    as (_ & _ & ncid & id0 & ids & idS & uid & tid & did & aids
        & Hids & Haids & -> & _ & _).
  unfold open_events. rewrite !length_app, length_dim_events, length_attrs_events
    by (by rewrite ?length_seq).
  rewrite length_seq. unfold numAttributes. simpl. lia.
Qed.

(** X3 -- [openFile] makes no call but those that create the file and
    define its structure: however it ends it has written no slab and
    has not closed the file, so a file whose definition failed half
    way is left open. *)
Theorem openFile_only_defines (fileName : string) (openMode : Z)
    (pArray : NDArray) (w : world) (s : asynStatus) (w' : world) :
  method (openFile fileName openMode pArray) w = Returns s w' →
  calls_in is_define_call (new_events w w') ∧
  Forall (λ e, ¬ is_slab_write (ev_call e) ∧
               ∀ ncid, ev_call e ≠ nc_close ncid) (new_events w w').
Proof.
  intros Hrun.
  assert (calls_in is_define_call (new_events w w')) as Hcalls.
  { destruct (method_openFile_traced (calls_in is_define_call)
                (calls_in is_define_call) fileName openMode pArray w s w')
      as [[_ H]|[_ H]]; [|done..].
    apply (traced_openFile _ _ is_define_call); [done|]. left. constructor. }
  split; [done|]. eapply Forall_impl; [exact Hcalls|].
  intros e. unfold is_slab_write.
  destruct (ev_call e); simpl; try done; intros _;
    (split; [apply is_Some_None|intros ? ?; discriminate]).
Qed.

(** *** [writeFile], however it ends *)

Lemma traced_writeFile (N R : list nc_event → Prop) (Q : nc_call → Prop)
    `{!TraceSpec N R Q} (pArray : NDArray) :
  (∀ c, is_slab_write c → Q c) →
  R [] ∨ Forall (λ a, getValueInfo a ≠ NDAttrUndefined) (attributes pArray) →
  traced N R (writeFile pArray).
Proof.
  intros HQ Hret.
  assert (Forall (λ a, getValueInfo a = NDAttrUndefined → R []) (attributes pArray))
    as Hattrs.
  { destruct Hret as [H0|Hdef]; [by apply Forall_true|].
    eapply Forall_impl; [exact Hdef|]. by intros a Ha Hu. }
  unfold writeFile.
  apply (traced_bind N R Q); [apply (traced_get_this N R Q)|intros self].
  apply (traced_bind N R Q); [apply (traced_slab_dims N R Q)|intros [start count]].
  rewrite data_write.
  apply (traced_bind N R Q); [apply (traced_try_nc N R Q), HQ; by eexists|intros ?].
  apply (traced_bind N R Q); [apply (traced_try_nc N R Q), HQ; by eexists|intros ?].
  apply (traced_bind N R Q); [apply (traced_try_nc N R Q), HQ|intros ?].
  { unfold data_write_call. destruct (dataType pArray); by eexists. }
  apply (traced_bind N R Q);
    [by apply (traced_write_attributes N R Q)|intros ?].
  apply (traced_bind N R Q); [apply (traced_set_this N R Q)|intros ?].
  apply (traced_ret N R Q).
Qed.

Lemma method_writeFile_traced (N R : list nc_event → Prop) (pArray : NDArray)
    (w : world) (s : asynStatus) (w' : world) :
  traced N R (writeFile pArray) →
  method (writeFile pArray) w = Returns s w' →
  (s = asynSuccess ∧ N (new_events w w')) ∨ (s = asynError ∧ R (new_events w w')).
Proof.
  intros Htraced Hrun. specialize (Htraced w).
  apply method_writeFile in Hrun as [[-> Hrun]|[-> Hrun]]; rewrite Hrun in Htraced;
    destruct Htraced as (evs & Htr & H); rewrite (new_events_app _ _ _ Htr); auto.
Qed.

Lemma write_attributes_defined (ncid : Z) (start count : list Z)
    (rest : list NDAttribute) (k : nat) (w : world) (ids : list Z) :
  pAttributeId (this w) = Some ids →
  (k + length rest ≤ length ids)%nat →
  Forall writable rest →
  write_attributes ncid start count rest k w ≠ Undefined.
Proof.
  revert k w. induction rest as [|a rest IH]; intros k w Hids Hk Hall; [done|].
  apply Forall_cons in Hall as [[Hdef Hshort] Hall]. simpl in *.
  rewrite run_bind. unfold load_attrId at 1. rewrite Hids.
  destruct (lookup_lt_is_Some_2 ids k) as [id ->]; [lia|].
  rewrite run_bind, put_attribute_call.
  destruct (attr_write_call ncid start count a id) as [c|] eqn:Hc.
  - rewrite run_try_nc. destruct (decide _); [|done].
    apply IH; [done|lia|done].
  - destruct (decide _); [done|]. exfalso.
    unfold attr_write_call in Hc. unfold getValueInfo in Hdef.
    destruct (pValue a) eqn:Hv; try done.
    specialize (Hshort _ eq_refl). by destruct (decide _).
Qed.

Lemma method_writeFile_returns (pArray : NDArray) (w : world) (ids : list Z) :
  pAttributeId (this w) = Some ids →
  (numAttributes pArray ≤ length ids)%nat →
  Forall writable (attributes pArray) →
  ∃ s w', method (writeFile pArray) w = Returns s w'.
Proof.
  intros Hids Hlen Hall.
  assert (writeFile pArray w ≠ Undefined) as Hdef.
  { unfold writeFile. rewrite run_bind. simpl.
    rewrite run_bind, slab_dims_frame, data_write.
    do 3 (rewrite run_bind, run_try_nc;
          destruct (decide (retval _ = NC_NOERR)); [|done]).
    rewrite run_bind.
    match goal with
    | |- context [write_attributes ?n ?st ?ct ?r ?k ?w0] =>
        pose proof (write_attributes_defined n st ct r k w0 ids Hids Hlen Hall) as Hd;
        destruct (write_attributes n st ct r k w0) as [u w1|s w1|]; done
    end. }
  unfold method. destruct (writeFile pArray w) as [s w1|s w1|]; [eauto..|done].
Qed.

Lemma slab_writes_define_nothing (evs : list nc_event) :
  calls_in is_slab_write evs →
  dim_defs evs = [] ∧ var_defs evs = [] ∧ global_ints evs = [] ∧
  global_texts evs = [].
Proof.
  induction 1 as [|e evs He _ (IH1 & IH2 & IH3 & IH4)]; [done|].
  unfold dim_defs, var_defs, global_ints, global_texts in *.
  change (e :: evs) with ([e] ++ evs).
  rewrite !omap_app, IH1, IH2, IH3, IH4. simpl.
  unfold dim_def_of, var_def_of, global_int_of, global_text_of.
  destruct He as [x Hx]. by destruct (ev_call e).
Qed.

(** X4 -- [writeFile] checks the frame against nothing: not against
    the frame the file was opened with, not against the open mode, not
    against the number of records written.  When the session has an
    identifier for each attribute of the frame and each attribute has
    a call (its type is defined and a string fits the buffer), the
    call always returns; it returns [asynSuccess], with the cursor one
    higher, after [3 + A] accepted calls, and [asynError], with the
    session as it was, exactly when the library rejected a call, which
    is then the last call made. *)
Theorem writeFile_fails_only_with_library (pArray : NDArray) (w : world)
    (ids : list Z) :
  pAttributeId (this w) = Some ids →
  (numAttributes pArray ≤ length ids)%nat →
  Forall writable (attributes pArray) →
  (∃ s w', method (writeFile pArray) w = Returns s w') ∧
  ∀ s w', method (writeFile pArray) w = Returns s w' →
    (s = asynSuccess ∧ all_accepted (new_events w w') ∧
     length (new_events w w') = (3 + numAttributes pArray)%nat ∧
     nextRecord (this w') = nextRecord (this w) + 1) ∨
    (s = asynError ∧ rejected_last (new_events w w') ∧ this w' = this w).
Proof.
  intros Hids Hlen Hall. split; [by eapply method_writeFile_returns|].
  intros s w' Hrun.
  pose proof (writeFile_returned pArray w s w' Hrun) as (_ & Hok & Herr).
  destruct (method_writeFile_traced all_accepted rejected_last pArray w s w')
    as [[-> Hacc]|[-> Hrej]]; [|done| |].
  - apply (traced_writeFile _ _ (λ _, True)); [done|]. right.
    eapply Forall_impl; [exact Hall|]. by intros a [Ha _].
  - left. destruct (Hok eq_refl) as (Ht & _ & Hn & _).
    split; [done|]. split; [done|]. split; [done|]. by rewrite Ht.
  - right. split; [done|]. split; [done|]. by apply Herr.
Qed.

(** X5 -- [writeFile] makes slab writes and nothing else: however it
    ends it has defined no axis and no variable, written no global
    attribute and not closed the file, and the identifiers the session
    holds are what they were.  The structure of the file is what
    [openFile] left. *)
Theorem writeFile_only_writes_slabs (pArray : NDArray) (w : world)
    (s : asynStatus) (w' : world) :
  method (writeFile pArray) w = Returns s w' →
  calls_in is_slab_write (new_events w w') ∧
  dim_defs (new_events w w') = [] ∧ var_defs (new_events w w') = [] ∧
  global_ints (new_events w w') = [] ∧ global_texts (new_events w w') = [] ∧
  Forall (λ e, ∀ ncid, ev_call e ≠ nc_close ncid) (new_events w w') ∧
  same_handles (this w) (this w').
Proof.
  intros Hrun.
  assert (calls_in is_slab_write (new_events w w')) as Hcalls.
  { destruct (method_writeFile_traced (calls_in is_slab_write)
                (calls_in is_slab_write) pArray w s w') as [[_ H]|[_ H]]; [|done..].
    apply (traced_writeFile _ _ is_slab_write); [done|]. left. constructor. }
  split; [done|].
  destruct (slab_writes_define_nothing _ Hcalls) as (-> & -> & -> & ->).
  do 4 (split; [done|]). split.
  - eapply Forall_impl; [exact Hcalls|]. intros e [x Hx] ncid Hc.
    by rewrite Hc in Hx.
  - apply writeFile_returned in Hrun as (_ & Hok & Herr). destruct s.
    + destruct (Hok eq_refl) as (-> & _). by repeat split.
    + rewrite (Herr eq_refl). by repeat split.
Qed.

(** *** A session: open, writes, close *)

Global Instance same_handles_preorder : PreOrder same_handles.
Proof.
  split.
  - by intros t.
  - intros t1 t2 t3 (H1 & H2 & H3 & H4 & H5) (K1 & K2 & K3 & K4 & K5).
    unfold same_handles. rewrite K1, K2, K3, K4, K5. done.
Qed.

Lemma write_step_keeps_handles (w w' : world) :
  write_step w w' → same_handles (this w) (this w').
Proof.
  intros (pArray & s & Hrun).
  apply writeFile_returned in Hrun as (_ & Hok & Herr). destruct s.
  - destruct (Hok eq_refl) as (-> & _). by repeat split.
  - rewrite (Herr eq_refl). by repeat split.
Qed.

Lemma write_steps_keep_handles (w w' : world) :
  rtc write_step w w' → same_handles (this w) (this w').
Proof.
  induction 1 as [|x y z Hxy _ IH]; [done|].
  etrans; [by apply write_step_keeps_handles|done].
Qed.

(** The session a write finds after a successful open and any number
    of writes. *)
Lemma session_after_open (fileName : string) (openMode : Z) (pArray : NDArray)
    (w w1 w2 : world) :
  method (openFile fileName openMode pArray) w = Returns asynSuccess w1 →
  rtc write_step w1 w2 →
  ∃ ncid id0 ids idS uid tid did aids,
    length ids = ndims pArray ∧ length aids = numAttributes pArray ∧
    new_events w w1 =
      open_events fileName openMode pArray ncid id0 ids idS uid tid did aids ∧
    this w2 = mkSession ncid (nextRecord (this w2)) uid tid did (Some aids).
Proof.
  intros Hopen Hsteps.
  apply openFile_success in Hopen
    as (_ & _ & ncid & id0 & ids & idS & uid & tid & did & aids
        & Hids & Haids & Hev & Ht & _).
  apply write_steps_keep_handles in Hsteps as (H1 & H2 & H3 & H4 & H5).
  rewrite Ht in H1, H2, H3, H4, H5. simpl in *.
  exists ncid, id0, ids, idS, uid, tid, did, aids.
  do 3 (split; [done|]).
  destruct (this w2). simpl in *. by subst.
Qed.

Lemma attr_write_call_type (ncid : Z) (start count : list Z) (a : NDAttribute)
    (id : Z) (c : nc_call) :
  attr_write_call ncid start count a id = Some c →
  vara_type c = attr_ncType (getValueInfo a).
Proof.
  unfold attr_write_call, getValueInfo.
  destruct (pValue a); try (by intros [= <-]).
  destruct (decide _); [|done]. by intros [= <-].
Qed.

Lemma data_write_call_type (ncid varid : Z) (start count : list Z) (pArray : NDArray) :
  vara_type (data_write_call ncid varid start count pArray) =
  Some (ncType_of_dataType (dataType pArray)).
Proof. unfold data_write_call. by destruct (dataType pArray). Qed.


(** X7 -- The two type switches agree.  The function a write uses for
    the unique id, the timestamp and the data buffer is the one of the
    storage type the variable was defined with, provided the frame has
    the element type of the frame the file was opened with; and the
    function it uses for its [k]-th attribute is the one of the type
    of the [k]-th attribute variable whenever that attribute has the
    type it had at open time.  No value is handed to the library under
    a type other than the declared one. *)
Theorem writes_use_the_declared_types (fileName : string) (openMode : Z)
    (pArray : NDArray) (w w1 w2 : world) (frame2 : NDArray)
    (s : asynStatus) (w3 : world) :
  method (openFile fileName openMode pArray) w = Returns asynSuccess w1 →
  rtc write_step w1 w2 →
  method (writeFile frame2) w2 = Returns s w3 →
  (∀ j c, (j < 2)%nat → (ev_call <$> new_events w2 w3) !! j = Some c →
     vara_type c = vd_type <$> var_defs (new_events w w1) !! j) ∧
  (dataType frame2 = dataType pArray →
   ∀ c, (ev_call <$> new_events w2 w3) !! 2%nat = Some c →
     vara_type c = vd_type <$> var_defs (new_events w w1) !! 2%nat) ∧
  (∀ k c a0 a, (ev_call <$> new_events w2 w3) !! (3 + k)%nat = Some c →
     attributes pArray !! k = Some a0 → attributes frame2 !! k = Some a →
     getValueInfo a = getValueInfo a0 →
     vara_type c = vd_type <$> var_defs (new_events w w1) !! (3 + k)%nat ∧
     is_Some (vara_type c)).
Proof.
  intros Hopen Hsteps Hwrite.
  destruct (session_after_open _ _ _ _ _ _ Hopen Hsteps)
    as (ncid & id0 & ids & idS & uid & tid & did & aids & Hids & Haids & -> & Ht).
  apply writeFile_returned in Hwrite as (Hpre & _).
  rewrite Ht in Hpre. unfold write_calls in Hpre. simpl in Hpre.
  rewrite var_defs_open_events by done.
  split; [|split].
  - intros j c Hj Hc. pose proof (prefix_lookup_Some _ _ _ _ Hc Hpre) as Hc'.
    destruct j as [|[|j]]; [| |lia]; by injection Hc' as <-.
  - intros Hty c Hc. pose proof (prefix_lookup_Some _ _ _ _ Hc Hpre) as Hc'.
    injection Hc' as <-. rewrite data_write_call_type. simpl. by rewrite Hty.
  - intros k c a0 a Hc Ha0 Ha Hsame.
    pose proof (prefix_lookup_Some _ _ _ _ Hc Hpre) as Hc'. simpl in Hc'.
    apply attr_write_calls_lookup in Hc' as (a' & id & Ha' & Hid & Hcall).
    assert (a' = a) as -> by congruence.
    apply attr_write_call_type in Hcall as Htype.
    assert (getValueInfo a ≠ NDAttrUndefined) as Hdef.
    { intros Hu. unfold attr_write_call in Hcall. unfold getValueInfo in Hu.
      by destruct (pValue a). }
    rewrite Htype, Hsame. rewrite Hsame in Hdef.
    change (3 + k)%nat with (length [mkVarDef "uniqueId" NC_INT [id0] uid;
      mkVarDef "timeStamp" NC_DOUBLE [id0] tid;
      mkVarDef "array_data" (ncType_of_dataType (dataType pArray)) (id0 :: ids) did]
      + k)%nat.
    rewrite lookup_app_r by lia.
    replace (_ + k - _)%nat with k by (simpl; lia).
    assert (zip_with (attr_var (id0 :: ids) [id0; idS]) (attributes pArray) aids !! k
            = Some (attr_var (id0 :: ids) [id0; idS] a0 id)) as ->
      by (apply lookup_zip_with_Some; eauto).
    simpl. rewrite (attr_ncType_defined _ Hdef). split; [done|by eexists].
Qed.

(** X8 -- [closeFile] makes one call: [nc_close] on the file the last
    successful [openFile] created, also after any number of writes,
    successful or not.  It returns [asynSuccess] exactly when the
    library accepted the call, and changes nothing in the session. *)
Theorem closeFile_closes_the_opened_file (fileName : string) (openMode : Z)
    (pArray : NDArray) (w w1 w2 : world) (s : asynStatus) (w3 : world) :
  method (openFile fileName openMode pArray) w = Returns asynSuccess w1 →
  rtc write_step w1 w2 →
  method closeFile w2 = Returns s w3 →
  ∃ ncid e,
    new_events w w1 !! 0%nat = Some (gives (nc_create fileName NC_CLOBBER) ncid) ∧
    new_events w2 w3 = [e] ∧ ev_call e = nc_close ncid ∧
    (s = asynSuccess ↔ accepted e) ∧
    this w3 = this w2.
Proof.
  intros Hopen Hsteps.
  destruct (session_after_open _ _ _ _ _ _ Hopen Hsteps)
    as (ncid & id0 & ids & idS & uid & tid & did & aids & Hids & Haids & -> & Ht).
  unfold method. rewrite closeFile_outcome.
  assert (ncId (this w2) = ncid) as -> by (by rewrite Ht).
  destruct (decide _) as [Hr|Hr]; intros [= <- <-];
    exists ncid, (event_of (nc_close ncid) (netcdf (trace w2) (nc_close ncid)));
    (split; [done|]);
    (split; [by rewrite (new_events_app w2 (push w2 _) [_] eq_refl)|]);
    (split; [done|]); (split; [|done]); unfold accepted; simpl; split; try done.
Qed.

(** *** An [openFile] that fails *)

Global Instance same_file_preorder : PreOrder same_file.
Proof.
  split.
  - by intros t.
  - intros t1 t2 t3 [H1 H2] [K1 K2]. unfold same_file. by rewrite K1, K2.
Qed.

Lemma frame_set_this_same_file (f : NDFileNetCDF → NDFileNetCDF) :
  (∀ t, same_file t (f t)) → frame same_file (set_this f).
Proof. intros Hf w. simpl. split; [apply Hf|done]. Qed.

Lemma frame_store_attrId_same_file (k : nat) (id : Z) :
  frame same_file (store_attrId k id).
Proof.
  intros w. unfold store_attrId.
  destruct (pAttributeId (this w)) as [l|]; [|done]. by destruct (decide _).
Qed.

Lemma frame_define_attributes_same_file (ncid : Z) (dimIds stringDimIds : list Z)
    (rest : list NDAttribute) (k : nat) :
  frame same_file (define_attributes ncid dimIds stringDimIds rest k).
Proof.
  revert k. induction rest as [|a rest IH]; intros k; simpl.
  - apply frame_ret; apply _.
  - apply frame_bind; [apply _|apply frame_read_buffer; apply _|intros ?].
    apply frame_bind; [apply _|apply frame_try_nc; apply _|intros ?].
    apply frame_bind; [apply _|apply frame_read_buffer; apply _|intros ?].
    apply frame_bind; [apply _|apply frame_try_nc; apply _|intros ?].
    apply frame_bind; [apply _|apply frame_ncType_of_attrDataType; apply _|intros ?].
    apply frame_bind; [apply _| |intros ?].
    { destruct (decide _); apply frame_try_nc; apply _. }
    apply frame_bind; [apply _|apply frame_store_attrId_same_file|intros ?]. apply IH.
Qed.

(** The statements of [openFile] after the file identifier is stored. *)
Ltac same_file_steps :=
  repeat first
    [ apply frame_try_nc; apply _
    | apply frame_set_this_same_file; done
    | apply frame_ret; apply _
    | apply frame_define_dims; apply _
    | apply frame_define_attributes_same_file
    | apply frame_bind; [apply _| |intros ?] ].

(** X9 -- An [openFile] that fails part-way.  Under a supported mode
    the cursor is 0 when [openFile] returns, with [asynSuccess] or
    with [asynError]; and once the library has accepted [nc_create],
    the session holds the identifier of the new file however the rest
    of [openFile] ends, so that the one call a following [closeFile]
    makes closes that file. *)
Theorem failed_open_keeps_the_new_file (fileName : string) (openMode : Z)
    (pArray : NDArray) (w : world) (s : asynStatus) (w' : world) :
  Z.land openMode NDFileModeRead = 0 →
  Z.land openMode NDFileModeAppend = 0 →
  method (openFile fileName openMode pArray) w = Returns s w' →
  nextRecord (this w') = 0 ∧
  ∀ e, new_events w w' !! 0%nat = Some e → accepted e →
    ev_id e = Some (ncId (this w')) ∧
    ∀ s2 w2, method closeFile w' = Returns s2 w2 →
      ev_call <$> new_events w' w2 = [nc_close (ncId (this w'))].
Proof.
  intros Hread Happend H.
  assert (∀ s2 w2, method closeFile w' = Returns s2 w2 →
            ev_call <$> new_events w' w2 = [nc_close (ncId (this w'))]) as Hclose.
  { intros s2 w2. unfold method. rewrite closeFile_outcome.
    destruct (decide _); intros [= <- <-];
      by rewrite (new_events_app w' (push w' _) [_] eq_refl). }
  unfold method, openFile in H.
  destruct (decide _) as [?|_]; [done|]. destruct (decide _) as [?|_]; [done|].
  rewrite run_bind, run_set_this in H. rewrite run_bind, run_try_nc in H.
  destruct (decide (retval _ = NC_NOERR)) as [Hr|Hr].
  - rewrite run_bind, run_set_this in H. cbv beta iota in H.
    match type of H with
    | match ?m ?w1 with _ => _ end = _ =>
        assert (frame same_file m) as Hf by same_file_steps;
        specialize (Hf w1); destruct (m w1) as [x wx|x wx|]; [| |done]
    end.
    + injection H as <- <-. destruct Hf as [[Hc Hn] [more Htr]].
      split; [done|]. intros e He Hacc. split; [|done].
      simpl in Htr. unfold new_events in He. rewrite Htr in He.
      rewrite <- !app_assoc, drop_app_length in He. injection He as <-.
      by rewrite Hn.
    + injection H as <- <-. destruct Hf as (_ & [Hc Hn] & [more Htr]).
      split; [done|]. intros e He Hacc. split; [|done].
      simpl in Htr. unfold new_events in He. rewrite Htr in He.
      rewrite <- !app_assoc, drop_app_length in He. injection He as <-.
      by rewrite Hn.
  - injection H as <- <-. split; [done|]. intros e He Hacc.
    unfold new_events in He. simpl in He. rewrite drop_app_length in He.
    injection He as <-. done.
Qed.

(** *** Integer attributes *)

Lemma to_signed_spec (width v : Z) :
  0 < width →
  - 2 ^ (width - 1) ≤ to_signed width v < 2 ^ (width - 1) ∧
  (to_signed width v - v) mod 2 ^ width = 0 ∧
  (- 2 ^ (width - 1) ≤ v < 2 ^ (width - 1) → to_signed width v = v) ∧
  (2 ^ (width - 1) ≤ v < 2 ^ width → to_signed width v = v - 2 ^ width).
Proof.
  intros Hw. unfold to_signed.
  assert (2 ^ width = 2 * 2 ^ (width - 1)) as ->.
  { rewrite <- Z.pow_succ_r by lia. f_equal. lia. }
  assert (0 < 2 ^ (width - 1)) as Hh by (apply Z.pow_pos_nonneg; lia).
  set (h := 2 ^ (width - 1)) in *.
  pose proof (Z.mod_pos_bound (v + h) (2 * h) ltac:(lia)) as Hb.
  pose proof (Z.div_mod (v + h) (2 * h) ltac:(lia)) as Hdm.
  split; [lia|]. split; [|split].
  - replace ((v + h) mod (2 * h) - h - v) with (- ((v + h) / (2 * h)) * (2 * h)) by lia.
    apply Z_mod_mult.
  - intros Hv. rewrite Z.mod_small by lia. lia.
  - intros Hv. replace (v + h) with (v - h + 1 * (2 * h)) by lia.
    rewrite Z_mod_plus_full, Z.mod_small by lia. lia.
Qed.

(** X10 -- Integer attributes are written through the signed type.
    The value [writeFile] hands to the library for an integer
    attribute of [width] bits is the [width]-bit two's-complement
    reading of the stored value: it is in the signed range and equal
    to the stored value modulo [2 ^ width]; a value in the signed
    range is written as it is, and an unsigned value above the signed
    range is written as that value minus [2 ^ width]. *)
Theorem integer_attribute_written_signed (pArray : NDArray) (w : world)
    (s : asynStatus) (w' : world) (k : nat) (a : NDAttribute) (c : nc_call)
    (width v : Z) :
  method (writeFile pArray) w = Returns s w' →
  attributes pArray !! k = Some a →
  int_attr (pValue a) = Some (width, v) →
  (ev_call <$> new_events w w') !! (3 + k)%nat = Some c →
  ∃ x, buffer_of c = Some (buf_value x) ∧
    - 2 ^ (width - 1) ≤ x < 2 ^ (width - 1) ∧
    (x - v) mod 2 ^ width = 0 ∧
    (- 2 ^ (width - 1) ≤ v < 2 ^ (width - 1) → x = v) ∧
    (2 ^ (width - 1) ≤ v < 2 ^ width → x = v - 2 ^ width).
Proof.
  intros Hwrite Ha Hint Hc.
  apply writeFile_returned in Hwrite as (Hpre & _).
  pose proof (prefix_lookup_Some _ _ _ _ Hc Hpre) as Hc'.
  unfold write_calls in Hc'. simpl in Hc'.
  apply attr_write_calls_lookup in Hc' as (a' & id & Ha' & _ & Hcall).
  assert (a' = a) as -> by congruence.
  exists (to_signed width v).
  assert (0 < width ∧ buffer_of c = Some (buf_value (to_signed width v))) as [Hw ->].
  { unfold attr_write_call in Hcall. unfold int_attr in Hint.
    destruct (pValue a); try discriminate Hint;
      injection Hint as <- <-; injection Hcall as <-; by split. }
  split; [done|]. by apply to_signed_spec.
Qed.

(** *** The metadata of the attributes *)

Lemma substring_whole (s : string) (n : nat) :
  (String.length s ≤ n)%nat → String.substring 0 n s = s.
Proof.
  revert n. induction s as [|c s IH]; intros [|n] Hn; simpl in *; try done; try lia.
  by rewrite IH by lia.
Qed.

Lemma substring_length_le (s : string) (n : nat) :
  (String.length (String.substring 0 n s) ≤ n)%nat.
Proof.
  revert n. induction s as [|c s IH]; intros [|n]; simpl; try lia.
  specialize (IH n). lia.
Qed.

Lemma append_length (s1 s2 : string) :
  String.length (s1 +:+ s2) = (String.length s1 + String.length s2)%nat.
Proof. induction s1 as [|c s1 IH]; simpl; [done|by rewrite IH]. Qed.

Lemma global_texts_dim_events (ncid : Z) (pArray : NDArray) (idxs : list nat)
    (ids : list Z) :
  global_texts (dim_events ncid pArray idxs ids) = [].
Proof.
  revert ids. induction idxs as [|i idxs IH]; intros [|id ids]; try done.
  unfold global_texts, dim_events in *. simpl. by rewrite IH.
Qed.

Lemma global_texts_attrs_events (ncid : Z) (dimIds stringDimIds : list Z)
    (attrs : list NDAttribute) (ids : list Z) :
  length ids = length attrs →
  global_texts (attrs_events ncid dimIds stringDimIds attrs ids) =
    (λ a, (epicsSnprintf MAX_ATTRIBUTE_STRING_SIZE (pName a +:+ "_Description"),
           pDescription a)) <$> attrs.
Proof.
  revert ids. induction attrs as [|a attrs IH]; intros [|id ids] Hlen; try done.
  unfold global_texts in *. simpl. rewrite IH by (simpl in Hlen; lia).
  rewrite substring_whole by done.
  by destruct (decide (getValueInfo a = NDAttrString)).
Qed.

Lemma global_texts_open_events (fileName : string) (openMode : Z) (pArray : NDArray)
    (ncid id0 : Z) (ids : list Z) (idS uid tid did : Z) (aids : list Z) :
  length aids = numAttributes pArray →
  global_texts (open_events fileName openMode pArray ncid id0 ids idS uid tid did aids)
  = (λ a, (epicsSnprintf MAX_ATTRIBUTE_STRING_SIZE (pName a +:+ "_Description"),
           pDescription a)) <$> attributes pArray.
Proof.
  intros Haids. unfold open_events, global_texts. rewrite !omap_app.
  fold (global_texts (dim_events ncid pArray (seq 0 (ndims pArray)) ids)).
  fold (global_texts (attrs_events ncid (id0 :: ids) [id0; idS] (attributes pArray) aids)).
  rewrite global_texts_dim_events, global_texts_attrs_events by done. simpl.
  by rewrite ?app_nil_r.
Qed.

(** X11 -- The metadata of the attributes.  A successful [openFile]
    stores one global text per attribute of the frame and nothing
    else as text, in the order of the attributes.  For an attribute
    whose name and description fit the buffers [openFile] reads them
    into, the text is the description, stored with its own length,
    and, after six global integers of the frame itself, there is one
    global integer per attribute: the code of its data type.  The
    keys are the name followed by "_Description" and by "_DataType",
    cut to the 255 characters that fit [tempString], and not cut when
    name and suffix fit together. *)
Theorem attribute_metadata_keys (fileName : string) (openMode : Z)
    (pArray : NDArray) (w w1 : world) :
  method (openFile fileName openMode pArray) w = Returns asynSuccess w1 →
  length (global_texts (new_events w w1)) = numAttributes pArray ∧
  ∀ k a, attributes pArray !! k = Some a →
    (String.length (pName a) < MAX_ATTRIBUTE_STRING_SIZE)%nat →
    (String.length (pDescription a) < MAX_ATTRIBUTE_STRING_SIZE)%nat →
    ∃ key_d key_t,
      global_texts (new_events w w1) !! k = Some (key_d, pDescription a) ∧
      global_ints (new_events w w1) !! (6 + k)%nat
        = Some (key_t, [NDAttrDataType_code (getValueInfo a)]) ∧
      (String.length key_d < MAX_ATTRIBUTE_STRING_SIZE)%nat ∧
      (String.length key_t < MAX_ATTRIBUTE_STRING_SIZE)%nat ∧
      ((String.length (pName a) + 12 < MAX_ATTRIBUTE_STRING_SIZE)%nat →
         key_d = pName a +:+ "_Description") ∧
      ((String.length (pName a) + 9 < MAX_ATTRIBUTE_STRING_SIZE)%nat →
         key_t = pName a +:+ "_DataType").
Proof.
  intros Hopen. apply openFile_success in Hopen
    as (_ & _ & ncid & id0 & ids & idS & uid & tid & did & aids
        & Hids & Haids & -> & _ & _).
  rewrite global_texts_open_events, global_ints_open_events by done.
  split; [by rewrite length_fmap|].
  intros k a Ha _ _.
  exists (epicsSnprintf MAX_ATTRIBUTE_STRING_SIZE (pName a +:+ "_Description")),
         (epicsSnprintf MAX_ATTRIBUTE_STRING_SIZE (pName a +:+ "_DataType")).
  split; [by rewrite list_lookup_fmap, Ha|].
  split.
  { change (6 + k)%nat with (length [("dataType", [NDDataType_code (dataType pArray)]);
      ("numArrayDims", [Z.of_nat (ndims pArray)]);
      ("dimSize", dim_size <$> dims pArray);
      ("dimOffset", dim_offset <$> dims pArray);
      ("dimBinning", dim_binning <$> dims pArray);
      ("dimReverse", dim_reverse <$> dims pArray)] + k)%nat.
    rewrite lookup_app_r by lia.
    replace (_ + k - _)%nat with k by (simpl; lia).
    by rewrite list_lookup_fmap, Ha. }
  unfold epicsSnprintf, MAX_ATTRIBUTE_STRING_SIZE.
  pose proof (substring_length_le (pName a +:+ "_Description") (256 - 1)).
  pose proof (substring_length_le (pName a +:+ "_DataType") (256 - 1)).
  split; [lia|]. split; [lia|].
  split; intros Hshort; apply substring_whole; rewrite append_length; simpl; lia.
Qed.

(** *** The shape of the attribute variables *)

Lemma open_events_text_axis (fileName : string) (openMode : Z) (pArray : NDArray)
    (ncid id0 : Z) (ids : list Z) (idS uid tid did : Z) (aids : list Z) :
  length ids = ndims pArray →
  dim_defs (open_events fileName openMode pArray ncid id0 ids idS uid tid did aids)
    !! (ndims pArray + 1)%nat
  = Some (mkDimDef "attrStringSize" (Z.of_nat MAX_ATTRIBUTE_STRING_SIZE) idS).
Proof.
  intros Hids. rewrite dim_defs_open_events.
  rewrite Nat.add_1_r. simpl.
  assert (length (zip_with (λ i id, mkDimDef ("dim" +:+ pretty i)
                    (dim_size (dims pArray !!! (ndims pArray - i - 1)%nat)) id)
                    (seq 0 (ndims pArray)) ids) = ndims pArray) as Hlen.
  { rewrite length_zip_with, length_seq. lia. }
  rewrite lookup_app_r by lia. by rewrite Hlen, Nat.sub_diag.
Qed.

Lemma open_events_attr_var (fileName : string) (openMode : Z) (pArray : NDArray)
    (ncid id0 : Z) (ids : list Z) (idS uid tid did : Z) (aids : list Z)
    (k : nat) (a : NDAttribute) :
  length ids = ndims pArray → length aids = numAttributes pArray →
  attributes pArray !! k = Some a →
  ∃ id, aids !! k = Some id ∧
    var_defs (open_events fileName openMode pArray ncid id0 ids idS uid tid did aids)
      !! (3 + k)%nat
    = Some (attr_var (id0 :: ids) [id0; idS] a id).
Proof.
  intros Hids Haids Ha.
  destruct (lookup_lt_is_Some_2 aids k) as [id Hid].
  { rewrite Haids. by eapply lookup_lt_Some. }
  exists id. split; [done|]. rewrite var_defs_open_events by done.
  change (3 + k)%nat with (length [mkVarDef "uniqueId" NC_INT [id0] uid;
    mkVarDef "timeStamp" NC_DOUBLE [id0] tid;
    mkVarDef "array_data" (ncType_of_dataType (dataType pArray)) (id0 :: ids) did]
    + k)%nat.
  rewrite lookup_app_r by lia.
  replace (_ + k - _)%nat with k by (simpl; lia).
  apply lookup_zip_with_Some. eauto.
Qed.

(** X12 -- The shape of the attribute variables.  A successful
    [openFile] defines [ndims + 2] axes, the last of them
    "attrStringSize" of length [MAX_ATTRIBUTE_STRING_SIZE], and
    [3 + numAttributes] variables.  The variable of the [k]-th
    attribute carries the attribute's name when the name fits the
    buffer it is read into; for a string attribute it lies over the
    record axis and the text axis, in this order, and for every other
    attribute over the record axis alone. *)
Theorem attribute_variable_shape (fileName : string) (openMode : Z)
    (pArray : NDArray) (w w1 : world) :
  method (openFile fileName openMode pArray) w = Returns asynSuccess w1 →
  length (dim_defs (new_events w w1)) = (ndims pArray + 2)%nat ∧
  length (var_defs (new_events w w1)) = (3 + numAttributes pArray)%nat ∧
  ∃ d0 dS,
    dim_defs (new_events w w1) !! 0%nat = Some d0 ∧
    dim_defs (new_events w w1) !! (ndims pArray + 1)%nat = Some dS ∧
    dd_name dS = "attrStringSize" ∧
    dd_len dS = Z.of_nat MAX_ATTRIBUTE_STRING_SIZE ∧
    ∀ k a, attributes pArray !! k = Some a →
      ∃ v, var_defs (new_events w w1) !! (3 + k)%nat = Some v ∧
        (short_name a → vd_name v = pName a) ∧
        (getValueInfo a = NDAttrString → vd_dimids v = [dd_id d0; dd_id dS]) ∧
        (getValueInfo a ≠ NDAttrString → vd_dimids v = [dd_id d0]).
Proof.
  intros Hopen. apply openFile_success in Hopen
    as (_ & _ & ncid & id0 & ids & idS & uid & tid & did & aids
        & Hids & Haids & -> & _ & _).
  split; [|split].
  - rewrite dim_defs_open_events. simpl.
    rewrite length_app, length_zip_with, length_seq. simpl. lia.
  - rewrite var_defs_open_events by done. simpl.
    rewrite length_zip_with. unfold numAttributes in *. lia.
  - eexists _, _. split; [by rewrite dim_defs_open_events|].
    split; [by apply open_events_text_axis|].
    split; [done|]. split; [done|].
    intros k a Ha.
    destruct (open_events_attr_var fileName openMode pArray ncid id0 ids idS
                uid tid did aids k a Hids Haids Ha) as (id & _ & ->).
    eexists. split; [done|]. split; [done|].
    unfold attr_var. simpl. split; intros Hs; by destruct (decide _).
Qed.

(** X13 -- A text write of a string that fits the buffer stays inside
    its variable.  In a session, the call [writeFile] makes for a
    string attribute shorter than [MAX_ATTRIBUTE_STRING_SIZE], at a
    position where the file has a string variable, writes one record
    of that variable: at the cursor on the record axis, and over as
    many characters as the string has, fewer than the text axis is
    long.  When the frame has a dimension, the write starts at 0 on
    the text axis. *)
Theorem text_write_inside_its_variable (fileName : string) (openMode : Z)
    (pArray : NDArray) (w w1 w2 : world) (frame2 : NDArray)
    (s : asynStatus) (w3 : world)
    (k : nat) (a0 a : NDAttribute) (str : string) (c : nc_call) :
  method (openFile fileName openMode pArray) w = Returns asynSuccess w1 →
  rtc write_step w1 w2 →
  method (writeFile frame2) w2 = Returns s w3 →
  attributes pArray !! k = Some a0 → getValueInfo a0 = NDAttrString →
  attributes frame2 !! k = Some a → pValue a = AttrString str →
  (String.length str < MAX_ATTRIBUTE_STRING_SIZE)%nat →
  (ev_call <$> new_events w2 w3) !! (3 + k)%nat = Some c →
  ∃ v d0 dS start len,
    var_defs (new_events w w1) !! (3 + k)%nat = Some v ∧
    dim_defs (new_events w w1) !! 0%nat = Some d0 ∧
    dim_defs (new_events w w1) !! (ndims pArray + 1)%nat = Some dS ∧
    vd_type v = NC_CHAR ∧ vd_dimids v = [dd_id d0; dd_id dS] ∧
    vara_type c = Some NC_CHAR ∧
    slab_of c = Some (vd_id v, start, [1; len]) ∧
    len = Z.of_nat (String.length str) ∧ 0 ≤ len < dd_len dS ∧
    start !! 0%nat = Some (nextRecord (this w2)) ∧
    ((0 < ndims frame2)%nat → start !! 1%nat = Some 0).
Proof.
  intros Hopen Hsteps Hwrite Ha0 Hstring Ha Hstr Hfits Hc.
  destruct (session_after_open _ _ _ _ _ _ Hopen Hsteps)
    as (ncid & id0 & ids & idS & uid & tid & did & aids & Hids & Haids & -> & Ht).
  apply writeFile_returned in Hwrite as (Hpre & _).
  pose proof (prefix_lookup_Some _ _ _ _ Hc Hpre) as Hc'.
  rewrite Ht in Hc'. unfold write_calls in Hc'. simpl in Hc'.
  apply attr_write_calls_lookup in Hc' as (a' & id & Ha' & Hid & Hcall).
  assert (a' = a) as -> by congruence.
  destruct (open_events_attr_var fileName openMode pArray ncid id0 ids idS
              uid tid did aids k a0 Hids Haids Ha0) as (id' & Hid' & Hv).
  assert (id' = id) as -> by congruence.
  unfold attr_write_call in Hcall. rewrite Hstr in Hcall.
  destruct (decide _) as [Hshort|]; [|done]. injection Hcall as <-.
  eexists _, _, _, _, _. split; [exact Hv|].
  split; [by rewrite dim_defs_open_events|].
  split; [by apply open_events_text_axis|].
  unfold attr_var. rewrite Hstring. simpl.
  split; [done|]. split; [done|]. split; [done|]. split; [done|]. split; [done|].
  split; [lia|]. split; [done|].
  intros Hnd. unfold slab_start, ndims in *.
  destruct (dims frame2); simpl in *; [lia|done].
Qed.

(** *** [openFile] and the session it finds *)

Lemma in_step_ret (P : relation NDFileNetCDF) {A} (a : A) : in_step P P (mret a).
Proof. by intros w v Htr HP. Qed.

Lemma in_step_return (P Q : relation NDFileNetCDF) {A} (s : asynStatus) :
  in_step P Q (@return_ A s).
Proof. by intros w v Htr HP. Qed.

Lemma in_step_bind (P Q R : relation NDFileNetCDF) {A B} (m : M A) (f : A → M B) :
  in_step P Q m → (∀ a, in_step Q R (f a)) → in_step P R (m ≫= f).
Proof.
  intros Hm Hf w v Htr HP. rewrite !run_bind. specialize (Hm w v Htr HP).
  destruct (m w) as [a w1|s w1|], (m v) as [b v1|s' v1|]; try done.
  destruct Hm as (<- & Htr1 & HQ). by apply Hf.
Qed.

Lemma in_step_try_nc (P : relation NDFileNetCDF) (c : nc_call) :
  in_step P P (try_nc c).
Proof.
  intros w v Htr HP. rewrite !run_try_nc, Htr.
  destruct (decide _); unfold push; simpl; by rewrite Htr.
Qed.

Lemma in_step_read_dim (P : relation NDFileNetCDF) (pArray : NDArray) (j : nat) :
  in_step P P (read_dim pArray j).
Proof. intros w v Htr HP. unfold read_dim. by destruct (dims pArray !! j). Qed.

Lemma in_step_define_dims (P : relation NDFileNetCDF) (ncid : Z) (pArray : NDArray)
    (idxs : list nat) (a : dim_arrays) :
  in_step P P (define_dims ncid pArray idxs a).
Proof.
  revert a. induction idxs as [|i idxs IH]; intros a; simpl.
  - apply in_step_ret.
  - eapply in_step_bind; [apply in_step_read_dim|intros dj].
    eapply in_step_bind; [apply in_step_try_nc|intros id'].
    eapply in_step_bind; [apply in_step_read_dim|intros di]. apply IH.
Qed.

Lemma in_step_set_this (P : relation NDFileNetCDF) (f : NDFileNetCDF → NDFileNetCDF) :
  in_step P (after f P) (set_this f).
Proof.
  intros w v Htr HP. simpl. split; [done|]. split; [done|].
  by exists (this w), (this v).
Qed.

(** From the same session and the same trace every statement runs the
    same way. *)
Lemma in_step_eq {A} (m : M A) : in_step eq eq m.
Proof.
  intros w v Htr Ht. assert (w = v) as ->.
  { destruct w, v. simpl in *. congruence. }
  by destruct (m v).
Qed.

Lemma in_step_weaken (P P' Q : relation NDFileNetCDF) {A} (m : M A) :
  (∀ t u, P t u → P' t u) → in_step P' Q m → in_step P Q m.
Proof. intros HP Hm w v Htr Ht. apply Hm; [done|by apply HP]. Qed.

(** By the time [openFile] reaches the attribute loop it has assigned
    every member of the session. *)
Lemma in_step_openFile (fileName : string) (openMode : Z) (pArray : NDArray) :
  in_step any_change eq (openFile fileName openMode pArray).
Proof.
  unfold openFile.
  destruct (decide _); [apply in_step_return|].
  destruct (decide _); [apply in_step_return|].
  repeat first
    [ eapply in_step_bind; [apply in_step_set_this|intros ?]
    | eapply in_step_bind; [apply in_step_try_nc|intros ?]
    | eapply in_step_bind; [apply in_step_define_dims|intros ?] ].
  eapply in_step_weaken; [|apply in_step_eq].
  intros t u H.
  repeat match goal with
         | H : after _ _ _ _ |- _ => destruct H as (? & ? & H & -> & ->)
         end.
  reflexivity.
Qed.

(** X15 -- [openFile] reads nothing of the session it finds.  Run on
    two session objects after the same history of library calls,
    [openFile] makes the same calls, gets the same replies and
    returns the same status; and when that status is [asynSuccess]
    the two session objects are equal afterwards, member for member.
    Nothing a previous file left in the session, and nothing the
    constructor left unset, reaches the new file. *)
Theorem openFile_forgets_the_previous_session (fileName : string)
    (openMode : Z) (pArray : NDArray) (w v : world) (s : asynStatus) (w' : world) :
  trace v = trace w →
  method (openFile fileName openMode pArray) w = Returns s w' →
  ∃ v', method (openFile fileName openMode pArray) v = Returns s v' ∧
    new_events v v' = new_events w w' ∧
    (s = asynSuccess → this v' = this w').
Proof.
  intros Htr H. unfold method in *.
  pose proof (in_step_openFile fileName openMode pArray w v (eq_sym Htr) I) as Hs.
  pose proof (frame_openFile fileName openMode pArray w) as Hf.
  destruct (openFile fileName openMode pArray w) as [a w1|a w1|];
    destruct (openFile fileName openMode pArray v) as [b v1|b v1|]; try done.
  - injection H as <- <-. destruct Hs as (<- & Htr1 & Ht).
    exists v1. split; [done|]. unfold new_events. rewrite Htr, Htr1. done.
  - injection H as <- <-. destruct Hs as (<- & Htr1). destruct Hf as (-> & _).
    exists v1. split; [done|]. unfold new_events. rewrite Htr, Htr1. done.
Qed.

End NDFileNetCDF.

(** ** Worked examples

    One admissible choice for the constants of the absent headers, the
    library that accepts every call, and two frames. *)

Definition example_dataType_code (dt : NDDataType_t) : Z :=
  match dt with
  | NDInt8 => 0 | NDUInt8 => 1 | NDInt16 => 2 | NDUInt16 => 3
  | NDInt32 => 4 | NDUInt32 => 5 | NDFloat32 => 6 | NDFloat64 => 7
  end.

Definition example_attrDataType_code (adt : NDAttrDataType_t) : Z :=
  match adt with
  | NDAttrInt8 => 0 | NDAttrUInt8 => 1 | NDAttrInt16 => 2 | NDAttrUInt16 => 3
  | NDAttrInt32 => 4 | NDAttrUInt32 => 5 | NDAttrFloat32 => 6
  | NDAttrFloat64 => 7 | NDAttrString => 8 | NDAttrUndefined => 9
  end.

(** Mode bits: read 1, write 2, append 4, multiple 8; file version 3.0
    as a binary64 bit pattern. *)
Abbreviation example_openFile lib :=
  (openFile lib 1 4 8 4613937818241073152
     example_dataType_code example_attrDataType_code).

Definition example_dims (sizes : list Z) : list NDDimension_t :=
  (λ n, mkDim n 0 1 0) <$> sizes.

(** A 2 x 3 x 4 frame of 16-bit samples with three attributes. *)
Definition frame_234 : NDArray :=
  mkArray NDUInt16 (example_dims [2; 3; 4]) 7 4636737291354636288 []
    [ mkAttr "gain" "detector gain" (AttrInt32 5);
      mkAttr "temperature" "sensor temperature" (AttrFloat64 4626322717216342016);
      mkAttr "who" "operator" (AttrString "mark") ].

(** The same frame after the temperature attribute lost its type. *)
Definition frame_234_undefined : NDArray :=
  mkArray NDUInt16 (example_dims [2; 3; 4]) 8 4636737291354636288 []
    [ mkAttr "gain" "detector gain" (AttrInt32 5);
      mkAttr "temperature" "sensor temperature" AttrUndefined;
      mkAttr "who" "operator" (AttrString "mark") ].


(** A 2 x 3 x 2 frame: more than one dimension, sizes that differ, and a
    list of sizes that reads the same in both directions. *)
Definition frame_232 : NDArray :=
  mkArray NDUInt8 (example_dims [2; 3; 2]) 1 0 [] [].

(** A freshly constructed session. *)
Definition world_0 : world :=
  mkWorld (NDFileNetCDF_new (mkSession 0 0 0 0 0 None)) [].

(** The world a call returned in. *)
Definition returned_world (r : result) : world :=
  match r with
  | Returns _ w => w
  | Undef => world_0
  end.

(** Open for writing, multiple records (2 + 8). *)
Definition world_open : world :=
  returned_world (method (example_openFile netcdf_ok "scan.nc" 10 frame_234) world_0).

Definition world_written : world :=
  returned_world (method (writeFile netcdf_ok frame_234) world_open).

Definition world_written_twice : world :=
  returned_world (method (writeFile netcdf_ok frame_234) world_written).

Definition world_aborted : world :=
  returned_world (method (writeFile netcdf_ok frame_234_undefined) world_open).

Definition world_closed : world :=
  returned_world (method (closeFile netcdf_ok) world_written).

Definition world_open_232 : world :=
  returned_world (method (example_openFile netcdf_ok "square.nc" 2 frame_232) world_0).

(** The example session against a library that fails from its 29th call
    on: the open goes through, the third call of the write does not. *)
Definition world_open_28 : world :=
  returned_world
    (method (example_openFile (netcdf_failing 28) "scan.nc" 10 frame_234) world_0).

Definition world_failed_28 : world :=
  returned_world (method (writeFile (netcdf_failing 28) frame_234) world_open_28).

(** The session's attribute-id list has been released. *)
Definition attribute_ids_released (t : NDFileNetCDF) : Prop :=
  pAttributeId t = None.

Lemma example_open :
  method (example_openFile netcdf_ok "scan.nc" 10 frame_234) world_0
  = Returns asynSuccess world_open.
Proof. vm_compute. reflexivity. Qed.

Lemma example_write :
  method (writeFile netcdf_ok frame_234) world_open = Returns asynSuccess world_written.
Proof. vm_compute. reflexivity. Qed.

Lemma example_write_again :
  method (writeFile netcdf_ok frame_234) world_written
  = Returns asynSuccess world_written_twice.
Proof. vm_compute. reflexivity. Qed.

(** C1 at the 2 x 3 x 4 frame: the data variable lies over the record
    axis and axes of lengths 4, 3, 2. *)
Lemma dimension_order_reversed_witness :
  method (example_openFile netcdf_ok "scan.nc" 10 frame_234) world_0
    = Returns asynSuccess world_open ∧
  method (writeFile netcdf_ok frame_234) world_open
    = Returns asynSuccess world_written ∧
  dd_len <$> take 4 (dim_defs (new_events world_0 world_open)) = [0; 4; 3; 2] ∧
  dd_len <$> drop 1 (take 4 (dim_defs (new_events world_0 world_open))) = [4; 3; 2].
Proof.
  pose proof (dimension_order_reversed netcdf_ok 1 4 8 4613937818241073152
                example_dataType_code example_attrDataType_code
                "scan.nc" 10 frame_234 world_0 world_open
                frame_234 world_open asynSuccess world_written
                example_open example_write) as (_ & Hlen & _ & Hex & _).
  split; [exact example_open|]. split; [exact example_write|].
  split; [exact Hlen|]. exact (Hex eq_refl).
Defined.

Lemma example_abort :
  method (writeFile netcdf_ok frame_234_undefined) world_open
  = Returns asynError world_aborted.
Proof. vm_compute. reflexivity. Qed.

Lemma example_close :
  method (closeFile netcdf_ok) world_written = Returns asynSuccess world_closed.
Proof. vm_compute. reflexivity. Qed.

Lemma example_open_232 :
  method (example_openFile netcdf_ok "square.nc" 2 frame_232) world_0
  = Returns asynSuccess world_open_232.
Proof. vm_compute. reflexivity. Qed.

Lemma example_session : rtc (write_step netcdf_ok) world_open world_written.
Proof. apply rtc_once. exists frame_234, asynSuccess. exact example_write. Qed.



Lemma frame_234_readable : Forall readable (attributes frame_234).
Proof.
  repeat (constructor; [split; vm_compute; lia|]). constructor.
Defined.

Lemma frame_234_undefined_readable :
  Forall readable (attributes frame_234_undefined).
Proof.
  repeat (constructor; [split; vm_compute; lia|]). constructor.
Defined.



(** C3 at the example frame, opened for a single record (mode 2) and
    for multiple records (mode 2 + 8). *)
Lemma record_axis_first_witness :
  (∃ w1 d, method (example_openFile netcdf_ok "one.nc" 2 frame_234) world_0
             = Returns asynSuccess w1 ∧
     dim_defs (new_events world_0 w1) !! 0%nat = Some d ∧
     dd_name d = "numArrays" ∧ dd_len d = 1) ∧
  (∃ d, dim_defs (new_events world_0 world_open) !! 0%nat = Some d ∧
     dd_name d = "numArrays" ∧ dd_len d = NC_UNLIMITED).
Proof.
  split.
  - eexists. eexists.
    assert (method (example_openFile netcdf_ok "one.nc" 2 frame_234) world_0
            = Returns asynSuccess
                (returned_world
                   (method (example_openFile netcdf_ok "one.nc" 2 frame_234) world_0)))
      as Hopen by (vm_compute; reflexivity).
    split; [exact Hopen|].
    destruct (record_axis_first netcdf_ok 1 4 8 4613937818241073152
                example_dataType_code example_attrDataType_code
                "one.nc" 2 frame_234 world_0 asynSuccess _
                eq_refl eq_refl Hopen) as [Hfirst _].
    split; [vm_compute; reflexivity|].
    destruct (Hfirst _ ltac:(vm_compute; reflexivity)) as (Hname & Hone & _).
    split; [exact Hname|]. exact (Hone eq_refl).
  - eexists.
    destruct (record_axis_first netcdf_ok 1 4 8 4613937818241073152
                example_dataType_code example_attrDataType_code
                "scan.nc" 10 frame_234 world_0 asynSuccess world_open
                eq_refl eq_refl example_open) as [Hfirst _].
    split; [vm_compute; reflexivity|].
    destruct (Hfirst _ ltac:(vm_compute; reflexivity)) as (Hname & _ & Hmany).
    split; [exact Hname|]. apply Hmany. vm_compute. discriminate.
Defined.

Lemma example_open_28 :
  method (example_openFile (netcdf_failing 28) "scan.nc" 10 frame_234) world_0
  = Returns asynSuccess world_open_28.
Proof. vm_compute. reflexivity. Qed.

Lemma example_write_28 :
  method (writeFile (netcdf_failing 28) frame_234) world_open_28
  = Returns asynError world_failed_28.
Proof. vm_compute. reflexivity. Qed.

(** A frame with attributes written on a session that was never opened:
    the model gives no result. *)
Example write_before_open :
  method (writeFile netcdf_ok frame_234) world_0 = Undef.
Proof. vm_compute. reflexivity. Qed.

(** C4 at the example session: the cursor is 0 after the open, 1 after
    the first write and 2 after the second; a write the library fails
    leaves it at 0. *)
Lemma write_cursor_witness :
  nextRecord (this world_open) = 0 ∧
  nextRecord (this world_written) = 1 ∧
  nextRecord (this world_written_twice) = 2 ∧
  nextRecord (this world_failed_28) = 0.
Proof.
  destruct (write_cursor (netcdf_failing 28) 1 4 8 4613937818241073152
              example_dataType_code example_attrDataType_code
              "scan.nc" 10 frame_234 world_0 world_open_28
              frame_234 world_open_28 asynError world_failed_28
              example_open_28 example_write_28) as (H0' & _ & Herr & _).
  assert (nextRecord (this world_failed_28) = 0) as Hfailed
    by (rewrite (Herr eq_refl); exact H0').
  revert Hfailed.
  destruct (write_cursor netcdf_ok 1 4 8 4613937818241073152
              example_dataType_code example_attrDataType_code
              "scan.nc" 10 frame_234 world_0 world_open
              frame_234 world_open asynSuccess world_written
              example_open example_write) as (H0 & H1 & _ & _ & Hn).
  intros Hfailed.
  split; [exact H0|]. split; [|split; [|exact Hfailed]].
  - rewrite (H1 eq_refl), H0. reflexivity.
  - apply (Hn 2%nat). eapply nsteps_l; [exists frame_234; exact example_write|].
    apply nsteps_once. exists frame_234. exact example_write_again.
Defined.

(** C5 at the example frames: the three attribute variables are int,
    double and char, and the frame with the untyped attribute cannot be
    opened. *)
Lemma storage_type_table_witness :
  vd_type <$> var_defs (new_events world_0 world_open) =
    [NC_INT; NC_DOUBLE; NC_SHORT; NC_INT; NC_DOUBLE; NC_CHAR] ∧
  ∃ w1, method (example_openFile netcdf_ok "scan.nc" 10 frame_234_undefined) world_0
        = Returns asynError w1.
Proof.
  split; [vm_compute; reflexivity|].
  destruct (storage_type_table netcdf_ok 1 4 8 4613937818241073152
              example_dataType_code example_attrDataType_code
              "scan.nc" 10 frame_234_undefined world_0) as (_ & _ & _ & Hundef).
  apply Hundef; [exact frame_234_undefined_readable|].
  apply Exists_cons_tl, Exists_cons_hd. reflexivity.
Defined.

(** C6 with the read bit, and with the append bit. *)
Lemma unsupported_modes_rejected_witness :
  method (example_openFile netcdf_ok "scan.nc" 1 frame_234) world_0
    = Returns asynError world_0 ∧
  method (example_openFile netcdf_ok "scan.nc" 6 frame_234) world_0
    = Returns asynError world_0.
Proof.
  split.
  - apply (unsupported_modes_rejected netcdf_ok 1 4 8 4613937818241073152
             example_dataType_code example_attrDataType_code
             "scan.nc" 1 frame_234 world_0).
    left. vm_compute. discriminate.
  - apply (unsupported_modes_rejected netcdf_ok 1 4 8 4613937818241073152
             example_dataType_code example_attrDataType_code
             "scan.nc" 6 frame_234 world_0).
    right. vm_compute. discriminate.
Defined.

(** C7 at the example frame: the operator's name, four characters, goes
    to variable 5 with count [1; 4]. *)
Lemma string_attribute_actual_length_witness :
  ∃ e, new_events world_open world_written !! 5%nat = Some e ∧
    ev_retval e = NC_NOERR ∧
    slab_of (ev_call e) = Some (5, [0; 0; 0; 0], [1; 4]).
Proof.
  destruct (string_attribute_actual_length netcdf_ok frame_234 world_open
              asynSuccess world_written 2
              (mkAttr "who" "operator" (AttrString "mark")) "mark"
              [3; 4; 5] example_write eq_refl eq_refl
              ltac:(vm_compute; lia) ltac:(vm_compute; reflexivity))
    as (Hcall & Hdone & _).
  destruct (Hdone eq_refl) as (e & He & Hok).
  destruct (Hcall e He) as (id & Hid & _ & Hslab).
  injection Hid as <-. exists e. split; [exact He|]. split; [exact Hok|]. exact Hslab.
Defined.

(** C8 at the example session: the write of the frame whose second
    attribute is untyped returns [asynError] after at most four calls
    and leaves the cursor at 0. *)
Lemma undefined_attribute_aborts_write_witness :
  ∃ w3, method (writeFile netcdf_ok frame_234_undefined) world_open
          = Returns asynError w3 ∧
    nextRecord (this w3) = 0 ∧
    (length (new_events world_open w3) ≤ 4)%nat.
Proof.
  destruct (undefined_attribute_aborts_write netcdf_ok frame_234_undefined world_open
              [mkAttr "gain" "detector gain" (AttrInt32 5)]
              (mkAttr "temperature" "sensor temperature" AttrUndefined)
              [mkAttr "who" "operator" (AttrString "mark")]
              [3; 4; 5] eq_refl eq_refl ltac:(vm_compute; reflexivity)
              ltac:(simpl; lia)
              ltac:(constructor; [intros str; discriminate|constructor]))
    as (w3 & Hrun & Ht & _ & Hlen).
  exists w3. split; [exact Hrun|]. split; [by rewrite Ht|]. exact Hlen.
Defined.

(** C9, as the code has it, at the example session. *)
Lemma closeFile_keeps_attribute_ids_witness :
  method (closeFile netcdf_ok) world_written = Returns asynSuccess world_closed ∧
  pAttributeId (this world_closed) = pAttributeId (this world_written).
Proof.
  split; [exact example_close|].
  exact (proj1 (proj2 (closeFile_keeps_attribute_ids netcdf_ok world_written
                         asynSuccess world_closed example_close))).
Defined.

(** C9 as stated fails: after [closeFile] returned, the session still
    holds the three identifiers of the open. *)
Lemma closeFile_releases_nothing :
  method (closeFile netcdf_ok) world_written = Returns asynSuccess world_closed ∧
  pAttributeId (this world_closed) = Some [3; 4; 5] ∧
  ¬ attribute_ids_released (this world_closed).
Proof.
  split; [exact example_close|]. split; [vm_compute; reflexivity|].
  vm_compute. discriminate.
Qed.

(** C10, as the code has it, at the 2 x 3 x 4 frame: [dimSize] is
    [2; 3; 4] and the data axes are 4, 3, 2. *)
Lemma dimension_metadata_order_witness :
  global_ints (new_events world_0 world_open) !! 2%nat = Some ("dimSize", [2; 3; 4]) ∧
  dd_len <$> drop 1 (take 4 (dim_defs (new_events world_0 world_open))) = [4; 3; 2] ∧
  dd_len <$> drop 1 (take 4 (dim_defs (new_events world_0 world_open))) ≠ [2; 3; 4].
Proof.
  destruct (dimension_metadata_order netcdf_ok 1 4 8 4613937818241073152
              example_dataType_code example_attrDataType_code
              "scan.nc" 10 frame_234 world_0 world_open example_open)
    as ((Hsize & _) & _ & Haxes & _ & _ & Hdistinct).
  split; [exact Hsize|]. split; [exact Haxes|].
  apply Hdistinct; [vm_compute; lia|].
  vm_compute. repeat constructor; rewrite ?elem_of_cons, ?elem_of_nil; intuition lia.
Defined.

(** C10 as stated fails: the 2 x 3 x 2 frame has more than one
    dimension and sizes that differ, and [dimSize] lists the sizes in
    the very order of the data axes. *)
Lemma palindromic_sizes_same_order :
  (1 < ndims frame_232)%nat ∧
  dim_size <$> dims frame_232 = [2; 3; 2] ∧
  method (example_openFile netcdf_ok "square.nc" 2 frame_232) world_0
    = Returns asynSuccess world_open_232 ∧
  global_ints (new_events world_0 world_open_232) !! 2%nat = Some ("dimSize", [2; 3; 2]) ∧
  dd_len <$> drop 1 (take 4 (dim_defs (new_events world_0 world_open_232))) = [2; 3; 2].
Proof.
  split; [vm_compute; lia|].
  split; [vm_compute; reflexivity|].
  split; [vm_compute; reflexivity|].
  split; vm_compute; reflexivity.
Qed.

(** ** Further worked examples *)

(** A session object a previous file has used. *)
Definition world_stale : world :=
  mkWorld (mkSession 7 7 7 7 7 (Some [1; 2])) [].

(** An open on it against a library that rejects its ninth call, the
    definition of the text axis; and the close that follows. *)
Definition world_reopen_failed : world :=
  returned_world
    (method (example_openFile (netcdf_failing 8) "next.nc" 10 frame_234) world_stale).

Definition world_reopen_closed : world :=
  returned_world (method (closeFile (netcdf_failing 8)) world_reopen_failed).

(** A one-dimensional frame with an unsigned 8-bit attribute above the
    signed range. *)
Definition frame_level : NDArray :=
  mkArray NDUInt8 (example_dims [2]) 1 0 []
    [ mkAttr "level" "fill level" (AttrUInt8 200) ].

Definition world_open_level : world :=
  returned_world (method (example_openFile netcdf_ok "level.nc" 2 frame_level) world_0).

Definition world_written_level : world :=
  returned_world (method (writeFile netcdf_ok frame_level) world_open_level).

Lemma example_reopen_failed :
  method (example_openFile (netcdf_failing 8) "next.nc" 10 frame_234) world_stale
  = Returns asynError world_reopen_failed.
Proof. vm_compute. reflexivity. Qed.

Lemma example_reopen_closed :
  method (closeFile (netcdf_failing 8)) world_reopen_failed
  = Returns asynError world_reopen_closed.
Proof. vm_compute. reflexivity. Qed.

Lemma example_open_level :
  method (example_openFile netcdf_ok "level.nc" 2 frame_level) world_0
  = Returns asynSuccess world_open_level.
Proof. vm_compute. reflexivity. Qed.

Lemma example_write_level :
  method (writeFile netcdf_ok frame_level) world_open_level
  = Returns asynSuccess world_written_level.
Proof. vm_compute. reflexivity. Qed.

Lemma frame_234_defined :
  Forall (λ a, getValueInfo a ≠ NDAttrUndefined) (attributes frame_234).
Proof. repeat (constructor; [vm_compute; discriminate|]). constructor. Defined.

Lemma frame_234_writable : Forall writable (attributes frame_234).
Proof.
  repeat (constructor;
          [split; [vm_compute; discriminate
                  |intros str Hstr; vm_compute in Hstr; try discriminate Hstr;
                   injection Hstr as <-; vm_compute; lia]|]).
  constructor.
Defined.

(** X1 at the example session: the first event of the open is the
    accepted [nc_create], and the session holds its identifier. *)
Lemma openFile_creates_first_witness :
  method (example_openFile netcdf_ok "scan.nc" 10 frame_234) world_0
    = Returns asynSuccess world_open ∧
  ∃ e rest, new_events world_0 world_open = e :: rest ∧
    ev_call e = nc_create "scan.nc" NC_CLOBBER ∧ accepted e ∧
    ev_id e = Some (ncId (this world_open)).
Proof.
  destruct (openFile_creates_first netcdf_ok 1 4 8 4613937818241073152
              example_dataType_code example_attrDataType_code
              "scan.nc" 10 frame_234 world_0 asynSuccess world_open
              eq_refl eq_refl example_open) as (e & rest & Hev & Hcall & Hok).
  split; [exact example_open|]. exists e, rest.
  destruct (Hok eq_refl) as [Hacc Hid].
  split; [exact Hev|]. split; [exact Hcall|]. split; [exact Hacc|exact Hid].
Defined.

(** X2 at the example frame: 26 accepted calls when the library accepts
    everything; a rejected last call when it rejects the ninth. *)
Lemma openFile_fails_only_with_library_witness :
  Forall (λ a, getValueInfo a ≠ NDAttrUndefined) (attributes frame_234) ∧
  Forall readable (attributes frame_234) ∧
  all_accepted (new_events world_0 world_open) ∧
  length (new_events world_0 world_open) = 26%nat ∧
  rejected_last (new_events world_stale world_reopen_failed).
Proof.
  destruct (openFile_fails_only_with_library netcdf_ok 1 4 8 4613937818241073152
              example_dataType_code example_attrDataType_code
              "scan.nc" 10 frame_234 world_0 eq_refl eq_refl frame_234_defined
              frame_234_readable)
    as [_ Hall].
  destruct (Hall asynSuccess world_open example_open)
    as [(_ & Hacc & Hlen)|(Hs & _)]; [|discriminate Hs].
  destruct (openFile_fails_only_with_library (netcdf_failing 8) 1 4 8
              4613937818241073152 example_dataType_code example_attrDataType_code
              "next.nc" 10 frame_234 world_stale eq_refl eq_refl frame_234_defined
              frame_234_readable)
    as [_ Hall2].
  destruct (Hall2 asynError world_reopen_failed example_reopen_failed)
    as [(Hs & _)|(_ & Hrej)]; [discriminate Hs|].
  split; [exact frame_234_defined|]. split; [exact frame_234_readable|].
  split; [exact Hacc|]. split; [exact Hlen|exact Hrej].
Defined.

(** X3 at the open that fails half way: nine calls, all of them
    definitions. *)
Lemma openFile_only_defines_witness :
  method (example_openFile (netcdf_failing 8) "next.nc" 10 frame_234) world_stale
    = Returns asynError world_reopen_failed ∧
  length (new_events world_stale world_reopen_failed) = 9%nat ∧
  calls_in is_define_call (new_events world_stale world_reopen_failed).
Proof.
  destruct (openFile_only_defines (netcdf_failing 8) 1 4 8 4613937818241073152
              example_dataType_code example_attrDataType_code
              "next.nc" 10 frame_234 world_stale asynError world_reopen_failed
              example_reopen_failed) as [Hdef _].
  split; [exact example_reopen_failed|].
  split; [vm_compute; reflexivity|exact Hdef].
Defined.

(** X4 at the example session: six accepted calls and the cursor one
    higher; against the library that rejects its 29th call, a rejected
    last call and the session as it was. *)
Lemma writeFile_fails_only_with_library_witness :
  pAttributeId (this world_open) = Some [3; 4; 5] ∧
  Forall writable (attributes frame_234) ∧
  length (new_events world_open world_written) = 6%nat ∧
  nextRecord (this world_written) = nextRecord (this world_open) + 1 ∧
  rejected_last (new_events world_open_28 world_failed_28) ∧
  this world_failed_28 = this world_open_28.
Proof.
  assert (pAttributeId (this world_open) = Some [3; 4; 5]) as Hids
    by (vm_compute; reflexivity).
  assert (pAttributeId (this world_open_28) = Some [3; 4; 5]) as Hids28
    by (vm_compute; reflexivity).
  assert (numAttributes frame_234 ≤ length [3; 4; 5])%nat as Hn
    by (vm_compute; lia).
  destruct (writeFile_fails_only_with_library netcdf_ok frame_234 world_open
              [3; 4; 5] Hids Hn frame_234_writable) as [_ Hall].
  destruct (Hall asynSuccess world_written example_write)
    as [(_ & _ & Hlen & Hcur)|(Hs & _)]; [|discriminate Hs].
  destruct (writeFile_fails_only_with_library (netcdf_failing 28) frame_234
              world_open_28 [3; 4; 5] Hids28 Hn frame_234_writable) as [_ Hall2].
  destruct (Hall2 asynError world_failed_28 example_write_28)
    as [(Hs & _)|(_ & Hrej & Hsame)]; [discriminate Hs|].
  split; [exact Hids|]. split; [exact frame_234_writable|].
  split; [exact Hlen|]. split; [exact Hcur|]. split; [exact Hrej|exact Hsame].
Defined.

(** X5 at the example session. *)
Lemma writeFile_only_writes_slabs_witness :
  method (writeFile netcdf_ok frame_234) world_open
    = Returns asynSuccess world_written ∧
  calls_in is_slab_write (new_events world_open world_written) ∧
  var_defs (new_events world_open world_written) = [] ∧
  same_handles (this world_open) (this world_written).
Proof.
  destruct (writeFile_only_writes_slabs netcdf_ok frame_234 world_open
              asynSuccess world_written example_write)
    as (Hslabs & _ & Hvars & _ & _ & _ & Hsame).
  split; [exact example_write|]. split; [exact Hslabs|].
  split; [exact Hvars|exact Hsame].
Defined.


(** X7 at the example session: the timestamp goes through the function
    for doubles into a variable of type double, and the string attribute
    through the one for text into a variable of type char. *)
Lemma writes_use_the_declared_types_witness :
  vd_type <$> var_defs (new_events world_0 world_open) !! 1%nat = Some NC_DOUBLE ∧
  vd_type <$> var_defs (new_events world_0 world_open) !! 5%nat = Some NC_CHAR.
Proof.
  destruct (writes_use_the_declared_types netcdf_ok 1 4 8
              4613937818241073152 example_dataType_code example_attrDataType_code
              "scan.nc" 10 frame_234 world_0 world_open world_written
              frame_234 asynSuccess world_written_twice
              example_open example_session example_write_again)
    as (Hrec & _ & Hattr).
  split.
  - rewrite <- (Hrec 1%nat
                  (nc_put_vara_double 65536 1 [1; 0; 0; 0] [1; 4; 3; 2]
                     (buf_value 4636737291354636288))
                  ltac:(lia) ltac:(vm_compute; reflexivity)).
    reflexivity.
  - destruct (Hattr 2%nat
                (nc_put_vara_text 65536 5 [1; 0; 0; 0] [1; 4] "mark")
                (mkAttr "who" "operator" (AttrString "mark"))
                (mkAttr "who" "operator" (AttrString "mark"))
                ltac:(vm_compute; reflexivity) eq_refl eq_refl eq_refl)
      as [Htype _].
    exact (eq_trans (eq_sym Htype) eq_refl).
Defined.

(** X8 at the example session: the close after the write closes file
    65536, the one the open created. *)
Lemma closeFile_closes_the_opened_file_witness :
  ∃ ncid e,
    new_events world_0 world_open !! 0%nat
      = Some (gives (nc_create "scan.nc" NC_CLOBBER) ncid) ∧
    new_events world_written world_closed = [e] ∧
    ev_call e = nc_close ncid ∧ accepted e.
Proof.
  destruct (closeFile_closes_the_opened_file netcdf_ok 1 4 8
              4613937818241073152 example_dataType_code example_attrDataType_code
              "scan.nc" 10 frame_234 world_0 world_open world_written
              asynSuccess world_closed
              example_open example_session example_close)
    as (ncid & e & H0 & Hev & Hcall & Hacc & _).
  exists ncid, e. split; [exact H0|]. split; [exact Hev|].
  split; [exact Hcall|]. apply Hacc. reflexivity.
Defined.

(** X9 at the open that fails half way on a used session: the cursor
    goes from 7 to 0, the session holds the new file, and the close that
    follows is a call to close it. *)
Lemma failed_open_keeps_the_new_file_witness :
  method (example_openFile (netcdf_failing 8) "next.nc" 10 frame_234) world_stale
    = Returns asynError world_reopen_failed ∧
  nextRecord (this world_stale) = 7 ∧
  nextRecord (this world_reopen_failed) = 0 ∧
  ev_id (gives (nc_create "next.nc" NC_CLOBBER) 65536)
    = Some (ncId (this world_reopen_failed)) ∧
  ev_call <$> new_events world_reopen_failed world_reopen_closed
    = [nc_close (ncId (this world_reopen_failed))].
Proof.
  destruct (failed_open_keeps_the_new_file (netcdf_failing 8) 1 4 8
              4613937818241073152 example_dataType_code example_attrDataType_code
              "next.nc" 10 frame_234 world_stale asynError world_reopen_failed
              eq_refl eq_refl example_reopen_failed) as [Hcur Hfile].
  destruct (Hfile (gives (nc_create "next.nc" NC_CLOBBER) 65536)
              ltac:(vm_compute; reflexivity) eq_refl) as [Hid Hclose].
  split; [exact example_reopen_failed|]. split; [reflexivity|].
  split; [exact Hcur|]. split; [exact Hid|].
  exact (Hclose asynError world_reopen_closed example_reopen_closed).
Defined.

(** X10 at an unsigned 8-bit attribute of value 200: the library is
    handed -56. *)
Lemma integer_attribute_written_signed_witness :
  method (writeFile netcdf_ok frame_level) world_open_level
    = Returns asynSuccess world_written_level ∧
  ∃ c x, (ev_call <$> new_events world_open_level world_written_level) !! 3%nat
           = Some c ∧
    buffer_of c = Some (buf_value x) ∧ x = 200 - 2 ^ 8 ∧ x = -56.
Proof.
  split; [exact example_write_level|].
  destruct (integer_attribute_written_signed netcdf_ok frame_level
              world_open_level asynSuccess world_written_level 0%nat
              (mkAttr "level" "fill level" (AttrUInt8 200))
              (nc_put_vara_schar 65536 3 [0; 0] [1; 2] (buf_value (-56)))
              8 200 example_write_level eq_refl eq_refl
              ltac:(vm_compute; reflexivity))
    as (x & Hbuf & _ & _ & _ & Hhigh).
  eexists. exists x. split; [vm_compute; reflexivity|].
  split; [exact Hbuf|].
  assert (x = 200 - 2 ^ 8) as Hx 
    by (apply Hhigh; vm_compute; split; [discriminate|reflexivity]).
  split; [exact Hx|]. rewrite Hx. reflexivity.
Defined.

(** X11 at the example frame: the first attribute's description and
    type code, under keys that are not cut. *)
Lemma attribute_metadata_keys_witness :
  global_texts (new_events world_0 world_open) !! 0%nat
    = Some ("gain_Description", "detector gain") ∧
  global_ints (new_events world_0 world_open) !! 6%nat
    = Some ("gain_DataType", [4]).
Proof.
  destruct (attribute_metadata_keys netcdf_ok 1 4 8
              4613937818241073152 example_dataType_code example_attrDataType_code
              "scan.nc" 10 frame_234 world_0 world_open example_open) as [_ Hk].
  destruct (Hk 0%nat (mkAttr "gain" "detector gain" (AttrInt32 5)) eq_refl
              ltac:(vm_compute; lia) ltac:(vm_compute; lia))
    as (kd & kt & Hd & Ht & _ & _ & Hkd & Hkt).
  rewrite (Hkd ltac:(vm_compute; lia)) in Hd.
  rewrite (Hkt ltac:(vm_compute; lia)) in Ht.
  split; [exact Hd|exact Ht].
Defined.

(** X12 at the example frame: five axes and six variables; "gain" lies
    over the record axis, "who" over the record axis and the text
    axis. *)
Lemma attribute_variable_shape_witness :
  length (dim_defs (new_events world_0 world_open)) = 5%nat ∧
  length (var_defs (new_events world_0 world_open)) = 6%nat ∧
  ∃ d0 dS v3 v5,
    dim_defs (new_events world_0 world_open) !! 0%nat = Some d0 ∧
    dim_defs (new_events world_0 world_open) !! 4%nat = Some dS ∧
    dd_len dS = 256 ∧
    var_defs (new_events world_0 world_open) !! 3%nat = Some v3 ∧
    vd_name v3 = "gain" ∧ vd_dimids v3 = [dd_id d0] ∧
    var_defs (new_events world_0 world_open) !! 5%nat = Some v5 ∧
    vd_name v5 = "who" ∧ vd_dimids v5 = [dd_id d0; dd_id dS].
Proof.
  destruct (attribute_variable_shape netcdf_ok 1 4 8
              4613937818241073152 example_dataType_code example_attrDataType_code
              "scan.nc" 10 frame_234 world_0 world_open example_open)
    as (Hdims & Hvars & d0 & dS & Hd0 & HdS & _ & Hlen & Hshape).
  destruct (Hshape 0%nat (mkAttr "gain" "detector gain" (AttrInt32 5)) eq_refl)
    as (v3 & Hv3 & Hn3 & _ & Hone).
  destruct (Hshape 2%nat (mkAttr "who" "operator" (AttrString "mark")) eq_refl)
    as (v5 & Hv5 & Hn5 & Htwo & _).
  split; [exact Hdims|]. split; [exact Hvars|].
  exists d0, dS, v3, v5.
  split; [exact Hd0|]. split; [exact HdS|]. split; [exact Hlen|].
  split; [exact Hv3|]. split; [apply Hn3; vm_compute; lia|].
  split; [apply Hone; vm_compute; discriminate|].
  split; [exact Hv5|]. split; [apply Hn5; vm_compute; lia|].
  apply Htwo. reflexivity.
Defined.

(** X13 at the example session: the second write puts the four
    characters of "mark" at record 1 of variable 5, whose text axis has
    length 256. *)
Lemma text_write_inside_its_variable_witness :
  ∃ v dS start len,
    var_defs (new_events world_0 world_open) !! 5%nat = Some v ∧
    dim_defs (new_events world_0 world_open) !! 4%nat = Some dS ∧
    slab_of (nc_put_vara_text 65536 5 [1; 0; 0; 0] [1; 4] "mark")
      = Some (vd_id v, start, [1; len]) ∧
    len = 4 ∧ 0 ≤ len < dd_len dS ∧
    start !! 0%nat = Some (nextRecord (this world_written)) ∧
    start !! 1%nat = Some 0.
Proof.
  destruct (text_write_inside_its_variable netcdf_ok 1 4 8
              4613937818241073152 example_dataType_code example_attrDataType_code
              "scan.nc" 10 frame_234 world_0 world_open world_written
              frame_234 asynSuccess world_written_twice 2%nat
              (mkAttr "who" "operator" (AttrString "mark"))
              (mkAttr "who" "operator" (AttrString "mark")) "mark"
              (nc_put_vara_text 65536 5 [1; 0; 0; 0] [1; 4] "mark")
              example_open example_session example_write_again
              eq_refl eq_refl eq_refl eq_refl ltac:(vm_compute; lia)
              ltac:(vm_compute; reflexivity))
    as (v & d0 & dS & start & len & Hv & _ & HdS & _ & _ & _ & Hslab & Hlen
        & Hfits & Hcur & Hzero).
  exists v, dS, start, len.
  split; [exact Hv|]. split; [exact HdS|]. split; [exact Hslab|].
  split; [exact Hlen|]. split; [exact Hfits|]. split; [exact Hcur|].
  apply Hzero. vm_compute. lia.
Defined.

(** X15 at the fresh and at the used session object: the same open
    leaves the same events and the same session. *)
Lemma openFile_forgets_the_previous_session_witness :
  ncId (this world_stale) = 7 ∧ ncId (this world_0) = 0 ∧
  ∃ v', method (example_openFile netcdf_ok "scan.nc" 10 frame_234) world_stale
          = Returns asynSuccess v' ∧
    new_events world_stale v' = new_events world_0 world_open ∧
    this v' = this world_open.
Proof.
  destruct (openFile_forgets_the_previous_session netcdf_ok 1 4 8
              4613937818241073152 example_dataType_code example_attrDataType_code
              "scan.nc" 10 frame_234 world_0 world_stale asynSuccess world_open
              eq_refl example_open) as (v' & Hopen & Hev & Hthis).
  split; [reflexivity|]. split; [reflexivity|].
  exists v'. split; [exact Hopen|]. split; [exact Hev|]. exact (Hthis eq_refl).
Defined.
